(** * CalendarSyncBridge: the reconciliation engine of [main.py]

    A shallow embedding of [main.py] (the two calendar clients and
    [CalendarSyncManager]) together with the part of Python's [datetime]
    module the program relies on, and the properties of the engine.

    Layout:
    - Part 1: Python values the program manipulates (exceptions, dates,
      datetimes, ISO-8601 text).
    - Part 2: records, the remote services, the world and the effect monad.
    - Part 3: the program: [YandexCalendarClient], [GoogleCalendarClient],
      [CalendarSyncManager].
    - Part 3b: start-up: the constructors of the two clients,
      [_authenticate] and [main].
    - Part 4: the helper [convert_iso_timezone] as the spec describes it,
      and a reference environment and platform to run the program on
      concrete data.
    - Part 5: vocabulary of the properties and concrete data.
    - Part 6: lemmas and theorems of the engine.
    - Part 7: further properties: text round trips, the window check,
      the loops of [get_events], the write-back pass, start-up.
    - Part 8: two runs in a row: what the first run wrote comes back to
      the second. *)

From Stdlib Require Import ZArith Ascii String List Lia Bool.
From stdpp Require Import base option gmap strings pretty list fin_maps fin_sets sets.

#[local] Set Warnings "-clear-no-such-hyp".

Local Open Scope string_scope.
Local Open Scope Z_scope.

(* ===================================================================== *)
(** * Part 1: Python values *)
(* ===================================================================== *)

(** ** Exceptions and fallible computations *)

(** The exception classes that the modelled code paths can raise.
    [RemoteError] stands for whatever a client library raises when the
    network call or the provider fails (caldav's DAVError, googleapiclient's
    HttpError, socket errors, ...). *)
Inductive exn : Type :=
  | ValueError (msg : string)
  | TypeError (msg : string)
  | AttributeError (msg : string)
  | OverflowError (msg : string)
  | KeyError (key : string)
  | RemoteError (msg : string).

(** A pure computation that either raises or returns. *)
Inductive res (A : Type) : Type :=
  | Raise (e : exn)
  | Ok (a : A).
Arguments Raise {A} e.
Arguments Ok {A} a.

Definition res_bind {A B} (r : res A) (k : A -> res B) : res B :=
  match r with
  | Raise e => Raise e
  | Ok a => k a
  end.

Declare Scope res_scope.
Delimit Scope res_scope with res.
Notation "'let?' x := r 'in' k" := (res_bind r (fun x => k))
  (at level 10, x pattern, r at level 100, k at level 200) : res_scope.
Local Open Scope res_scope.

(** ** Dates: the proleptic Gregorian calendar of [datetime.date] *)

Module Date.

Record t : Type := mk { year : Z; month : Z; day : Z }.

Definition MINYEAR : Z := 1.
Definition MAXYEAR : Z := 9999.
(** [date.max.toordinal()] *)
Definition MAXORDINAL : Z := 3652059.

Definition is_leap (y : Z) : bool :=
  (y mod 4 =? 0) && (negb (y mod 100 =? 0) || (y mod 400 =? 0)).

(** [_days_before_year]: number of days before January 1st of year [y]. *)
Definition days_before_year (y : Z) : Z :=
  let y' := y - 1 in
  y' * 365 + y' / 4 - y' / 100 + y' / 400.

(** [_DAYS_IN_MONTH], index 1..12. *)
Definition DAYS_IN_MONTH (m : Z) : Z :=
  match m with
  | 1 => 31 | 2 => 28 | 3 => 31 | 4 => 30 | 5 => 31 | 6 => 30
  | 7 => 31 | 8 => 31 | 9 => 30 | 10 => 31 | 11 => 30 | 12 => 31
  | _ => -1
  end.

(** [_DAYS_BEFORE_MONTH], index 1..12. *)
Definition DAYS_BEFORE_MONTH (m : Z) : Z :=
  match m with
  | 1 => 0 | 2 => 31 | 3 => 59 | 4 => 90 | 5 => 120 | 6 => 151
  | 7 => 181 | 8 => 212 | 9 => 243 | 10 => 273 | 11 => 304 | 12 => 334
  | _ => -1
  end.

Definition days_in_month (y m : Z) : Z :=
  if (m =? 2) && is_leap y then 29 else DAYS_IN_MONTH m.

Definition days_before_month (y m : Z) : Z :=
  DAYS_BEFORE_MONTH m + (if (2 <? m) && is_leap y then 1 else 0).

(** [_ymd2ord]: January 1st of year 1 is day 1. *)
Definition ymd2ord (y m d : Z) : Z :=
  days_before_year y + days_before_month y m + d.

Definition toordinal (d : t) : Z := ymd2ord (year d) (month d) (day d).

Definition DI400Y : Z := 146097.
Definition DI100Y : Z := 36524.
Definition DI4Y : Z := 1461.

(** The end of [_ord2ymd]: month and day of the zero-based day [n] of a
    year, leap or not. The month is first estimated as [(n + 50) >> 5] and
    corrected downwards when the estimate is too high. *)
Definition month_day (leapyear : bool) (n : Z) : Z * Z :=
  let month := Z.shiftr (n + 50) 5 in
  let preceding :=
    DAYS_BEFORE_MONTH month + (if (2 <? month) && leapyear then 1 else 0) in
  if n <? preceding then
    let month' := month - 1 in
    let preceding' :=
      preceding
      - (DAYS_IN_MONTH month' + (if (month' =? 2) && leapyear then 1 else 0)) in
    (month', n - preceding' + 1)
  else (month, n - preceding + 1).

(** The part of [_ord2ymd] that works inside one 400-year cycle: [r] is
    the zero-based day number within the cycle; the result is the year
    within the cycle (1-based), the month and the day. *)
Definition ord2ymd_cycle (r : Z) : Z * Z * Z :=
  let n100 := r / DI100Y in
  let n := r mod DI100Y in
  let n4 := n / DI4Y in
  let n := n mod DI4Y in
  let n1 := n / 365 in
  let n := n mod 365 in
  let y := 1 + n100 * 100 + n4 * 4 + n1 in
  if (n1 =? 4) || (n100 =? 4) then (y - 1, 12, 31)
  else
    let leapyear := (n1 =? 3) && (negb (n4 =? 24) || (n100 =? 3)) in
    let '(month, day) := month_day leapyear n in
    (y, month, day).

(** [_ord2ymd] *)
Definition ord2ymd (n : Z) : t :=
  let n0 := n - 1 in
  let n400 := n0 / DI400Y in
  let '(y, m, d) := ord2ymd_cycle (n0 mod DI400Y) in
  mk (n400 * 400 + y) m d.

Definition fromordinal (n : Z) : t := ord2ymd n.

(** What the [date] constructor checks. *)
Definition valid (d : t) : bool :=
  (MINYEAR <=? year d) && (year d <=? MAXYEAR)
  && (1 <=? month d) && (month d <=? 12)
  && (1 <=? day d) && (day d <=? days_in_month (year d) (month d)).

(** [timedelta(days=n)]: the constructor refuses more than 999999999
    days in either direction; the day count passes through a C [int] on
    the way, which has a message of its own. *)
Definition timedelta_days (n : Z) : res Z :=
  if (Z.abs n <=? 999999999) then Ok n
  else if (- 2147483648 <=? n) && (n <=? 2147483647)
  then Raise (OverflowError
                ("days=" +:+ pretty n +:+ "; must have magnitude <= 999999999"))
  else Raise (OverflowError "Python int too large to convert to C int").

(** [date.__add__] with a timedelta of [days] days. *)
Definition add_days (d : t) (days : Z) : res t :=
  let o := toordinal d + days in
  if (0 <? o) && (o <=? MAXORDINAL) then Ok (fromordinal o)
  else Raise (OverflowError "date value out of range").

(** [date.__sub__] with a timedelta: [self + timedelta(-other.days)]. *)
Definition sub_days (d : t) (days : Z) : res t := add_days d (- days).

End Date.

(** ** Text helpers: fixed-width decimal fields *)

Definition digit_char (d : Z) : ascii := ascii_of_N (48 + Z.to_N d).

(** ["%0wd" % n] for [0 <= n < 10^w], which is where the fields of a
    datetime object live (years have at most four digits). *)
Fixpoint fmt_0d (w : nat) (n : Z) : string :=
  match w with
  | O => ""
  | S w' => fmt_0d w' (n / 10) +:+ String (digit_char (n mod 10)) ""
  end.

Definition digit_of (c : ascii) : option Z :=
  let n := N_of_ascii c in
  if ((48 <=? n) && (n <=? 57))%N then Some (Z.of_N n - 48) else None.

(** Reads exactly [w] decimal digits; returns the number and the rest. *)
Fixpoint parse_digits (w : nat) (acc : Z) (s : string) : option (Z * string) :=
  match w with
  | O => Some (acc, s)
  | S w' =>
      match s with
      | String c s' =>
          match digit_of c with
          | Some d => parse_digits w' (acc * 10 + d) s'
          | None => None
          end
      | EmptyString => None
      end
  end.

(** Consumes one given character. *)
Definition expect (c : ascii) (s : string) : option string :=
  match s with
  | String c' s' => if Ascii.eqb c c' then Some s' else None
  | EmptyString => None
  end.

(** ** Datetimes *)

Module DateTime.

(** A [datetime] object. [tzinfo] is [None] for a naive datetime and
    otherwise holds the UTC offset, in microseconds, that the attached
    tzinfo object yields for this datetime ([self.utcoffset()]); UTC
    itself ([timezone.utc], [pytz.utc]) is offset [0]. *)
Record t : Type := mk {
  date : Date.t;
  hour : Z;
  minute : Z;
  second : Z;
  microsecond : Z;
  tzinfo : option Z;
}.

Definition utc : Z := 0.

Definition US_PER_SECOND : Z := 1000000.
Definition US_PER_DAY : Z := 86400 * US_PER_SECOND.

(** What the [datetime] constructor checks; a tzinfo of class
    [timezone] has an offset strictly between -24h and +24h. *)
Definition valid_time (h m s us : Z) : bool :=
  (0 <=? h) && (h <=? 23) && (0 <=? m) && (m <=? 59)
  && (0 <=? s) && (s <=? 59) && (0 <=? us) && (us <=? 999999).

Definition valid_offset (off : Z) : bool :=
  (- US_PER_DAY <? off) && (off <? US_PER_DAY).

Definition valid (d : t) : bool :=
  Date.valid (date d)
  && valid_time (hour d) (minute d) (second d) (microsecond d)
  && match tzinfo d with None => true | Some off => valid_offset off end.

(** [time.min] and [time.max] as (hour, minute, second, microsecond). *)
Definition time_min : Z * Z * Z * Z := (0, 0, 0, 0).
Definition time_max : Z * Z * Z * Z := (23, 59, 59, 999999).

(** [datetime.combine(date, time)] for a naive time. *)
Definition combine (d : Date.t) (tm : Z * Z * Z * Z) : t :=
  let '(h, m, s, us) := tm in mk d h m s us None.

(** [dt.replace(tzinfo=tz)] *)
Definition replace_tzinfo (d : t) (tz : option Z) : t :=
  mk (date d) (hour d) (minute d) (second d) (microsecond d) tz.

(** [dt.replace(microsecond=us)] *)
Definition replace_microsecond (d : t) (us : Z) : t :=
  mk (date d) (hour d) (minute d) (second d) us (tzinfo d).

(** [dt.date()] *)
Definition date_of (d : t) : Date.t := date d.

(** The wall-clock reading as microseconds since the (fictitious) day 0:
    [timedelta(self.toordinal(), hours=.., minutes=.., seconds=..,
    microseconds=..)]. *)
Definition wall_us (d : t) : Z :=
  (((Date.toordinal (date d) * 24 + hour d) * 60 + minute d) * 60
   + second d) * US_PER_SECOND + microsecond d.

(** The instant an aware datetime with offset [off] denotes. *)
Definition instant_us (d : t) (off : Z) : Z := wall_us d - off.

(** [datetime.__add__] with a timedelta of [delta] microseconds; the
    tzinfo is kept. *)
Definition add_us (d : t) (delta : Z) : res t :=
  let total := wall_us d + delta in
  let days := total / US_PER_DAY in
  let rem := total mod US_PER_DAY in
  let secs := rem / US_PER_SECOND in
  let us := rem mod US_PER_SECOND in
  let h := secs / 3600 in
  let m := (secs mod 3600) / 60 in
  let s := (secs mod 3600) mod 60 in
  if (0 <? days) && (days <=? Date.MAXORDINAL)
  then Ok (mk (Date.fromordinal days) h m s us (tzinfo d))
  else Raise (OverflowError "date value out of range").

(** [dt.astimezone(tz)] for an aware [dt] whose own offset is [off] and a
    fixed-offset target [tz]:
    [utc = (self - offset).replace(tzinfo=tz); return tz.fromutc(utc)]. *)
Definition astimezone (d : t) (off : Z) (tz : Z) : res t :=
  let? u := add_us d (- off) in
  add_us (replace_tzinfo u (Some tz)) tz.

(** [_format_offset] *)
Definition format_offset (tz : option Z) : string :=
  match tz with
  | None => ""
  | Some off =>
      let sign := if off <? 0 then "-" else "+" in
      let a := Z.abs off in
      let hh := a / (3600 * US_PER_SECOND) in
      let r := a mod (3600 * US_PER_SECOND) in
      let mm := r / (60 * US_PER_SECOND) in
      let r := r mod (60 * US_PER_SECOND) in
      let ss := r / US_PER_SECOND in
      let us := r mod US_PER_SECOND in
      sign +:+ fmt_0d 2 hh +:+ ":" +:+ fmt_0d 2 mm
      +:+ (if (ss =? 0) && (us =? 0) then ""
           else ":" +:+ fmt_0d 2 ss
                +:+ (if us =? 0 then "" else "." +:+ fmt_0d 6 us))
  end.

Definition format_date (d : Date.t) : string :=
  fmt_0d 4 (Date.year d) +:+ "-" +:+ fmt_0d 2 (Date.month d)
  +:+ "-" +:+ fmt_0d 2 (Date.day d).

Definition format_hms (d : t) : string :=
  fmt_0d 2 (hour d) +:+ ":" +:+ fmt_0d 2 (minute d)
  +:+ ":" +:+ fmt_0d 2 (second d).

(** [dt.isoformat()]: the fraction is printed only when it is not zero. *)
Definition isoformat (d : t) : string :=
  format_date (date d) +:+ "T" +:+ format_hms d
  +:+ (if microsecond d =? 0 then "" else "." +:+ fmt_0d 6 (microsecond d))
  +:+ format_offset (tzinfo d).

(** [dt.isoformat(timespec="seconds")]: never a fraction. *)
Definition isoformat_seconds (d : t) : string :=
  format_date (date d) +:+ "T" +:+ format_hms d +:+ format_offset (tzinfo d).

(** [str(dt)], which is [dt.isoformat(sep=" ")]. *)
Definition str (d : t) : string :=
  format_date (date d) +:+ " " +:+ format_hms d
  +:+ (if microsecond d =? 0 then "" else "." +:+ fmt_0d 6 (microsecond d))
  +:+ format_offset (tzinfo d).

(** *** [datetime.fromisoformat]

    The grammar below is the one every CPython from 3.7 on accepts and
    the one [isoformat] emits:
    [YYYY-MM-DD], optionally followed by one separator character and
    [HH], [HH:MM], [HH:MM:SS], [HH:MM:SS.fff] or [HH:MM:SS.ffffff],
    optionally followed by [+] or [-] and [HH:MM], [HH:MM:SS] or
    [HH:MM:SS.ffffff]. Anything else is a [ValueError] here, as it is in
    CPython 3.7 to 3.10; CPython 3.11 and later also read other ISO 8601
    spellings, such as a trailing [Z]. No property below rests on a text
    being refused: where a parse matters, its success is a hypothesis or
    the text comes from [isoformat]. *)

(** Parses a whole string [HH[:MM[:SS[.fff[fff]]]]]. *)
Definition parse_hh_mm_ss_ff (s : string) : option (Z * Z * Z * Z) :=
  '(h, s1) ← parse_digits 2 0 s;
  match s1 with
  | EmptyString => Some (h, 0, 0, 0)
  | _ =>
      s1 ← expect ":" s1;
      '(m, s2) ← parse_digits 2 0 s1;
      match s2 with
      | EmptyString => Some (h, m, 0, 0)
      | _ =>
          s2 ← expect ":" s2;
          '(sec, s3) ← parse_digits 2 0 s2;
          match s3 with
          | EmptyString => Some (h, m, sec, 0)
          | _ =>
              s3 ← expect "." s3;
              match String.length s3 with
              | 3%nat =>
                  '(ms, _) ← parse_digits 3 0 s3; Some (h, m, sec, ms * 1000)
              | 6%nat =>
                  '(us, _) ← parse_digits 6 0 s3; Some (h, m, sec, us)
              | _ => None
              end
          end
      end
  end.

(** Splits a time string at its first [+] or [-]: the time proper, and
    the sign and text of the offset when there is one. *)
Fixpoint split_offset (s : string) : string * option (bool * string) :=
  match s with
  | EmptyString => (EmptyString, None)
  | String c s' =>
      if Ascii.eqb c "+" then (EmptyString, Some (false, s'))
      else if Ascii.eqb c "-" then (EmptyString, Some (true, s'))
      else let '(tm, tz) := split_offset s' in (String c tm, tz)
  end.

Definition parse_offset (neg : bool) (s : string) : option Z :=
  match String.length s with
  | 5%nat | 8%nat | 15%nat =>
      '(h, m, sec, us) ← parse_hh_mm_ss_ff s;
      let a := ((h * 60 + m) * 60 + sec) * US_PER_SECOND + us in
      Some (if neg then - a else a)
  | _ => None
  end.

Definition parse_isoformat (s : string) : option t :=
  '(y, s) ← parse_digits 4 0 s;
  s ← expect "-" s;
  '(mo, s) ← parse_digits 2 0 s;
  s ← expect "-" s;
  '(d, s) ← parse_digits 2 0 s;
  match s with
  | EmptyString => Some (mk (Date.mk y mo d) 0 0 0 0 None)
  | String _sep s =>
      let '(tm, tz) := split_offset s in
      '(h, m, sec, us) ← parse_hh_mm_ss_ff tm;
      match tz with
      | None => Some (mk (Date.mk y mo d) h m sec us None)
      | Some (neg, tzs) =>
          off ← parse_offset neg tzs;
          Some (mk (Date.mk y mo d) h m sec us (Some off))
      end
  end.

Definition fromisoformat (s : string) : res t :=
  match parse_isoformat s with
  | Some d =>
      if valid d then Ok d
      else Raise (ValueError "value out of range")
  | None => Raise (ValueError ("Invalid isoformat string: " +:+ s))
  end.

(** *** Comparison ([datetime._cmp]) *)

Definition fields (d : t) : list Z :=
  [Date.year (date d); Date.month (date d); Date.day (date d);
   hour d; minute d; second d; microsecond d].

Fixpoint cmp_fields (a b : list Z) : comparison :=
  match a, b with
  | x :: a', y :: b' =>
      match x ?= y with
      | Eq => cmp_fields a' b'
      | c => c
      end
  | [], [] => Eq
  | [], _ :: _ => Lt
  | _ :: _, [] => Gt
  end.

(** Two naive datetimes, or two aware ones with the same offset, compare
    field by field; two aware ones with different offsets compare as
    instants; a naive and an aware one do not compare. *)
Definition cmp (a b : t) : res comparison :=
  match tzinfo a, tzinfo b with
  | None, None => Ok (cmp_fields (fields a) (fields b))
  | Some oa, Some ob =>
      if oa =? ob then Ok (cmp_fields (fields a) (fields b))
      else Ok (instant_us a oa ?= instant_us b ob)
  | _, _ => Raise (TypeError "can't compare offset-naive and offset-aware datetimes")
  end.

(** [a < b] *)
Definition lt (a b : t) : res bool :=
  let? c := cmp a b in Ok (match c with Lt => true | _ => false end).

(** [a > b] *)
Definition gt (a b : t) : res bool :=
  let? c := cmp a b in Ok (match c with Gt => true | _ => false end).

End DateTime.

(* ===================================================================== *)
(** * Part 2: records, remote services, world and effects *)
(* ===================================================================== *)

(** ** Records exchanged with the providers *)

(** The [.dt] of an iCalendar date-time property: a [datetime] or, for an
    all-day entry, a plain [date]. *)
Inductive dtvalue : Type :=
  | DtDateTime (d : DateTime.t)
  | DtDate (d : Date.t).

(** A VEVENT component as [icalendar] presents it; a property that the
    component does not carry is [None] ([component.get] returns [None]). *)
Record VEvent : Type := mkVEvent {
  summary : option string;
  vdescription : option string;
  dtstart : option dtvalue;
  dtend : option dtvalue;
}.

(** The [start] and [end] objects of a Google event resource; only the
    [dateTime] member is read by the program. *)
Record GTime : Type := mkGTime { dateTime : option string }.

(** An item of a Google [events().list()] response. *)
Record GItem : Type := mkGItem {
  g_summary : option string;
  g_description : option string;
  g_start : option GTime;
  g_end : option GTime;
}.

(** The canonical event: the dict with keys ["name"], ["description"],
    ["start"], ["end"] that both [get_events] build. [name] is [None] when
    the Python value is [None]. *)
Record EventData : Type := mkEventData {
  name : option string;
  description : string;
  start : string;
  end_ : string;
}.

(** The VEVENT that [YandexCalendarClient.add_event] builds and, once
    serialised, sends (the enclosing VCALENDAR only adds the constants
    prodid and version). *)
Record ICalEvent : Type := mkICalEvent {
  uid : nat;
  i_summary : option string;
  i_description : string;
  i_dtstart : DateTime.t;
  i_dtend : DateTime.t;
}.

(** [cal.to_ical()]: a date-time property is written as
    [%Y%m%dT%H%M%S] with its zone, so the microseconds of the datetime
    are not in the text that is sent. *)
Definition to_ical (ical_event : ICalEvent) : ICalEvent :=
  mkICalEvent (uid ical_event) (i_summary ical_event) (i_description ical_event)
              (DateTime.replace_microsecond (i_dtstart ical_event) 0)
              (DateTime.replace_microsecond (i_dtend ical_event) 0).

(** The body that [GoogleCalendarClient.add_event] inserts. *)
Record GBody : Type := mkGBody {
  b_summary : option string;
  b_description : string;
  b_start_dateTime : string;
  b_start_timeZone : string;
  b_end_dateTime : string;
  b_end_timeZone : string;
}.

(** [str(x)] / [f"{x}"] for a value that is a string or [None]. *)
Definition py_str (x : option string) : string :=
  match x with
  | Some s => s
  | None => "None"
  end.

(** The settings of [Config] that the modelled code reads. *)
Record Config : Type := mkConfig {
  yandex_calname : string;
  google_calname : string;
  past_days : Z;
  future_days : Z;
}.

(** ** What the program prints *)

Inductive Line : Type :=
  | LineTotals (n_all n_yandex n_google : nat)
  | LineMissingYandex (keys : gset string)
  | LineMissingGoogle (keys : gset string)
  | LineSkipped (name : option string) (start_dt : DateTime.t).

(** The text of the skip message of [GoogleCalendarClient.add_event]. *)
Definition render_skipped (n : option string) (start_dt : DateTime.t) : string :=
  "Event '" +:+ py_str n +:+ "' skipped because its start time "
  +:+ DateTime.str start_dt +:+ " is out of range.".

(** ** Observable effects, in the order they happen

    The four remote calls, the lines printed, and the entries into the two
    [add_event] methods (recorded with their arguments, so that a property
    can speak of a method being invoked whether or not it ends up writing). *)

Inductive Effect : Type :=
  | CalSearch (s e : DateTime.t)
  | CalAddEvent (ics : ICalEvent)
  | EventsList (calendarId timeMin timeMax : string)
  | EventsInsert (calendarId : string) (body : GBody)
  | CallYandexAdd (event_data : EventData)
  | CallGoogleAdd (event_data : EventData) (time_limit time_limit_future : DateTime.t)
  | Print (l : Line).

(** ** The environment the program runs in

    The two providers are reached through client libraries ([caldav],
    [googleapiclient]); what they answer is not decided by the program. An
    environment gives, for each provider, a state and the four remote
    operations the program uses; each may raise. It also fixes the order in
    which a Python [set] of strings is iterated, which the language leaves
    open. *)
Class Environment : Type := {
  YStore : Type;
  GStore : Type;
  (** [calendar.search(start=.., end=..)]: the resources found, each with
      its VEVENT components. *)
  calendar_search : YStore -> DateTime.t -> DateTime.t -> res (list (list VEvent));
  (** [calendar.add_event(ics)] *)
  calendar_add_event : YStore -> ICalEvent -> res YStore;
  (** [service.events().list(calendarId, timeMin, timeMax,
      singleEvents=True).execute()]: the ["items"] member of the response,
      when it has one. *)
  events_list : GStore -> string -> string -> string -> res (option (list GItem));
  (** [service.events().insert(calendarId, body).execute()] *)
  events_insert : GStore -> string -> GBody -> res GStore;
  set_iter : gset string -> list string;
  set_iter_perm : forall X : gset string, set_iter X ≡ₚ elements X;
}.

Section World.
Context {env : Environment}.

Record World : Type := mkWorld {
  yandex : YStore;
  google : GStore;
  (** number of uuid4 draws so far *)
  rng : nat;
  trace : list Effect;
}.

(** An effectful computation: it may change the world and either raises
    or returns; the world survives an exception. *)
Definition M (A : Type) : Type := World -> res A * World.

Definition ret {A} (a : A) : M A := fun w => (Ok a, w).

Definition bind {A B} (m : M A) (k : A -> M B) : M B :=
  fun w =>
    match m w with
    | (Raise e, w') => (Raise e, w')
    | (Ok a, w') => k a w'
    end.

Definition lift {A} (r : res A) : M A := fun w => (r, w).

Definition emit (e : Effect) : M unit :=
  fun w => (Ok tt, mkWorld (yandex w) (google w) (rng w) (trace w ++ [e])).

Definition print (l : Line) : M unit := emit (Print l).

(** [uuid.uuid4()] *)
Definition uuid4 : M nat :=
  fun w => (Ok (rng w), mkWorld (yandex w) (google w) (S (rng w)) (trace w)).

Definition remote_search (s e : DateTime.t) : M (list (list VEvent)) :=
  bind (emit (CalSearch s e)) (fun _ w => (calendar_search (yandex w) s e, w)).

Definition remote_add_event (ics : ICalEvent) : M unit :=
  bind (emit (CalAddEvent ics)) (fun _ w =>
    match calendar_add_event (yandex w) ics with
    | Raise e => (Raise e, w)
    | Ok y' => (Ok tt, mkWorld y' (google w) (rng w) (trace w))
    end).

Definition remote_list (calendarId timeMin timeMax : string)
  : M (option (list GItem)) :=
  bind (emit (EventsList calendarId timeMin timeMax))
       (fun _ w => (events_list (google w) calendarId timeMin timeMax, w)).

Definition remote_insert (calendarId : string) (body : GBody) : M unit :=
  bind (emit (EventsInsert calendarId body)) (fun _ w =>
    match events_insert (google w) calendarId body with
    | Raise e => (Raise e, w)
    | Ok g' => (Ok tt, mkWorld (yandex w) g' (rng w) (trace w))
    end).

(** [for x in xs: body(x)] *)
Fixpoint for_each {A} (xs : list A) (body : A -> M unit) : M unit :=
  match xs with
  | [] => ret tt
  | x :: xs' => bind (body x) (fun _ => for_each xs' body)
  end.

End World.

Declare Scope prog_scope.
Delimit Scope prog_scope with prog.
Notation "'do' x <- m ; k" := (bind m (fun x => k))
  (at level 10, x name, m at level 100, k at level 200) : prog_scope.
Notation "'run' m ; k" := (bind m (fun _ => k))
  (at level 10, m at level 100, k at level 200) : prog_scope.

(** ** Python dicts keyed by strings *)

(** [d[k]] *)
Definition dict_getitem {V} (d : gmap string V) (k : string) : res V :=
  match d !! k with
  | Some v => Ok v
  | None => Raise (KeyError k)
  end.

(** [d.update(src)]: every item of [src] is stored into [d]. *)
Definition dict_update {V} (d src : gmap string V) : gmap string V :=
  map_fold (fun k v acc => <[k := v]> acc) d src.

(** [{**a, **b}]: a fresh dict receives the items of [a], then those of
    [b]. *)
Definition dict_merge {V} (a b : gmap string V) : gmap string V :=
  dict_update (dict_update ∅ a) b.

(* ===================================================================== *)
(** * Part 3: the program *)
(* ===================================================================== *)

Local Open Scope prog_scope.

(** The Identity Key text: [f"{name}/{start}"]. *)
Definition event_key (n : option string) (start_text : string) : string :=
  py_str n +:+ "/" +:+ start_text.

(** ** [YandexCalendarClient] *)

Module YandexCalendarClient.
Section Client.
Context {env : Environment}.

(** [component.get(prop).dt] *)
Definition dt_of (prop : option dtvalue) : res dtvalue :=
  match prop with
  | Some v => Ok v
  | None => Raise (AttributeError "'NoneType' object has no attribute 'dt'")
  end.

(** The [if dt.tzinfo is None: ... else: ...] block of [get_events]:
    a naive datetime keeps its wall-clock reading and is tagged UTC, an
    aware one is converted. A plain date has no [tzinfo]. *)
Definition ensure_utc (v : dtvalue) : res DateTime.t :=
  match v with
  | DtDate _ =>
      Raise (AttributeError "'datetime.date' object has no attribute 'tzinfo'")
  | DtDateTime d =>
      match DateTime.tzinfo d with
      | None => Ok (DateTime.replace_tzinfo d (Some DateTime.utc))
      | Some off => DateTime.astimezone d off DateTime.utc
      end
  end.

(** The body of the inner loop of [get_events]: the key and the record
    stored for one VEVENT component. *)
Definition entry (component : VEvent) : res (string * EventData) :=
  let? name :=
    match summary component with
    | Some s => Ok s
    | None => Raise (AttributeError "'NoneType' object has no attribute 'encode'")
    end in
  let desc := default "" (vdescription component) in
  let? dtstart := dt_of (dtstart component) in
  let? dtend := dt_of (dtend component) in
  let? dtstart := ensure_utc dtstart in
  let? dtend := ensure_utc dtend in
  let start_iso := DateTime.isoformat dtstart in
  Ok (event_key (Some name) start_iso,
      mkEventData (Some name) desc start_iso (DateTime.isoformat dtend)).

(** The loops of [get_events] over the components found. *)
Fixpoint collect (components : list VEvent) (events_data : gmap string EventData)
  : res (gmap string EventData) :=
  match components with
  | [] => Ok events_data
  | c :: rest =>
      let? (k, e) := entry c in
      collect rest (<[k := e]> events_data)
  end.

Definition get_events (start end_ : DateTime.t) : M (gmap string EventData) :=
  do events <- remote_search start end_;
  lift (collect (concat events) ∅).

Definition add_event (event_data : EventData) : M unit :=
  run emit (CallYandexAdd event_data);
  do uid <- uuid4;
  do dtstart <- lift (DateTime.fromisoformat (start event_data));
  do dtend <- lift (DateTime.fromisoformat (end_ event_data));
  let ical_event :=
    mkICalEvent uid (name event_data) (description event_data) dtstart dtend in
  let ics_data := to_ical ical_event in
  remote_add_event ics_data.

End Client.
End YandexCalendarClient.

(** ** [GoogleCalendarClient] *)

Module GoogleCalendarClient.
Section Client.
Context {env : Environment}.

(** [functions.convert_iso_timezone(text, tz)]: the helper module is not
    part of the sources at hand; the client is written against any
    implementation. The first argument is [None] when the item has no
    [dateTime]; the second is the target offset. *)
Variable convert_iso_timezone : option string -> Z -> res string.

Variable config : Config.

(** [event.get("start", {}).get("dateTime")] *)
Definition dateTime_of (t : option GTime) : option string :=
  match t with
  | Some o => dateTime o
  | None => None
  end.

(** The body of the loop of [get_events]. *)
Definition entry (event : GItem) : res (string * EventData) :=
  let name := g_summary event in
  let desc := default "" (g_description event) in
  let? start_dt := convert_iso_timezone (dateTime_of (g_start event)) DateTime.utc in
  let? end_dt := convert_iso_timezone (dateTime_of (g_end event)) DateTime.utc in
  Ok (event_key name start_dt, mkEventData name desc start_dt end_dt).

Fixpoint collect (events : list GItem) (events_data : gmap string EventData)
  : res (gmap string EventData) :=
  match events with
  | [] => Ok events_data
  | ev :: rest =>
      let? (k, e) := entry ev in
      collect rest (<[k := e]> events_data)
  end.

Definition get_events (start end_ : DateTime.t) : M (gmap string EventData) :=
  do events_result <-
    remote_list (google_calname config)
                (DateTime.isoformat_seconds start)
                (DateTime.isoformat_seconds end_);
  lift (collect (default [] events_result) ∅).

(** [start_dt < time_limit or start_dt > time_limit_future] *)
Definition out_of_range (start_dt time_limit time_limit_future : DateTime.t)
  : res bool :=
  let? below := DateTime.lt start_dt time_limit in
  if below then Ok true else DateTime.gt start_dt time_limit_future.

Definition add_event (event_data : EventData)
  (time_limit time_limit_future : DateTime.t) : M unit :=
  run emit (CallGoogleAdd event_data time_limit time_limit_future);
  do start_dt <- lift (DateTime.fromisoformat (start event_data));
  do skip <- lift (out_of_range start_dt time_limit time_limit_future);
  if skip then print (LineSkipped (name event_data) start_dt)
  else
    remote_insert (google_calname config)
      (mkGBody (name event_data) (description event_data)
               (start event_data) "UTC" (end_ event_data) "UTC").

End Client.
End GoogleCalendarClient.

(** ** [CalendarSyncManager] *)

Module CalendarSyncManager.

Record t : Type := mk {
  config : Config;
  time_limit : DateTime.t;
  time_limit_future : DateTime.t;
}.

(** The part of [__init__] that defines the time limits; [now] is
    [datetime.now(pytz.utc)]. (The construction of the two clients
    comes first in the source and does not take part in it.) *)
Definition __init__ (now : DateTime.t) (config : Config) : res t :=
  let today := DateTime.date_of now in
  let? past := Date.timedelta_days (past_days config) in
  let? first_day := Date.sub_days today past in
  let time_limit :=
    DateTime.replace_tzinfo (DateTime.combine first_day DateTime.time_min)
                            (Some DateTime.utc) in
  let? future := Date.timedelta_days (future_days config) in
  let? last_day := Date.add_days today future in
  let time_limit_future :=
    DateTime.replace_tzinfo (DateTime.combine last_day DateTime.time_max)
                            (Some DateTime.utc) in
  Ok (mk config time_limit time_limit_future).

Section Manager.
Context {env : Environment}.
Variable convert_iso_timezone : option string -> Z -> res string.

(** [all_events = {**yandex_events, **google_events}] *)
Definition all_events (yandex_events google_events : gmap string EventData)
  : gmap string EventData :=
  dict_merge yandex_events google_events.

(** [set(all_events.keys()) - set(yandex_events.keys())] *)
Definition yandex_missing_keys (yandex_events google_events : gmap string EventData)
  : gset string :=
  dom (all_events yandex_events google_events) ∖ dom yandex_events.

(** [set(all_events.keys()) - set(google_events.keys())] *)
Definition google_missing_keys (yandex_events google_events : gmap string EventData)
  : gset string :=
  dom (all_events yandex_events google_events) ∖ dom google_events.

(** The part of [sync] that follows the two fetches. *)
Definition reconcile (self : t) (yandex_events google_events : gmap string EventData)
  : M unit :=
  let all_events := all_events yandex_events google_events in
  run print (LineTotals (size all_events) (size yandex_events) (size google_events));
  let yandex_missing_keys := yandex_missing_keys yandex_events google_events in
  let google_missing_keys := google_missing_keys yandex_events google_events in
  run print (LineMissingYandex yandex_missing_keys);
  run for_each (set_iter yandex_missing_keys) (fun event_key =>
        do event_data <- lift (dict_getitem all_events event_key);
        YandexCalendarClient.add_event event_data);
  run print (LineMissingGoogle google_missing_keys);
  for_each (set_iter google_missing_keys) (fun event_key =>
    do event_data <- lift (dict_getitem all_events event_key);
    GoogleCalendarClient.add_event (config self) event_data
      (time_limit self) (time_limit_future self)).

Definition sync (self : t) : M unit :=
  do yandex_events <-
    YandexCalendarClient.get_events (time_limit self) (time_limit_future self);
  do google_events <-
    GoogleCalendarClient.get_events convert_iso_timezone (config self)
      (time_limit self) (time_limit_future self);
  reconcile self yandex_events google_events.

End Manager.
End CalendarSyncManager.

(* ===================================================================== *)
(** * Part 3b: start-up: the constructors, [_authenticate] and [main] *)
(* ===================================================================== *)

(** ** Settings, the platform and the host state *)

(** The settings of [Config] that start-up reads, beside the four that
    the engine reads ([core]). *)
Record Settings : Type := mkSettings {
  core : Config;
  yandex_username : string;
  yandex_password : string;
  google_credentials_file : string;
  google_token_file : string;
  google_scopes : list string;
}.

(** A calendar of the CalDAV principal: its display name, which the server
    may not give, and the remote state behind it. *)
Record Calendar {env : Environment} : Type := mkCalendar {
  cal_name : option string;
  cal_store : YStore;
}.
Arguments mkCalendar {env} cal_name cal_store.

(** What start-up reaches outside the program: the CalDAV server, the
    files of the machine, Google's OAuth endpoints and the discovery
    service. None of it is decided by the program; each call may raise,
    with whatever exception the library or the operating system chooses. *)
Class Platform {env : Environment} : Type := {
  (** a [google.oauth2.credentials.Credentials] object and its attributes
      [valid], [expired] and [refresh_token] *)
  Creds : Type;
  creds_valid : Creds -> bool;
  creds_expired : Creds -> bool;
  creds_refresh_token : Creds -> option string;
  (** [creds.refresh(Request())]: the object after the call *)
  creds_refresh : Creds -> res Creds;
  (** the files of the machine; [os.path.exists(path)] *)
  Files : Type;
  path_exists : Files -> string -> bool;
  (** [with open(path, "rb") as token: pickle.load(token)]; the value read
      is a credentials object or [None] *)
  pickle_load : Files -> string -> res (option Creds);
  (** [with open(path, "wb") as token: pickle.dump(creds, token)] *)
  pickle_dump : Files -> string -> Creds -> res unit * Files;
  (** [InstalledAppFlow.from_client_secrets_file(file, scopes)] and
      [flow.run_local_server(port=0)] *)
  Flow : Type;
  from_client_secrets_file : Files -> string -> list string -> res Flow;
  run_local_server : Flow -> res Creds;
  (** [build("calendar", "v3", credentials=creds)]: the service, seen as
      the remote state it gives access to *)
  build : option Creds -> res GStore;
  (** [DAVClient(url, username, password).principal()] and
      [principal.calendars()] *)
  Principal : Type;
  dav_principal : string -> string -> string -> res Principal;
  principal_calendars : Principal -> res (list Calendar);
}.

Section Host.
Context {env : Environment} {platform : Platform}.

(** The calls start-up makes, in the order they happen. *)
Inductive Step : Type :=
  | StepPrincipal (url username password : string)
  | StepCalendars
  | StepLoad (path : string)
  | StepRefresh (creds : Creds)
  | StepSecrets (file : string) (scopes : list string)
  | StepLocalServer
  | StepDump (path : string) (creds : Creds)
  | StepBuild (creds : option Creds).

Record Host : Type := mkHost {
  files : Files;
  steps : list Step;
}.

(** A start-up computation: it may change the host and either raises or
    returns. *)
Definition H (A : Type) : Type := Host -> res A * Host.

Definition hret {A} (a : A) : H A := fun h => (Ok a, h).

Definition hbind {A B} (m : H A) (k : A -> H B) : H B :=
  fun h =>
    match m h with
    | (Raise e, h') => (Raise e, h')
    | (Ok a, h') => k a h'
    end.

Definition hlift {A} (r : res A) : H A := fun h => (r, h).

(** A call that does not touch the files. *)
Definition call {A} (s : Step) (r : Files -> res A) : H A :=
  fun h => (r (files h), mkHost (files h) (steps h ++ [s])).

Definition remote_principal (url username password : string) : H Principal :=
  call (StepPrincipal url username password)
       (fun _ => dav_principal url username password).

Definition remote_calendars (principal : Principal) : H (list Calendar) :=
  call StepCalendars (fun _ => principal_calendars principal).

Definition load (path : string) : H (option Creds) :=
  call (StepLoad path) (fun f => pickle_load f path).

Definition refresh (creds : Creds) : H Creds :=
  call (StepRefresh creds) (fun _ => creds_refresh creds).

Definition secrets (file : string) (scopes : list string) : H Flow :=
  call (StepSecrets file scopes) (fun f => from_client_secrets_file f file scopes).

Definition local_server (flow : Flow) : H Creds :=
  call StepLocalServer (fun _ => run_local_server flow).

Definition dump (path : string) (creds : Creds) : H unit :=
  fun h =>
    let (r, f) := pickle_dump (files h) path creds in
    (r, mkHost f (steps h ++ [StepDump path creds])).

Definition service (creds : option Creds) : H GStore :=
  call (StepBuild creds) (fun _ => build creds).

End Host.

Notation "'perform' x <- m ; k" := (hbind m (fun x => k))
  (at level 10, x name, m at level 100, k at level 200) : prog_scope.

(** ** [YandexCalendarClient.__init__] and [_get_calendar_by_name] *)

Module YandexConnection.
Section Client.
Context {env : Environment} {platform : Platform}.

(** The loop of [_get_calendar_by_name]: [cal.name == cal_name]. *)
Fixpoint find_calendar (calendars : list Calendar) (name : string) : res Calendar :=
  match calendars with
  | [] => Raise (ValueError ("Calendar named " +:+ name +:+ " not found."))
  | cal :: rest =>
      if bool_decide (cal_name cal = Some name) then Ok cal
      else find_calendar rest name
  end.

Definition _get_calendar_by_name (principal : Principal) (name : string)
  : H Calendar :=
  perform calendars <- remote_calendars principal;
  hlift (find_calendar calendars name).

(** The client is represented by [self.calendar], the attribute that
    [get_events] and [add_event] use. *)
Definition __init__ (config : Settings) : H Calendar :=
  perform principal <-
    remote_principal "https://caldav.yandex.ru"
                     (yandex_username config) (yandex_password config);
  _get_calendar_by_name principal (yandex_calname (core config)).

End Client.
End YandexConnection.

(** ** [GoogleCalendarClient.__init__] and [_authenticate] *)

Module GoogleConnection.
Section Client.
Context {env : Environment} {platform : Platform}.

(** Truth value of a string-or-[None] attribute. *)
Definition truthy (s : option string) : bool :=
  match s with
  | Some (String _ _) => true
  | _ => false
  end.

(** [not creds or not creds.valid] *)
Definition needs_login (creds : option Creds) : bool :=
  match creds with
  | None => true
  | Some c => negb (creds_valid c)
  end.

(** [creds and creds.expired and creds.refresh_token], with the object to
    refresh when the condition holds. *)
Definition refreshable (creds : option Creds) : option Creds :=
  match creds with
  | Some c =>
      if creds_expired c && truthy (creds_refresh_token c) then Some c else None
  | None => None
  end.

Definition _authenticate (config : Settings) : H GStore :=
  let token_file := google_token_file config in
  perform creds <-
    (fun h => if path_exists (files h) token_file then load token_file h
              else hret None h);
  perform creds <-
    (if needs_login creds then
       perform creds <-
         match refreshable creds with
         | Some c => refresh c
         | None =>
             perform flow <-
               secrets (google_credentials_file config) (google_scopes config);
             local_server flow
         end;
       perform _ <- dump token_file creds;
       hret (Some creds)
     else hret creds);
  service creds.

(** The client is represented by [self.service]. *)
Definition __init__ (config : Settings) : H GStore := _authenticate config.

End Client.
End GoogleConnection.

(** ** The whole of [CalendarSyncManager.__init__], and [main] *)

Module Program.
Section Main.
Context {env : Environment} {platform : Platform}.
Variable convert_iso_timezone : option string -> Z -> res string.

(** [CalendarSyncManager(config)]: the Yandex client, the Google client,
    then the limits; [now] is what [datetime.now(pytz.utc)] returns when
    it is reached. *)
Definition construct (config : Settings) (now : DateTime.t)
  : H (CalendarSyncManager.t * Calendar * GStore) :=
  perform yandex_client <- YandexConnection.__init__ config;
  perform google_client <- GoogleConnection.__init__ config;
  perform self <- hlift (CalendarSyncManager.__init__ now (core config));
  hret (self, yandex_client, google_client).

(** [main], for the settings that [Config()] loaded: the outcome, the
    host afterwards and, when [sync] was reached, the world it left. *)
Definition main (config : Settings) (now : DateTime.t) (h : Host)
  : res unit * Host * option World :=
  match construct config now h with
  | (Raise e, h') => (Raise e, h', None)
  | (Ok (self, yandex_client, google_client), h') =>
      let (r, w) :=
        CalendarSyncManager.sync convert_iso_timezone self
          (mkWorld (cal_store yandex_client) google_client 0 []) in
      (r, h', Some w)
  end.

End Main.
End Program.


(* ===================================================================== *)
(** * Part 4: the missing helper and a reference environment *)
(* ===================================================================== *)

(** Modelled from the spec: [functions.convert_iso_timezone] (module
    [functions] is imported by [main.py] and is not among the sources).
    The spec (4.2, 3) asks that an instant without timezone information be
    read as UTC, that one with timezone information be converted to UTC,
    and that instants be serialised as ISO-8601 text with an explicit
    offset. The target zone is UTC at both call sites; a missing text
    ([None]) is not a string and is refused. *)
Definition convert_iso_timezone_spec (text : option string) (tz : Z) : res string :=
  match text with
  | None => Raise (TypeError "fromisoformat: argument must be str")
  | Some s =>
      let? d := DateTime.fromisoformat s in
      let? d' :=
        match DateTime.tzinfo d with
        | None => Ok (DateTime.replace_tzinfo d (Some tz))
        | Some off => DateTime.astimezone d off tz
        end in
      Ok (DateTime.isoformat d')
  end.

(** ** Reference environment

    Two in-memory providers with the documented selection rules of the
    real ones: a CalDAV time-range search returns the resources having a
    VEVENT that overlaps the range ([DTSTART < end] and [DTEND > start],
    RFC 4791, 9.9); the Google listing returns the items with
    [end > timeMin] and [start < timeMax]. Either provider can be
    offline, in which case every call raises. Sets are iterated in the
    order of [elements]. *)
Module Ref.

Record ystore : Type := mkY { y_online : bool; y_resources : list (list VEvent) }.
Record gstore : Type := mkG { g_online : bool; g_items : list GItem }.

(** The instant of a property value; a floating (naive) time and a plain
    date are read in UTC. *)
Definition instant_of (v : dtvalue) : Z :=
  match v with
  | DtDateTime d => DateTime.instant_us d (default 0 (DateTime.tzinfo d))
  | DtDate d => Date.toordinal d * DateTime.US_PER_DAY
  end.

Definition overlaps (s e : DateTime.t) (c : VEvent) : bool :=
  match dtstart c with
  | None => false
  | Some vs =>
      let ve := default vs (dtend c) in
      (instant_of vs <? instant_of (DtDateTime e))
      && (instant_of (DtDateTime s) <? instant_of ve)
  end.

Definition search (st : ystore) (s e : DateTime.t) : res (list (list VEvent)) :=
  if y_online st
  then Ok (filter (fun r => existsb (overlaps s e) r = true) (y_resources st))
  else Raise (RemoteError "caldav.yandex.ru: unreachable").

(** The stored component carries what was sent; [icalendar] writes the
    summary with [str()]. *)
Definition stored (ics : ICalEvent) : VEvent :=
  mkVEvent (Some (py_str (i_summary ics))) (Some (i_description ics))
           (Some (DtDateTime (i_dtstart ics))) (Some (DtDateTime (i_dtend ics))).

Definition put (st : ystore) (ics : ICalEvent) : res ystore :=
  if y_online st
  then Ok (mkY true (y_resources st ++ [[stored ics]]))
  else Raise (RemoteError "caldav.yandex.ru: unreachable").

Definition instant_of_text (s : option string) : option Z :=
  match s with
  | None => None
  | Some s =>
      match DateTime.fromisoformat s with
      | Ok d => Some (instant_of (DtDateTime d))
      | Raise _ => None
      end
  end.

Definition listed (timeMin timeMax : string) (it : GItem) : bool :=
  match instant_of_text (GoogleCalendarClient.dateTime_of (g_start it)),
        instant_of_text (GoogleCalendarClient.dateTime_of (g_end it)),
        instant_of_text (Some timeMin), instant_of_text (Some timeMax) with
  | Some s, Some e, Some lo, Some hi => (lo <? e) && (s <? hi)
  | _, _, _, _ => false
  end.

Definition list_items (st : gstore) (calendarId timeMin timeMax : string)
  : res (option (list GItem)) :=
  if g_online st
  then Ok (Some (filter (fun it => listed timeMin timeMax it = true) (g_items st)))
  else Raise (RemoteError "googleapis.com: unreachable").

Definition inserted (b : GBody) : GItem :=
  mkGItem (b_summary b) (Some (b_description b))
          (Some (mkGTime (Some (b_start_dateTime b))))
          (Some (mkGTime (Some (b_end_dateTime b)))).

Definition insert (st : gstore) (calendarId : string) (b : GBody) : res gstore :=
  if g_online st
  then Ok (mkG true (g_items st ++ [inserted b]))
  else Raise (RemoteError "googleapis.com: unreachable").

#[export] Instance environment : Environment := {|
  YStore := ystore;
  GStore := gstore;
  calendar_search := search;
  calendar_add_event := put;
  events_list := list_items;
  events_insert := insert;
  set_iter := elements;
  set_iter_perm := fun X => reflexivity (elements X);
|}.

Definition world (y : list (list VEvent)) (g : list GItem) : World :=
  mkWorld (mkY true y) (mkG true g) 0 [].

End Ref.


(** ** A reference platform

    A machine whose files hold pickled credentials, a CalDAV account with
    a given list of calendars, and Google endpoints that are reachable or
    not. *)

Module RefHost.

Record creds : Type := mkCreds {
  c_valid : bool;
  c_expired : bool;
  c_refresh_token : option string;
  c_token : string;
}.

(** Paths and what is pickled there; the first entry of a path counts. *)
Definition files : Type := list (string * creds).

Fixpoint lookup (f : files) (path : string) : option creds :=
  match f with
  | [] => None
  | (p, c) :: rest => if String.eqb p path then Some c else lookup rest path
  end.

Definition exists_ (f : files) (path : string) : bool :=
  match lookup f path with
  | Some _ => true
  | None => false
  end.

Definition load_ (f : files) (path : string) : res (option creds) :=
  match lookup f path with
  | Some c => Ok (Some c)
  | None => Raise (RemoteError "FileNotFoundError")
  end.

Definition dump_ (f : files) (path : string) (c : creds) : res unit * files :=
  (Ok tt, (path, c) :: f).

(** A refresh yields a fresh access token while Google is reachable. *)
Definition refresh_ (online : bool) (c : creds) : res creds :=
  if online then Ok (mkCreds true false (c_refresh_token c) "refreshed")
  else Raise (RemoteError "oauth2.googleapis.com: unreachable").

(** The user grants access while Google is reachable. *)
Definition login_ (online : bool) (_ : unit) : res creds :=
  if online then Ok (mkCreds true false (Some "1//refresh") "granted")
  else Raise (RemoteError "accounts.google.com: unreachable").

Definition platform (calendars : list (@Calendar Ref.environment))
    (g : @GStore Ref.environment) (online : bool) : @Platform Ref.environment := {|
  Creds := creds;
  creds_valid := c_valid;
  creds_expired := c_expired;
  creds_refresh_token := c_refresh_token;
  creds_refresh := refresh_ online;
  Files := files;
  path_exists := exists_;
  pickle_load := load_;
  pickle_dump := dump_;
  Flow := unit;
  from_client_secrets_file := fun _ _ _ => Ok tt;
  run_local_server := login_ online;
  build := fun _ => Ok g;
  Principal := unit;
  dav_principal := fun _ _ _ => Ok tt;
  principal_calendars := fun _ => Ok calendars;
|}.

End RefHost.


(* ===================================================================== *)
(** * Part 5: vocabulary of the properties *)
(* ===================================================================== *)

Local Open Scope list_scope.
Local Open Scope Z_scope.

(** ** Exhaustive checks over a range of integers *)

(** [P] holds at [r], [r+1], ..., [r+fuel-1]. *)
Fixpoint all_from (fuel : nat) (r : Z) (P : Z -> bool) : bool :=
  match fuel with
  | O => true
  | S f => P r && all_from f (r + 1) P
  end.

(** For the year [1 + i] of a 400-year cycle: the days before it, counted
    through whole centuries, 4-year blocks and years, and the leap-year
    test that [_ord2ymd] applies to these three counts. *)
Definition year_ok (i : Z) : bool :=
  let n100 := i / 100 in
  let n4 := i mod 100 / 4 in
  let n1 := i mod 4 in
  (Date.days_before_year (1 + i)
   =? n100 * Date.DI100Y + n4 * Date.DI4Y + n1 * 365)
  && Bool.eqb (Date.is_leap (1 + i))
              ((n1 =? 3) && (negb (n4 =? 24) || (n100 =? 3))).

(** For the zero-based day [n] of a year: [month_day] yields a month and a
    day of that month, preceded by exactly [n] days of the year. *)
Definition day_ok (leapyear : bool) (n : Z) : bool :=
  let '(m, d) := Date.month_day leapyear n in
  (Date.DAYS_BEFORE_MONTH m + (if (2 <? m) && leapyear then 1 else 0) + d =? n + 1)
  && (1 <=? m) && (m <=? 12) && (1 <=? d)
  && (d <=? (if (m =? 2) && leapyear then 29 else Date.DAYS_IN_MONTH m)).

(** ** Instants *)

(** [d] is the UTC rendering of the datetime [raw]: it is tagged UTC and
    either keeps the wall-clock reading of a naive [raw] or denotes the
    same instant as an aware [raw]. *)
Definition utc_equivalent (raw d : DateTime.t) : Prop :=
  DateTime.tzinfo d = Some DateTime.utc
  /\ match DateTime.tzinfo raw with
     | None => d = DateTime.replace_tzinfo raw (Some DateTime.utc)
     | Some off => DateTime.instant_us d DateTime.utc = DateTime.instant_us raw off
     end.

(** The UTC rendering of [raw] falls on a day that [datetime] can hold
    (0001-01-01 to 9999-12-31). *)
Definition utc_representable (raw : DateTime.t) : bool :=
  match DateTime.tzinfo raw with
  | None => true
  | Some off =>
      let days := (DateTime.wall_us raw - off) / DateTime.US_PER_DAY in
      (0 <? days) && (days <=? Date.MAXORDINAL)
  end.

(** [s] is the ISO-8601 text of the UTC rendering of [raw]; it ends with
    the offset [+00:00]. *)
Definition utc_text (raw : DateTime.t) (s : string) : Prop :=
  exists d, utc_equivalent raw d /\ s = DateTime.isoformat d
            /\ exists body, s = body +:+ "+00:00".

(** ** Traces *)

Definition is_remote_write (e : Effect) : bool :=
  match e with
  | CalAddEvent _ | EventsInsert _ _ => true
  | _ => false
  end.

(** The remote writes of a trace, in order. *)
Definition remote_writes (t : list Effect) : list Effect :=
  List.filter is_remote_write t.

(** The records with which [GoogleCalendarClient.add_event] was entered. *)
Definition google_add_calls (t : list Effect) : list EventData :=
  omap (fun e => match e with CallGoogleAdd ev _ _ => Some ev | _ => None end) t.

(** The records with which [YandexCalendarClient.add_event] was entered. *)
Definition yandex_add_calls (t : list Effect) : list EventData :=
  omap (fun e => match e with CallYandexAdd ev => Some ev | _ => None end) t.

(** The skip reports of a trace. *)
Definition skip_reports (t : list Effect) : list (option string * DateTime.t) :=
  omap (fun e => match e with Print (LineSkipped n d) => Some (n, d) | _ => None end) t.

(** ** What a fetch sees, and what a run writes *)

Section Views.
Context {env : Environment}.
Variable convert_iso_timezone : option string -> Z -> res string.
Variable self : CalendarSyncManager.t.

(** The map [YandexCalendarClient.get_events] builds from a provider
    state, for the window of [self]. *)
Definition yandex_view (y : YStore) : res (gmap string EventData) :=
  let? events :=
    calendar_search y (CalendarSyncManager.time_limit self)
                    (CalendarSyncManager.time_limit_future self) in
  YandexCalendarClient.collect (concat events) ∅.

(** The map [GoogleCalendarClient.get_events] builds from a provider
    state, for the window of [self]. *)
Definition google_view (g : GStore) : res (gmap string EventData) :=
  let? events_result :=
    events_list g (google_calname (CalendarSyncManager.config self))
      (DateTime.isoformat_seconds (CalendarSyncManager.time_limit self))
      (DateTime.isoformat_seconds (CalendarSyncManager.time_limit_future self)) in
  GoogleCalendarClient.collect convert_iso_timezone (default [] events_result) ∅.

(** The window check of [GoogleCalendarClient.add_event] lets the record
    through: its start parses and is neither before [time_limit] nor after
    [time_limit_future]. *)
Definition in_window (ev : EventData) : bool :=
  match DateTime.fromisoformat (start ev) with
  | Ok start_dt =>
      match GoogleCalendarClient.out_of_range start_dt
              (CalendarSyncManager.time_limit self)
              (CalendarSyncManager.time_limit_future self) with
      | Ok false => true
      | _ => false
      end
  | Raise _ => false
  end.

(** Two runs in immediate succession from world [w0]: the first returns
    and leaves [w1], the second starts from [w1], returns and leaves [w2];
    nothing else touches the providers. The fetched maps of the two runs
    are [y1], [g1] and [y2], [g2]. *)
Record two_runs (w0 w1 w2 : World) (y1 g1 y2 g2 : gmap string EventData) : Prop := {
  first_run : CalendarSyncManager.sync convert_iso_timezone self w0 = (Ok tt, w1);
  second_run : CalendarSyncManager.sync convert_iso_timezone self w1 = (Ok tt, w2);
  first_yandex : yandex_view (yandex w0) = Ok y1;
  first_google : google_view (google w0) = Ok g1;
  second_yandex : yandex_view (yandex w1) = Ok y2;
  second_google : google_view (google w1) = Ok g2;
}.

(** The second run found nothing missing and wrote nothing. *)
Definition second_run_idle (w1 w2 : World) (y2 g2 : gmap string EventData) : Prop :=
  CalendarSyncManager.yandex_missing_keys y2 g2 = ∅
  /\ CalendarSyncManager.google_missing_keys y2 g2 = ∅
  /\ exists t, trace w2 = trace w1 ++ t /\ remote_writes t = [].

End Views.


(** ** Worlds after some effects *)

(** The world [w] with the effects [t] appended to its trace. *)
Definition log {env : Environment} (w : World) (t : list Effect) : World :=
  mkWorld (yandex w) (google w) (rng w) (trace w ++ t).

(** Every record of the map is stored under its Identity Key. *)
Definition keyed (m : gmap string EventData) : Prop :=
  forall k e, m !! k = Some e -> k = event_key (name e) (start e).


(** ** Concrete data *)

Module Sample.

(** 2024-06-15T00:00:00Z *)
Definition now : DateTime.t :=
  DateTime.mk (Date.mk 2024 6 15) 0 0 0 0 (Some DateTime.utc).

(** The defaults of [Config]: calendar "primary", 7 days back, 30 days
    ahead. *)
Definition config : Config := mkConfig "work" "primary" 7 30.

(** A window reaching 800000 days (about 2190 years) into the past. *)
Definition config_far_past : Config := mkConfig "work" "primary" 800000 30.

(** The manager for [now] and [config]: window 2024-06-08T00:00:00Z to
    2024-07-15T23:59:59.999999Z. *)
Definition manager : CalendarSyncManager.t :=
  CalendarSyncManager.mk config
    (DateTime.mk (Date.mk 2024 6 8) 0 0 0 0 (Some DateTime.utc))
    (DateTime.mk (Date.mk 2024 7 15) 23 59 59 999999 (Some DateTime.utc)).





Definition msk : option Z := Some (3 * 3600 * DateTime.US_PER_SECOND).

(** "Meeting", 2024-06-20 10:00 to 11:00 at UTC+3. *)
Definition vevent_meeting : VEvent :=
  mkVEvent (Some "Meeting") None
    (Some (DtDateTime (DateTime.mk (Date.mk 2024 6 20) 10 0 0 0 msk)))
    (Some (DtDateTime (DateTime.mk (Date.mk 2024 6 20) 11 0 0 0 msk))).

(** Same name and start as [vevent_meeting], another end and description. *)
Definition vevent_meeting_longer : VEvent :=
  mkVEvent (Some "Meeting") (Some "with minutes")
    (Some (DtDateTime (DateTime.mk (Date.mk 2024 6 20) 10 0 0 0 msk)))
    (Some (DtDateTime (DateTime.mk (Date.mk 2024 6 20) 12 30 0 0 msk))).

(** "Release", floating times 2024-06-07 23:00 to 2024-06-08 01:00: it
    starts an hour before the window of [manager] opens and ends inside
    it. *)
Definition vevent_overhang : VEvent :=
  mkVEvent (Some "Release") None
    (Some (DtDateTime (DateTime.mk (Date.mk 2024 6 7) 23 0 0 0 None)))
    (Some (DtDateTime (DateTime.mk (Date.mk 2024 6 8) 1 0 0 0 None))).

(** A Google item without a title, 2024-06-21 09:00 to 10:00 at UTC+2. *)
Definition gitem_untitled : GItem :=
  mkGItem None None
    (Some (mkGTime (Some "2024-06-21T09:00:00+02:00")))
    (Some (mkGTime (Some "2024-06-21T10:00:00+02:00"))).

(** A Google item "Night shift", 2024-06-07 22:00 to 2024-06-08 06:00 UTC:
    it starts two hours before the window of [manager] opens and ends
    inside it. *)
Definition gitem_overhang : GItem :=
  mkGItem (Some "Night shift") None
    (Some (mkGTime (Some "2024-06-07T22:00:00+00:00")))
    (Some (mkGTime (Some "2024-06-08T06:00:00+00:00"))).


(** The canonical records of the components and items above. *)
Definition ev_meeting : EventData :=
  mkEventData (Some "Meeting") ""
              "2024-06-20T07:00:00+00:00" "2024-06-20T08:00:00+00:00".

Definition ev_meeting_longer : EventData :=
  mkEventData (Some "Meeting") "with minutes"
              "2024-06-20T07:00:00+00:00" "2024-06-20T09:30:00+00:00".

Definition ev_release : EventData :=
  mkEventData (Some "Release") ""
              "2024-06-07T23:00:00+00:00" "2024-06-08T01:00:00+00:00".

Definition ev_untitled : EventData :=
  mkEventData None "" "2024-06-21T07:00:00+00:00" "2024-06-21T08:00:00+00:00".

Definition ev_night_shift : EventData :=
  mkEventData (Some "Night shift") ""
              "2024-06-07T22:00:00+00:00" "2024-06-08T06:00:00+00:00".


(** 2024-06-07T22:00:00Z and 2024-06-08T06:00:00Z *)
Definition night_shift_start : DateTime.t :=
  DateTime.mk (Date.mk 2024 6 7) 22 0 0 0 (Some DateTime.utc).

Definition night_shift_end : DateTime.t :=
  DateTime.mk (Date.mk 2024 6 8) 6 0 0 0 (Some DateTime.utc).

End Sample.


(** ** Two scenarios on the reference environment *)

Module Scenario.

Definition time_limit : DateTime.t := CalendarSyncManager.time_limit Sample.manager.
Definition time_limit_future : DateTime.t :=
  CalendarSyncManager.time_limit_future Sample.manager.

(** The two fetch calls of a run for [Sample.manager]. *)
Definition fetches : list Effect :=
  [CalSearch time_limit time_limit_future;
   EventsList "primary" "2024-06-08T00:00:00+00:00" "2024-07-15T23:59:59+00:00"].

Definition key_release : string := "Release/2024-06-07T23:00:00+00:00".
Definition key_meeting : string := "Meeting/2024-06-20T07:00:00+00:00".
Definition key_untitled : string := "None/2024-06-21T07:00:00+00:00".

(** *** Scenario 1: Yandex holds "Release", which starts an hour before
    the window opens; Google holds nothing. *)

Definition overhang : World (env := Ref.environment) :=
  Ref.world [[Sample.vevent_overhang]] [].

(** What a run does in scenario 1: "Release" is found missing in Google
    and skipped. *)
Definition overhang_run : list Effect :=
  fetches
  ++ [Print (LineTotals 1 1 0);
      Print (LineMissingYandex ∅);
      Print (LineMissingGoogle {[ key_release ]});
      CallGoogleAdd Sample.ev_release time_limit time_limit_future;
      Print (LineSkipped (Some "Release")
               (DateTime.mk (Date.mk 2024 6 7) 23 0 0 0 (Some DateTime.utc)))].

Definition overhang_after_1 : World (env := Ref.environment) :=
  log overhang overhang_run.

Definition overhang_after_2 : World (env := Ref.environment) :=
  log overhang_after_1 overhang_run.

(** *** Scenario 2: Yandex holds "Meeting", Google holds an item without a
    title; both start inside the window. *)

Definition both_sides : World (env := Ref.environment) :=
  Ref.world [[Sample.vevent_meeting]] [Sample.gitem_untitled].

(** The two writes of the first run in scenario 2. *)
Definition to_yandex : ICalEvent :=
  mkICalEvent 0 None ""
    (DateTime.mk (Date.mk 2024 6 21) 7 0 0 0 (Some DateTime.utc))
    (DateTime.mk (Date.mk 2024 6 21) 8 0 0 0 (Some DateTime.utc)).

Definition to_google : GBody :=
  mkGBody (Some "Meeting") "" "2024-06-20T07:00:00+00:00" "UTC"
          "2024-06-20T08:00:00+00:00" "UTC".

Definition both_sides_after_1 : World (env := Ref.environment) :=
  mkWorld (env := Ref.environment)
    (Ref.mkY true [[Sample.vevent_meeting]; [Ref.stored to_yandex]])
    (Ref.mkG true [Sample.gitem_untitled; Ref.inserted to_google])
    1
    (fetches
     ++ [Print (LineTotals 2 1 1);
         Print (LineMissingYandex {[ key_untitled ]});
         CallYandexAdd Sample.ev_untitled;
         CalAddEvent to_yandex;
         Print (LineMissingGoogle {[ key_meeting ]});
         CallGoogleAdd Sample.ev_meeting time_limit time_limit_future;
         EventsInsert "primary" to_google]).

Definition both_sides_after_2 : World (env := Ref.environment) :=
  log both_sides_after_1
      (fetches
       ++ [Print (LineTotals 2 2 2);
           Print (LineMissingYandex ∅);
           Print (LineMissingGoogle ∅)]).

(** The record that Yandex returns for the untitled event once written:
    its title is the text ["None"]. *)
Definition ev_none_text : EventData :=
  mkEventData (Some "None") ""
              "2024-06-21T07:00:00+00:00" "2024-06-21T08:00:00+00:00".

End Scenario.


(** ** Vocabulary of the further properties *)

(** The instant a datetime denotes, in microseconds on the UTC time line;
    a naive datetime is read as UTC. *)
Definition instant (d : DateTime.t) : Z :=
  DateTime.instant_us d (default 0 (DateTime.tzinfo d)).

(** The datetime is aware: it carries a tzinfo. *)
Definition aware (d : DateTime.t) : bool :=
  match DateTime.tzinfo d with
  | Some _ => true
  | None => false
  end.

(** The instant lies in the closed window of the manager. *)
Definition within (self : CalendarSyncManager.t) (d : DateTime.t) : bool :=
  (instant (CalendarSyncManager.time_limit self) <=? instant d)
  && (instant d <=? instant (CalendarSyncManager.time_limit_future self)).




(** The VEVENT carries what the loop of [YandexCalendarClient.get_events]
    reads: a summary, and a start and an end that are datetimes (not the
    plain dates of an all-day entry). *)
Definition well_formed (c : VEvent) : bool :=
  match summary c, dtstart c, dtend c with
  | Some _, Some (DtDateTime _), Some (DtDateTime _) => true
  | _, _, _ => false
  end.

(** The text holds no ["/"]. *)
Fixpoint no_slash (s : string) : bool :=
  match s with
  | EmptyString => true
  | String c s' => negb (Ascii.eqb c "/") && no_slash s'
  end.

(** ** Two runs in a row: what the providers keep, and which records
    come back under their key *)

(** The providers keep what they are given and nothing else changes them:
    after an append, a fetch returns what it returned before, followed by
    the appended event when it falls in the range asked for. The range
    tests are those of the reference providers: a VEVENT is found when it
    starts before the end of the range and ends after its start, an item
    is listed when it ends after [timeMin] and starts before [timeMax].
    The appended event reads back as it was sent. *)
Record keeps_appends {env : Environment} : Prop := {
  put_visible : forall (y y' : YStore) (ics : ICalEvent) (s e : DateTime.t)
                       (found : list (list VEvent)),
    calendar_add_event y ics = Ok y' ->
    calendar_search y s e = Ok found ->
    calendar_search y' s e
    = Ok (found ++ (if Ref.overlaps s e (Ref.stored ics)
                    then [[Ref.stored ics]] else []));
  insert_visible : forall (g g' : GStore) (calendarId timeMin timeMax : string)
                          (body : GBody) (listed : option (list GItem)),
    events_insert g calendarId body = Ok g' ->
    events_list g calendarId timeMin timeMax = Ok listed ->
    events_list g' calendarId timeMin timeMax
    = Ok (Some (default [] listed
                ++ (if Ref.listed timeMin timeMax (Ref.inserted body)
                    then [Ref.inserted body] else [])));
}.

(** The helper returns the ISO text of a valid UTC datetime as it is. *)
Definition keeps_canonical (convert_iso_timezone : option string -> Z -> res string)
  : Prop :=
  forall d : DateTime.t,
    DateTime.valid d = true -> DateTime.tzinfo d = Some DateTime.utc ->
    convert_iso_timezone (Some (DateTime.isoformat d)) DateTime.utc
    = Ok (DateTime.isoformat d).

(** The datetime of which the text is the ISO text in UTC, when there is
    one: the text parses, carries the offset of UTC, and is what
    [isoformat] prints for the datetime parsed. *)
Definition canonical (s : string) : option DateTime.t :=
  match DateTime.fromisoformat s with
  | Ok d =>
      match DateTime.tzinfo d with
      | Some off =>
          if (off =? DateTime.utc) && String.eqb (DateTime.isoformat d) s
          then Some d else None
      | None => None
      end
  | Raise _ => None
  end.

(** A record that a run may find missing in Yandex comes back from Yandex
    under its key: its texts are ISO texts in UTC, its start has whole
    seconds (the VEVENT sent holds no microseconds, and the key is made
    from the start), and the search finds what was sent: the start is
    before [time_limit_future] and the end, cut to whole seconds, is
    after [time_limit]. *)
Definition returns_from_yandex (self : CalendarSyncManager.t) (ev : EventData) : bool :=
  match canonical (start ev), canonical (end_ ev) with
  | Some ds, Some de =>
      (DateTime.microsecond ds =? 0)
      && (instant ds <? instant (CalendarSyncManager.time_limit_future self))
      && (instant (CalendarSyncManager.time_limit self)
          <? instant (DateTime.replace_microsecond de 0))
  | _, _ => false
  end.

(** A record that a run may find missing in Google is written to Google
    and comes back under its key: its texts are ISO texts in UTC, its
    start is not before [time_limit] (it is not skipped) and is before
    [timeMax], which is [time_limit_future] cut to whole seconds as the
    listing call sends it, and it ends after [timeMin]. *)
Definition returns_from_google (self : CalendarSyncManager.t) (ev : EventData) : bool :=
  match canonical (start ev), canonical (end_ ev) with
  | Some ds, Some de =>
      (instant (CalendarSyncManager.time_limit self) <=? instant ds)
      && (instant ds
          <? instant (DateTime.replace_microsecond
                        (CalendarSyncManager.time_limit_future self) 0))
      && (instant (DateTime.replace_microsecond
                     (CalendarSyncManager.time_limit self) 0)
          <? instant de)
  | _, _ => false
  end.

(** ** Further concrete data *)

Module Cases.

(** Three days forward instead of back, one day ahead: the floor of the
    window falls after its ceiling. *)
Definition config_inverted : Config := mkConfig "work" "primary" (-3) 1.

(** The manager for [Sample.now] and [config_inverted]: limits
    2024-06-18T00:00:00Z and 2024-06-16T23:59:59.999999Z. *)
Definition manager_inverted : CalendarSyncManager.t :=
  CalendarSyncManager.mk config_inverted
    (DateTime.mk (Date.mk 2024 6 18) 0 0 0 0 (Some DateTime.utc))
    (DateTime.mk (Date.mk 2024 6 16) 23 59 59 999999 (Some DateTime.utc)).

(** 2024-06-07T23:00:00Z, the start of [Sample.ev_release], and
    2024-06-20T07:00:00Z, the start of [Sample.ev_meeting]. *)
Definition release_start : DateTime.t :=
  DateTime.mk (Date.mk 2024 6 7) 23 0 0 0 (Some DateTime.utc).

Definition meeting_start : DateTime.t :=
  DateTime.mk (Date.mk 2024 6 20) 7 0 0 0 (Some DateTime.utc).

(** A record whose texts carry no offset. *)
Definition ev_floating : EventData :=
  mkEventData (Some "Floating") "" "2024-06-20T07:00:00" "2024-06-20T08:00:00".

Definition floating_start : DateTime.t :=
  DateTime.mk (Date.mk 2024 6 20) 7 0 0 0 None.

(** A record whose texts carry microseconds. *)
Definition ev_subsecond : EventData :=
  mkEventData (Some "Blink") "" "2024-06-20T07:00:00.000001+00:00"
              "2024-06-20T08:00:00.999999+00:00".

(** "Edge", 2024-07-15 23:59:59 to 2024-07-16 00:30:00 UTC: it starts in
    the last second of the window of [Sample.manager]. *)
Definition edge_start : DateTime.t :=
  DateTime.mk (Date.mk 2024 7 15) 23 59 59 0 (Some DateTime.utc).

Definition edge_end : DateTime.t :=
  DateTime.mk (Date.mk 2024 7 16) 0 30 0 0 (Some DateTime.utc).

Definition vevent_edge : VEvent :=
  mkVEvent (Some "Edge") None (Some (DtDateTime edge_start)) (Some (DtDateTime edge_end)).

Definition ev_edge : EventData :=
  mkEventData (Some "Edge") ""
              "2024-07-15T23:59:59+00:00" "2024-07-16T00:30:00+00:00".

Definition key_edge : string := "Edge/2024-07-15T23:59:59+00:00".

Definition body_edge : GBody :=
  mkGBody (Some "Edge") "" "2024-07-15T23:59:59+00:00" "UTC"
          "2024-07-16T00:30:00+00:00" "UTC".

(** What a run does when Yandex holds "Edge" and the Google listing
    returns nothing: "Edge" is found missing in Google and inserted. *)
Definition edge_run : list Effect :=
  Scenario.fetches
  ++ [Print (LineTotals 1 1 0);
      Print (LineMissingYandex ∅);
      Print (LineMissingGoogle {[ key_edge ]});
      CallGoogleAdd ev_edge Scenario.time_limit Scenario.time_limit_future;
      EventsInsert "primary" body_edge].

(** The reference world in which Yandex holds "Edge", after [n] such
    runs: Google holds [n] copies of it. *)
Definition edge_after (n : nat) : World (env := Ref.environment) :=
  mkWorld (env := Ref.environment)
    (Ref.mkY true [[vevent_edge]])
    (Ref.mkG true (replicate n (Ref.inserted body_edge)))
    0
    (concat (replicate n edge_run)).

(** An all-day entry: its start and end are plain dates. *)
Definition vevent_all_day : VEvent :=
  mkVEvent (Some "Holiday") None
    (Some (DtDate (Date.mk 2024 6 21))) (Some (DtDate (Date.mk 2024 6 22))).

(** The defaults of [Config] with an account and the calendar "work", and
    the same with a window reaching 800000 days into the past. *)
Definition settings : Settings :=
  mkSettings Sample.config "user" "app-password" "credentials.json" "token.pickle"
             ["https://www.googleapis.com/auth/calendar"].

Definition settings_far_past : Settings :=
  mkSettings Sample.config_far_past "user" "app-password" "credentials.json"
             "token.pickle" ["https://www.googleapis.com/auth/calendar"].

Definition calendar_home : @Calendar Ref.environment :=
  mkCalendar (env := Ref.environment) (Some "home") (Ref.mkY true []).

Definition calendar_work : @Calendar Ref.environment :=
  mkCalendar (env := Ref.environment) (Some "work") (Ref.mkY true []).

Definition google : @GStore Ref.environment := Ref.mkG true [].

(** A reachable account with the calendars "home" and "work", and one with
    "home" only. *)
Definition platform : @Platform Ref.environment :=
  RefHost.platform [calendar_home; calendar_work] google true.

Definition platform_home_only : @Platform Ref.environment :=
  RefHost.platform [calendar_home] google true.

(** The credentials that a login grants on the reference platform. *)
Definition granted : @Creds Ref.environment platform :=
  RefHost.mkCreds true false (Some "1//refresh") "granted".

(** A machine without a token file, and the same machine after a first
    start. *)
Definition fresh : Host (platform := platform) := mkHost (platform := platform) [] [].

Definition after_login : Host (platform := platform) :=
  mkHost (platform := platform)
    ([("token.pickle", granted)] : RefHost.files)
    [StepSecrets "credentials.json" ["https://www.googleapis.com/auth/calendar"];
     StepLocalServer;
     StepDump "token.pickle" granted;
     StepBuild (Some granted)].

(** [fresh] after the two CalDAV calls of [YandexCalendarClient.__init__]. *)
Definition after_caldav : Host (platform := platform) :=
  mkHost (platform := platform) []
    [StepPrincipal "https://caldav.yandex.ru" "user" "app-password"; StepCalendars].

(** The same two states on the account with "home" only. *)
Definition fresh_home_only : Host (platform := platform_home_only) :=
  mkHost (platform := platform_home_only) [] [].

Definition after_caldav_home_only : Host (platform := platform_home_only) :=
  mkHost (platform := platform_home_only) []
    [StepPrincipal "https://caldav.yandex.ru" "user" "app-password"; StepCalendars].

(** [after_caldav] after the login of [GoogleCalendarClient.__init__]. *)
Definition after_both : Host (platform := platform) :=
  mkHost (platform := platform)
    ([("token.pickle", granted)] : RefHost.files)
    [StepPrincipal "https://caldav.yandex.ru" "user" "app-password";
     StepCalendars;
     StepSecrets "credentials.json" ["https://www.googleapis.com/auth/calendar"];
     StepLocalServer;
     StepDump "token.pickle" granted;
     StepBuild (Some granted)].

End Cases.


(* ===================================================================== *)
(** * Part 6: properties *)
(* ===================================================================== *)

(** Closes an equation between closed terms by evaluating both sides. *)
Ltac vm_refl :=
  match goal with
  | |- ?a = ?b => vm_cast_no_check (@eq_refl _ b)
  end.

(** ** The calendar *)

Lemma all_from_sound fuel : forall r P, all_from fuel r P = true ->
  forall z, r <= z < r + Z.of_nat fuel -> P z = true.
Proof.
  induction fuel as [|f IH]; intros r P H z Hz; [lia|].
  simpl in H. apply andb_true_iff in H as [H0 H1].
  destruct (Z.eq_dec z r) as [->|Hne]; [done|].
  apply (IH (r + 1) P H1). lia.
Qed.

Lemma year_checked : all_from 400 0 year_ok = true.
Proof. vm_cast_no_check (eq_refl true). Qed.

Lemma day_checked_common : all_from 365 0 (day_ok false) = true.
Proof. vm_cast_no_check (eq_refl true). Qed.

Lemma day_checked_leap : all_from 365 0 (day_ok true) = true.
Proof. vm_cast_no_check (eq_refl true). Qed.

Lemma year_ok_all i : 0 <= i < 400 -> year_ok i = true.
Proof. intros Hi. apply (all_from_sound _ _ _ year_checked). lia. Qed.

Lemma day_ok_all leapyear n : 0 <= n < 365 -> day_ok leapyear n = true.
Proof.
  intros Hn. destruct leapyear.
  - apply (all_from_sound _ _ _ day_checked_leap). lia.
  - apply (all_from_sound _ _ _ day_checked_common). lia.
Qed.

(** The year [1 + n100*100 + n4*4 + n1] of a cycle. *)
Lemma year_facts n100 n4 n1 :
  0 <= n100 <= 3 -> 0 <= n4 <= 24 -> 0 <= n1 <= 3 ->
  let y := 1 + n100 * 100 + n4 * 4 + n1 in
  Date.days_before_year y = n100 * Date.DI100Y + n4 * Date.DI4Y + n1 * 365
  /\ Date.is_leap y = (n1 =? 3) && (negb (n4 =? 24) || (n100 =? 3)).
Proof.
  intros H100 H4 H1 y.
  set (i := n100 * 100 + n4 * 4 + n1).
  assert (Hi : 0 <= i < 400) by (unfold i; lia).
  pose proof (year_ok_all i Hi) as Hc. unfold year_ok in Hc. cbv zeta in Hc.
  assert (E100 : i / 100 = n100)
    by (symmetry; apply (Z.div_unique i 100 n100 (n4 * 4 + n1)); unfold i; lia).
  assert (Em : i mod 100 = n4 * 4 + n1)
    by (symmetry; apply (Z.mod_unique i 100 n100 (n4 * 4 + n1)); unfold i; lia).
  assert (E4 : i mod 100 / 4 = n4)
    by (rewrite Em; symmetry; apply (Z.div_unique _ 4 n4 n1); lia).
  assert (E1 : i mod 4 = n1)
    by (symmetry; apply (Z.mod_unique i 4 (n100 * 25 + n4) n1); unfold i; lia).
  rewrite E100, E4, E1 in Hc. apply andb_true_iff in Hc as [Hd Hl].
  apply Z.eqb_eq in Hd. apply Bool.eqb_prop in Hl.
  replace y with (1 + i) by (unfold y, i; lia). by split.
Qed.

(** Inside a 400-year cycle, [ord2ymd_cycle] maps the zero-based day [r]
    to a real calendar day whose ordinal is [r + 1]. *)
Lemma ord2ymd_cycle_spec r :
  0 <= r < Date.DI400Y ->
  exists y m d,
    Date.ord2ymd_cycle r = (y, m, d)
    /\ Date.ymd2ord y m d = r + 1
    /\ 1 <= y <= 400 /\ 1 <= m <= 12 /\ 1 <= d <= Date.days_in_month y m.
Proof.
  intros Hr. unfold Date.ord2ymd_cycle. cbv zeta.
  pose proof (Z.div_mod r Date.DI100Y ltac:(discriminate)) as E100.
  pose proof (Z.mod_pos_bound r Date.DI100Y ltac:(reflexivity)) as B100.
  set (n100 := r / Date.DI100Y) in *. set (a := r mod Date.DI100Y) in *.
  pose proof (Z.div_mod a Date.DI4Y ltac:(discriminate)) as E4.
  pose proof (Z.mod_pos_bound a Date.DI4Y ltac:(reflexivity)) as B4.
  set (n4 := a / Date.DI4Y) in *. set (b := a mod Date.DI4Y) in *.
  pose proof (Z.div_mod b 365 ltac:(discriminate)) as E1.
  pose proof (Z.mod_pos_bound b 365 ltac:(reflexivity)) as B1.
  set (n1 := b / 365) in *. set (n := b mod 365) in *.
  clearbody n n1 b n4 a n100.
  unfold Date.DI400Y, Date.DI100Y, Date.DI4Y in Hr, E100, B100, E4, B4.
  assert (H100 : 0 <= n100 <= 4) by lia.
  assert (H4 : 0 <= n4 <= 24) by lia.
  assert (H1 : 0 <= n1 <= 4) by lia.
  destruct (Z.eqb_spec n100 4) as [->|Hn100].
  { (* the last day of the cycle *)
    assert (a = 0) as -> by lia. assert (n4 = 0) as -> by lia.
    assert (b = 0) as -> by lia. assert (n1 = 0) as -> by lia.
    assert (r = 146096) as -> by lia.
    rewrite orb_true_r. exists 400, 12, 31. by vm_compute. }
  rewrite orb_false_r.
  destruct (Z.eqb_spec n1 4) as [->|Hn1].
  { (* the last day of a leap year *)
    assert (n = 0) as -> by lia. assert (H4' : 0 <= n4 <= 23) by lia.
    destruct (year_facts n100 n4 3) as [Hd Hl]; [lia..|]. cbv zeta in Hd, Hl.
    replace (1 + n100 * 100 + n4 * 4 + 4 - 1) with (1 + n100 * 100 + n4 * 4 + 3)
      by lia.
    set (y := 1 + n100 * 100 + n4 * 4 + 3) in *.
    assert (Hleap : Date.is_leap y = true).
    { rewrite Hl. destruct (Z.eqb_spec n4 24); [lia|reflexivity]. }
    exists y, 12, 31. split; [reflexivity|].
    unfold Date.ymd2ord, Date.days_before_month, Date.days_in_month.
    rewrite Hd, Hleap. unfold Date.DI100Y, Date.DI4Y. cbn [andb Z.ltb Z.eqb].
    change (Date.DAYS_BEFORE_MONTH 12) with 334.
    change (Date.DAYS_IN_MONTH 12) with 31.
    change (2 <? 12) with true. change (12 =? 2) with false. cbn [andb].
    change ((12 =? 2)%positive) with false. cbn [andb].
    subst y. lia. }
  (* an ordinary day *)
  assert (H100' : 0 <= n100 <= 3) by lia. assert (H1' : 0 <= n1 <= 3) by lia.
  destruct (year_facts n100 n4 n1 H100' H4 H1') as [Hd Hl]. cbv zeta in Hd, Hl.
  set (y := 1 + n100 * 100 + n4 * 4 + n1) in *.
  rewrite <- Hl.
  pose proof (day_ok_all (Date.is_leap y) n B1) as Hc. unfold day_ok in Hc.
  destruct (Date.month_day (Date.is_leap y) n) as [m d].
  rewrite !andb_true_iff in Hc. destruct Hc as [[[[Hs Hm1] Hm2] Hd1] Hd2].
  apply Z.eqb_eq in Hs. apply Z.leb_le in Hm1, Hm2, Hd1, Hd2.
  exists y, m, d. split; [reflexivity|].
  unfold Date.ymd2ord, Date.days_before_month, Date.days_in_month.
  rewrite Hd. unfold Date.DI100Y, Date.DI4Y. subst y. lia.
Qed.

(** How [fromordinal] decomposes an ordinal: a number of whole 400-year
    cycles and a real calendar day inside the cycle. *)
Lemma fromordinal_cycle n :
  exists y m d,
    Date.fromordinal n = Date.mk ((n - 1) / Date.DI400Y * 400 + y) m d
    /\ Date.ymd2ord y m d = (n - 1) mod Date.DI400Y + 1
    /\ 1 <= y <= 400 /\ 1 <= m <= 12 /\ 1 <= d <= Date.days_in_month y m.
Proof.
  assert (Hr : 0 <= (n - 1) mod Date.DI400Y < Date.DI400Y)
    by (apply Z.mod_pos_bound; reflexivity).
  destruct (ord2ymd_cycle_spec _ Hr) as (y & m & d & Heq & H).
  exists y, m, d. split; [|exact H].
  unfold Date.fromordinal, Date.ord2ymd. cbv zeta. by rewrite Heq.
Qed.

Lemma is_leap_shift q y : Date.is_leap (q * 400 + y) = Date.is_leap y.
Proof.
  unfold Date.is_leap.
  replace (q * 400 + y) with (y + (q * 100) * 4) at 1 by lia.
  replace (q * 400 + y) with (y + (q * 4) * 100) at 1 by lia.
  replace (q * 400 + y) with (y + q * 400) by lia.
  rewrite !Z.mod_add by lia. reflexivity.
Qed.

Lemma days_before_year_shift q y :
  Date.days_before_year (q * 400 + y) = q * Date.DI400Y + Date.days_before_year y.
Proof.
  unfold Date.days_before_year, Date.DI400Y. cbv zeta.
  replace (q * 400 + y - 1) with (y - 1 + q * 400) by lia.
  replace ((y - 1 + q * 400) / 4) with ((y - 1) / 4 + q * 100)
    by (replace (y - 1 + q * 400) with (y - 1 + (q * 100) * 4) by lia;
        rewrite Z.div_add by lia; reflexivity).
  replace ((y - 1 + q * 400) / 100) with ((y - 1) / 100 + q * 4)
    by (replace (y - 1 + q * 400) with (y - 1 + (q * 4) * 100) by lia;
        rewrite Z.div_add by lia; reflexivity).
  rewrite Z.div_add by lia. lia.
Qed.

Lemma ymd2ord_shift q y m d :
  Date.ymd2ord (q * 400 + y) m d = q * Date.DI400Y + Date.ymd2ord y m d.
Proof.
  unfold Date.ymd2ord, Date.days_before_month.
  rewrite days_before_year_shift, is_leap_shift. lia.
Qed.

Lemma days_in_month_shift q y m :
  Date.days_in_month (q * 400 + y) m = Date.days_in_month y m.
Proof. unfold Date.days_in_month. by rewrite is_leap_shift. Qed.


(** The day with ordinal [n] has ordinal [n]. *)
Lemma toordinal_fromordinal n : Date.toordinal (Date.fromordinal n) = n.
Proof.
  destruct (fromordinal_cycle n) as (y & m & d & -> & Hord & _).
  unfold Date.toordinal. cbn [Date.year Date.month Date.day].
  rewrite ymd2ord_shift, Hord.
  pose proof (Z.div_mod (n - 1) Date.DI400Y ltac:(discriminate)). lia.
Qed.

Lemma days_before_year_lower y : 10000 <= y -> 3652059 <= Date.days_before_year y.
Proof.
  intros Hy. unfold Date.days_before_year. cbv zeta.
  Z.div_mod_to_equations. lia.
Qed.

Lemma days_before_year_upper y : y <= 0 -> Date.days_before_year y <= -366.
Proof.
  intros Hy. unfold Date.days_before_year. cbv zeta.
  Z.div_mod_to_equations. lia.
Qed.

Lemma month_cases m :
  1 <= m <= 12 ->
  m = 1 \/ m = 2 \/ m = 3 \/ m = 4 \/ m = 5 \/ m = 6 \/ m = 7 \/ m = 8
  \/ m = 9 \/ m = 10 \/ m = 11 \/ m = 12.
Proof. lia. Qed.

Lemma DAYS_BEFORE_MONTH_bounds m :
  1 <= m <= 12 -> 0 <= Date.DAYS_BEFORE_MONTH m <= 334.
Proof.
  intros Hm. apply month_cases in Hm.
  repeat (destruct Hm as [Hm|Hm]; [subst m; simpl; lia|]). subst m; simpl; lia.
Qed.

Lemma days_in_month_le y m : 1 <= m <= 12 -> Date.days_in_month y m <= 31.
Proof.
  intros Hm. unfold Date.days_in_month.
  destruct ((m =? 2) && Date.is_leap y); [lia|]. apply month_cases in Hm.
  repeat (destruct Hm as [Hm|Hm]; [subst m; simpl; lia|]). subst m; simpl; lia.
Qed.

(** An ordinal between 1 and [MAXORDINAL] is the ordinal of a date that
    the [date] constructor accepts. *)
Lemma valid_fromordinal n :
  1 <= n <= Date.MAXORDINAL -> Date.valid (Date.fromordinal n) = true.
Proof.
  intros Hn. pose proof (toordinal_fromordinal n) as Hord.
  destruct (fromordinal_cycle n) as (y & m & d & Heq & _ & Hy & Hm & Hd).
  rewrite Heq in Hord |- *. clear Heq.
  unfold Date.valid, Date.toordinal in *.
  cbn [Date.year Date.month Date.day] in *.
  rewrite days_in_month_shift.
  pose proof (DAYS_BEFORE_MONTH_bounds m Hm) as Hbm.
  pose proof (days_in_month_le y m Hm) as Hdm.
  generalize dependent ((n - 1) / Date.DI400Y * 400 + y). intros yy Hord.
  unfold Date.ymd2ord, Date.days_before_month in Hord.
  unfold Date.MAXORDINAL in Hn.
  assert (Hyy : Date.MINYEAR <= yy <= Date.MAXYEAR).
  { unfold Date.MINYEAR, Date.MAXYEAR. split.
    - destruct (Z_le_gt_dec yy 0) as [Hle|]; [|lia].
      pose proof (days_before_year_upper yy Hle).
      destruct ((2 <? m) && Date.is_leap yy); lia.
    - destruct (Z_le_gt_dec 10000 yy) as [Hge|]; [|lia].
      pose proof (days_before_year_lower yy Hge).
      destruct ((2 <? m) && Date.is_leap yy); lia. }
  repeat (apply andb_true_iff; split); apply Z.leb_le; lia.
Qed.

(** ** Datetime arithmetic *)

Lemma wall_us_replace_tzinfo d tz :
  DateTime.wall_us (DateTime.replace_tzinfo d tz) = DateTime.wall_us d.
Proof. reflexivity. Qed.

Lemma split_microseconds total :
  let rem := total mod DateTime.US_PER_DAY in
  let secs := rem / DateTime.US_PER_SECOND in
  (((total / DateTime.US_PER_DAY * 24 + secs / 3600) * 60 + secs mod 3600 / 60) * 60
   + secs mod 3600 mod 60) * DateTime.US_PER_SECOND + rem mod DateTime.US_PER_SECOND
  = total.
Proof.
  cbv zeta.
  pose proof (Z.div_mod total DateTime.US_PER_DAY ltac:(discriminate)) as E1.
  set (rem := total mod DateTime.US_PER_DAY) in *.
  pose proof (Z.div_mod rem DateTime.US_PER_SECOND ltac:(discriminate)) as E2.
  set (secs := rem / DateTime.US_PER_SECOND) in *.
  pose proof (Z.div_mod secs 3600 ltac:(discriminate)) as E3.
  pose proof (Z.div_mod (secs mod 3600) 60 ltac:(discriminate)) as E4.
  generalize dependent (secs mod 3600 mod 60). intros s.
  generalize dependent (secs mod 3600 / 60). intros m.
  generalize dependent (secs mod 3600). intros r.
  generalize dependent (secs / 3600). intros h.
  generalize dependent (rem mod DateTime.US_PER_SECOND). intros us.
  clearbody secs. clearbody rem.
  generalize dependent (total / DateTime.US_PER_DAY). intros days.
  unfold DateTime.US_PER_DAY, DateTime.US_PER_SECOND. intros. lia.
Qed.

(** Adding a timedelta moves the wall clock by exactly that much and keeps
    the tzinfo. *)
Lemma add_us_spec d delta d' :
  DateTime.add_us d delta = Ok d' ->
  DateTime.wall_us d' = DateTime.wall_us d + delta
  /\ DateTime.tzinfo d' = DateTime.tzinfo d.
Proof.
  unfold DateTime.add_us. cbv zeta.
  destruct (_ && _); [|discriminate]. intros [= <-]. split; [|reflexivity].
  unfold DateTime.wall_us at 1. cbn [DateTime.date DateTime.hour DateTime.minute
    DateTime.second DateTime.microsecond].
  rewrite toordinal_fromordinal. apply split_microseconds.
Qed.

Lemma add_us_total d delta :
  0 < (DateTime.wall_us d + delta) / DateTime.US_PER_DAY <= Date.MAXORDINAL ->
  exists d', DateTime.add_us d delta = Ok d'.
Proof.
  intros [H1 H2]. unfold DateTime.add_us. cbv zeta.
  apply Z.ltb_lt in H1. apply Z.leb_le in H2. rewrite H1, H2. eauto.
Qed.

Lemma add_us_overflow d delta :
  ~ (0 < (DateTime.wall_us d + delta) / DateTime.US_PER_DAY <= Date.MAXORDINAL) ->
  DateTime.add_us d delta = Raise (OverflowError "date value out of range").
Proof.
  intros H. unfold DateTime.add_us. cbv zeta.
  destruct (0 <? _) eqn:H1; destruct (_ <=? Date.MAXORDINAL) eqn:H2;
    try reflexivity.
  apply Z.ltb_lt in H1. apply Z.leb_le in H2. tauto.
Qed.

(** Conversion to UTC yields a datetime tagged UTC that denotes the same
    instant. *)
Lemma astimezone_utc_spec d off d' :
  DateTime.astimezone d off DateTime.utc = Ok d' ->
  DateTime.tzinfo d' = Some DateTime.utc
  /\ DateTime.instant_us d' DateTime.utc = DateTime.instant_us d off.
Proof.
  unfold DateTime.astimezone.
  destruct (DateTime.add_us d (- off)) as [|u] eqn:Hu; [discriminate|].
  cbn [res_bind]. intros H.
  apply add_us_spec in Hu as [Hu _]. apply add_us_spec in H as [H Ht].
  rewrite wall_us_replace_tzinfo in H. split; [exact Ht|].
  unfold DateTime.instant_us, DateTime.utc in *. lia.
Qed.

Lemma astimezone_utc_total d off :
  DateTime.tzinfo d = Some off -> utc_representable d = true ->
  exists d', DateTime.astimezone d off DateTime.utc = Ok d'.
Proof.
  unfold utc_representable. intros -> H. apply andb_true_iff in H as [H1 H2].
  apply Z.ltb_lt in H1. apply Z.leb_le in H2.
  rewrite <- Z.add_opp_r in H1, H2.
  unfold DateTime.astimezone.
  destruct (add_us_total d (- off) (conj H1 H2)) as [u Hu].
  rewrite Hu. cbn [res_bind]. apply add_us_spec in Hu as [Hu _].
  apply add_us_total. rewrite wall_us_replace_tzinfo, Hu.
  unfold DateTime.utc. rewrite Z.add_0_r. exact (conj H1 H2).
Qed.

Lemma astimezone_utc_overflow d off :
  DateTime.tzinfo d = Some off -> utc_representable d = false ->
  DateTime.astimezone d off DateTime.utc
  = Raise (OverflowError "date value out of range").
Proof.
  unfold utc_representable. intros -> H. unfold DateTime.astimezone.
  rewrite add_us_overflow; [reflexivity|].
  intros [H1 H2]. apply Z.ltb_lt in H1. apply Z.leb_le in H2.
  rewrite Z.add_opp_r in H1, H2.
  rewrite H1, H2 in H. discriminate.
Qed.

(** ** Dicts *)

Lemma lookup_dict_update {V} (d src : gmap string V) (k : string) :
  dict_update d src !! k
  = match src !! k with
    | Some v => Some v
    | None => d !! k
    end.
Proof.
  unfold dict_update.
  apply (map_fold_weak_ind
           (fun (r : gmap string V) (m : gmap string V) =>
              r !! k = match m !! k with Some v => Some v | None => d !! k end)).
  - by rewrite lookup_empty.
  - intros i x m r Hi IH. destruct (decide (i = k)) as [->|Hne].
    + by rewrite !lookup_insert_eq.
    + by rewrite !lookup_insert_ne.
Qed.

Lemma lookup_dict_merge {V} (a b : gmap string V) (k : string) :
  dict_merge a b !! k
  = match b !! k with
    | Some v => Some v
    | None => a !! k
    end.
Proof.
  unfold dict_merge. rewrite !lookup_dict_update, lookup_empty.
  by destruct (b !! k), (a !! k).
Qed.

Lemma dom_dict_merge {V} (a b : gmap string V) :
  dom (dict_merge a b) = dom a ∪ dom b.
Proof.
  apply set_eq. intros k.
  rewrite elem_of_union, !elem_of_dom, lookup_dict_merge.
  destruct (b !! k), (a !! k); unfold is_Some; naive_solver.
Qed.

Lemma yandex_missing_keys_alt (y g : gmap string EventData) :
  CalendarSyncManager.yandex_missing_keys y g = dom g ∖ dom y.
Proof.
  unfold CalendarSyncManager.yandex_missing_keys, CalendarSyncManager.all_events.
  rewrite dom_dict_merge. set_solver.
Qed.

Lemma google_missing_keys_alt (y g : gmap string EventData) :
  CalendarSyncManager.google_missing_keys y g = dom y ∖ dom g.
Proof.
  unfold CalendarSyncManager.google_missing_keys, CalendarSyncManager.all_events.
  rewrite dom_dict_merge. set_solver.
Qed.

(** ** Running the program *)

Section Runs.
Context {env : Environment}.
Variable convert_iso_timezone : option string -> Z -> res string.

Lemma log_nil (w : World) : log w [] = w.
Proof. destruct w. unfold log. simpl. by rewrite app_nil_r. Qed.

Lemma log_log (w : World) (a b : list Effect) : log (log w a) b = log w (a ++ b).
Proof. unfold log. simpl. by rewrite app_assoc. Qed.

Lemma set_iter_empty : set_iter (∅ : gset string) = [].
Proof.
  apply Permutation_nil_r. rewrite <- (elements_empty (C := gset string)).
  apply set_iter_perm.
Qed.

Lemma set_iter_singleton (k : string) : set_iter ({[k]} : gset string) = [k].
Proof.
  apply Permutation_singleton_r. rewrite <- (elements_singleton (C := gset string) k).
  apply set_iter_perm.
Qed.

Lemma yandex_get_events_run (s e : DateTime.t) (w : World) :
  YandexCalendarClient.get_events s e w
  = ((let? events := calendar_search (yandex w) s e in
      YandexCalendarClient.collect (concat events) ∅),
     log w [CalSearch s e]).
Proof.
  unfold YandexCalendarClient.get_events, remote_search, bind, emit, lift, log.
  simpl. by destruct (calendar_search (yandex w) s e).
Qed.

Lemma google_get_events_run (config : Config) (s e : DateTime.t) (w : World) :
  GoogleCalendarClient.get_events convert_iso_timezone config s e w
  = ((let? events_result :=
        events_list (google w) (google_calname config)
                    (DateTime.isoformat_seconds s) (DateTime.isoformat_seconds e) in
      GoogleCalendarClient.collect convert_iso_timezone (default [] events_result) ∅),
     log w [EventsList (google_calname config)
                       (DateTime.isoformat_seconds s) (DateTime.isoformat_seconds e)]).
Proof.
  unfold GoogleCalendarClient.get_events, remote_list, bind, emit, lift, log.
  simpl. by destruct (events_list _ _ _ _).
Qed.

(** [sync] fetches from Yandex, then from Google, then reconciles; a
    fetch that raises ends the run on the spot. *)
Lemma sync_run (self : CalendarSyncManager.t) (w : World) :
  let search :=
    CalSearch (CalendarSyncManager.time_limit self)
              (CalendarSyncManager.time_limit_future self) in
  let listing :=
    EventsList (google_calname (CalendarSyncManager.config self))
      (DateTime.isoformat_seconds (CalendarSyncManager.time_limit self))
      (DateTime.isoformat_seconds (CalendarSyncManager.time_limit_future self)) in
  CalendarSyncManager.sync convert_iso_timezone self w
  = match yandex_view self (yandex w) with
    | Raise e => (Raise e, log w [search])
    | Ok yandex_events =>
        match google_view convert_iso_timezone self (google w) with
        | Raise e => (Raise e, log w [search; listing])
        | Ok google_events =>
            CalendarSyncManager.reconcile self yandex_events google_events
              (log w [search; listing])
        end
    end.
Proof.
  cbv zeta. unfold CalendarSyncManager.sync, bind.
  rewrite yandex_get_events_run. fold (yandex_view self (yandex w)).
  destruct (yandex_view self (yandex w)) as [e|y]; [reflexivity|].
  rewrite google_get_events_run.
  change (google (log w _)) with (google w).
  fold (google_view convert_iso_timezone self (google w)).
  rewrite log_log.
  destruct (google_view convert_iso_timezone self (google w)); reflexivity.
Qed.

(** What one call of [GoogleCalendarClient.add_event] does. *)
Lemma google_add_event_run (config : Config) (ev : EventData)
    (tl tlf : DateTime.t) (w : World) :
  let call := CallGoogleAdd ev tl tlf in
  let body := mkGBody (name ev) (description ev) (start ev) "UTC" (end_ ev) "UTC" in
  let write := EventsInsert (google_calname config) body in
  GoogleCalendarClient.add_event config ev tl tlf w
  = match DateTime.fromisoformat (start ev) with
    | Raise e => (Raise e, log w [call])
    | Ok start_dt =>
        match GoogleCalendarClient.out_of_range start_dt tl tlf with
        | Raise e => (Raise e, log w [call])
        | Ok true => (Ok tt, log w [call; Print (LineSkipped (name ev) start_dt)])
        | Ok false =>
            match events_insert (google w) (google_calname config) body with
            | Raise e => (Raise e, log w [call; write])
            | Ok g' =>
                (Ok tt, mkWorld (yandex w) g' (rng w) (trace w ++ [call; write]))
            end
        end
    end.
Proof.
  cbv zeta.
  unfold GoogleCalendarClient.add_event, remote_insert, print, bind, emit, lift, log.
  simpl. destruct (DateTime.fromisoformat (start ev)) as [|d]; [reflexivity|].
  destruct (GoogleCalendarClient.out_of_range d tl tlf) as [|[|]];
    [reflexivity| |]; simpl; rewrite <- app_assoc; simpl; [reflexivity|].
  destruct (events_insert _ _ _); reflexivity.
Qed.

(** What one call of [YandexCalendarClient.add_event] does: no window is
    consulted. *)
Lemma yandex_add_event_run (ev : EventData) (w : World) :
  let call := CallYandexAdd ev in
  YandexCalendarClient.add_event ev w
  = match DateTime.fromisoformat (start ev) with
    | Raise e =>
        (Raise e, mkWorld (yandex w) (google w) (S (rng w)) (trace w ++ [call]))
    | Ok dtstart =>
        match DateTime.fromisoformat (end_ ev) with
        | Raise e =>
            (Raise e, mkWorld (yandex w) (google w) (S (rng w)) (trace w ++ [call]))
        | Ok dtend =>
            let ics :=
              to_ical (mkICalEvent (rng w) (name ev) (description ev) dtstart dtend) in
            match calendar_add_event (yandex w) ics with
            | Raise e =>
                (Raise e,
                 mkWorld (yandex w) (google w) (S (rng w))
                         (trace w ++ [call; CalAddEvent ics]))
            | Ok y' =>
                (Ok tt,
                 mkWorld y' (google w) (S (rng w))
                         (trace w ++ [call; CalAddEvent ics]))
            end
        end
    end.
Proof.
  cbv zeta.
  unfold YandexCalendarClient.add_event, remote_add_event, uuid4, bind, emit, lift.
  simpl. destruct (DateTime.fromisoformat (start ev)) as [|d]; [reflexivity|].
  destruct (DateTime.fromisoformat (end_ ev)) as [|d2]; [reflexivity|].
  simpl. rewrite <- app_assoc. simpl.
  destruct (calendar_add_event _ _); reflexivity.
Qed.

Lemma google_add_event_trace (config : Config) (ev : EventData)
    (tl tlf : DateTime.t) (w : World) :
  exists t,
    trace (GoogleCalendarClient.add_event config ev tl tlf w).2
    = trace w ++ CallGoogleAdd ev tl tlf :: t
    /\ google_add_calls t = [] /\ yandex_add_calls t = [].
Proof.
  rewrite google_add_event_run. cbv zeta.
  destruct (DateTime.fromisoformat (start ev)) as [|d]; [by exists []|].
  destruct (GoogleCalendarClient.out_of_range d tl tlf) as [|[|]];
    [by exists []|by eexists [_]|].
  destruct (events_insert _ _ _); by eexists [_].
Qed.

Lemma yandex_add_event_trace (ev : EventData) (w : World) :
  exists t,
    trace (YandexCalendarClient.add_event ev w).2 = trace w ++ CallYandexAdd ev :: t
    /\ google_add_calls t = [] /\ yandex_add_calls t = [].
Proof.
  rewrite yandex_add_event_run. cbv zeta.
  destruct (DateTime.fromisoformat (start ev)) as [|d]; [by exists []|].
  destruct (DateTime.fromisoformat (end_ ev)) as [|d2]; [by exists []|].
  destruct (calendar_add_event _ _); by eexists [_].
Qed.

(** With nothing missing on either side, the rest of [sync] only prints. *)
Lemma reconcile_idle (self : CalendarSyncManager.t)
    (y g : gmap string EventData) (w : World) :
  CalendarSyncManager.yandex_missing_keys y g = ∅ ->
  CalendarSyncManager.google_missing_keys y g = ∅ ->
  CalendarSyncManager.reconcile self y g w
  = (Ok tt,
     log w [Print (LineTotals (size (CalendarSyncManager.all_events y g))
                              (size y) (size g));
            Print (LineMissingYandex ∅); Print (LineMissingGoogle ∅)]).
Proof.
  intros Hy Hg. unfold CalendarSyncManager.reconcile. cbv zeta.
  rewrite Hy, Hg, set_iter_empty.
  unfold print, bind, emit, ret, log. simpl.
  by rewrite <- !app_assoc.
Qed.

End Runs.
(** ** Normalisation and Identity Keys *)

Lemma ensure_utc_spec (v : dtvalue) (d : DateTime.t) :
  YandexCalendarClient.ensure_utc v = Ok d ->
  exists raw, v = DtDateTime raw /\ utc_equivalent raw d.
Proof.
  destruct v as [raw|]; [|discriminate]. simpl. intros H. exists raw.
  split; [reflexivity|]. unfold utc_equivalent.
  destruct (DateTime.tzinfo raw) as [off|] eqn:Htz.
  - by apply astimezone_utc_spec in H.
  - injection H as <-. by split.
Qed.

(** What the loop body of [YandexCalendarClient.get_events] stores. *)
Lemma yandex_entry_spec (c : VEvent) (k : string) (e : EventData) :
  YandexCalendarClient.entry c = Ok (k, e) ->
  exists n vs ve ds de,
    summary c = Some n /\ dtstart c = Some vs /\ dtend c = Some ve
    /\ YandexCalendarClient.ensure_utc vs = Ok ds
    /\ YandexCalendarClient.ensure_utc ve = Ok de
    /\ k = n +:+ "/" +:+ DateTime.isoformat ds
    /\ e = mkEventData (Some n) (default "" (vdescription c))
                       (DateTime.isoformat ds) (DateTime.isoformat de).
Proof.
  unfold YandexCalendarClient.entry, YandexCalendarClient.dt_of.
  destruct (summary c) as [n|]; [|discriminate].
  destruct (dtstart c) as [vs|]; [|discriminate].
  destruct (dtend c) as [ve|]; [|discriminate]. cbn [res_bind].
  destruct (YandexCalendarClient.ensure_utc vs) as [|ds] eqn:Hs; [discriminate|].
  destruct (YandexCalendarClient.ensure_utc ve) as [|de] eqn:He; [discriminate|].
  cbn [res_bind]. intros [= <- <-]. by exists n, vs, ve, ds, de.
Qed.

Lemma yandex_entry_keyed (c : VEvent) (k : string) (e : EventData) :
  YandexCalendarClient.entry c = Ok (k, e) -> k = event_key (name e) (start e).
Proof.
  intros H. apply yandex_entry_spec in H
    as (n & vs & ve & ds & de & _ & _ & _ & _ & _ & -> & ->). reflexivity.
Qed.

Lemma google_entry_spec (helper : option string -> Z -> res string)
    (it : GItem) (k : string) (e : EventData) :
  GoogleCalendarClient.entry helper it = Ok (k, e) ->
  exists start_dt end_dt,
    helper (GoogleCalendarClient.dateTime_of (g_start it)) DateTime.utc = Ok start_dt
    /\ helper (GoogleCalendarClient.dateTime_of (g_end it)) DateTime.utc = Ok end_dt
    /\ k = py_str (g_summary it) +:+ "/" +:+ start_dt
    /\ e = mkEventData (g_summary it) (default "" (g_description it)) start_dt end_dt.
Proof.
  unfold GoogleCalendarClient.entry.
  destruct (helper (GoogleCalendarClient.dateTime_of (g_start it)) _) as [|s] eqn:Hs;
    [discriminate|].
  destruct (helper (GoogleCalendarClient.dateTime_of (g_end it)) _) as [|s'] eqn:He;
    [discriminate|].
  cbn [res_bind]. intros [= <- <-]. by exists s, s'.
Qed.

Lemma google_entry_keyed (helper : option string -> Z -> res string)
    (it : GItem) (k : string) (e : EventData) :
  GoogleCalendarClient.entry helper it = Ok (k, e) ->
  k = event_key (name e) (start e).
Proof.
  intros H. apply google_entry_spec in H as (s & s' & _ & _ & -> & ->). reflexivity.
Qed.

Lemma keyed_empty : keyed ∅.
Proof. intros k e H. by rewrite lookup_empty in H. Qed.

Lemma keyed_insert (m : gmap string EventData) (k : string) (e : EventData) :
  keyed m -> k = event_key (name e) (start e) -> keyed (<[k := e]> m).
Proof.
  intros Hm Hk k' e' H. destruct (decide (k = k')) as [<-|Hne].
  - rewrite lookup_insert_eq in H. by injection H as <-.
  - rewrite lookup_insert_ne in H by done. by apply Hm.
Qed.

(** Every record that the loops store comes from a component and sits
    under the key computed for it. *)
Lemma yandex_collect_from (cs : list VEvent) :
  forall m0 m, YandexCalendarClient.collect cs m0 = Ok m ->
  forall k e, m !! k = Some e ->
    m0 !! k = Some e \/ exists c, c ∈ cs /\ YandexCalendarClient.entry c = Ok (k, e).
Proof.
  induction cs as [|c cs IH]; intros m0 m H k e Hk; simpl in H.
  - injection H as <-. by left.
  - destruct (YandexCalendarClient.entry c) as [|[k0 e0]] eqn:Hc; [discriminate|].
    cbn [res_bind] in H. destruct (IH _ _ H _ _ Hk) as [H0|(c' & Hin & Hc')].
    + destruct (decide (k0 = k)) as [->|Hne].
      * rewrite lookup_insert_eq in H0. injection H0 as ->.
        right. exists c. split; [left|done].
      * rewrite lookup_insert_ne in H0 by done. by left.
    + right. exists c'. split; [by right|done].
Qed.

Lemma google_collect_from (helper : option string -> Z -> res string)
    (its : list GItem) :
  forall m0 m, GoogleCalendarClient.collect helper its m0 = Ok m ->
  forall k e, m !! k = Some e ->
    m0 !! k = Some e
    \/ exists it, it ∈ its /\ GoogleCalendarClient.entry helper it = Ok (k, e).
Proof.
  induction its as [|it its IH]; intros m0 m H k e Hk; simpl in H.
  - injection H as <-. by left.
  - destruct (GoogleCalendarClient.entry helper it) as [|[k0 e0]] eqn:Hc;
      [discriminate|].
    cbn [res_bind] in H. destruct (IH _ _ H _ _ Hk) as [H0|(c' & Hin & Hc')].
    + destruct (decide (k0 = k)) as [->|Hne].
      * rewrite lookup_insert_eq in H0. injection H0 as ->.
        right. exists it. split; [left|done].
      * rewrite lookup_insert_ne in H0 by done. by left.
    + right. exists c'. split; [by right|done].
Qed.

Section ViewFacts.
Context {env : Environment}.
Variable convert_iso_timezone : option string -> Z -> res string.
Variable self : CalendarSyncManager.t.

Lemma yandex_view_from (y : YStore) (m : gmap string EventData)
    (k : string) (e : EventData) :
  yandex_view self y = Ok m -> m !! k = Some e ->
  exists c, YandexCalendarClient.entry c = Ok (k, e).
Proof.
  unfold yandex_view. destruct (calendar_search _ _ _) as [|evs]; [discriminate|].
  cbn [res_bind]. intros H Hk.
  destruct (yandex_collect_from _ _ _ H _ _ Hk) as [H0|(c & _ & Hc)].
  - by rewrite lookup_empty in H0.
  - by exists c.
Qed.

Lemma google_view_from (g : GStore) (m : gmap string EventData)
    (k : string) (e : EventData) :
  google_view convert_iso_timezone self g = Ok m -> m !! k = Some e ->
  exists it, GoogleCalendarClient.entry convert_iso_timezone it = Ok (k, e).
Proof.
  unfold google_view. destruct (events_list _ _ _ _) as [|r]; [discriminate|].
  cbn [res_bind]. intros H Hk.
  destruct (google_collect_from _ _ _ _ H _ _ Hk) as [H0|(c & _ & Hc)].
  - by rewrite lookup_empty in H0.
  - by exists c.
Qed.

Lemma yandex_view_keyed (y : YStore) (m : gmap string EventData) :
  yandex_view self y = Ok m -> keyed m.
Proof.
  intros H k e Hk. destruct (yandex_view_from _ _ _ _ H Hk) as [c Hc].
  by apply yandex_entry_keyed in Hc.
Qed.

Lemma google_view_keyed (g : GStore) (m : gmap string EventData) :
  google_view convert_iso_timezone self g = Ok m -> keyed m.
Proof.
  intros H k e Hk. destruct (google_view_from _ _ _ _ H Hk) as [c Hc].
  by apply google_entry_keyed in Hc.
Qed.

End ViewFacts.
(** ** The merged map and the missing sets *)

(** C4. In the merged map that [sync] builds, an Identity Key present in
    both fetched maps carries the record of the Google map (the second,
    overriding operand of the merge); a key present in only one of the
    maps carries that map's record. *)
Theorem all_events_google_wins (yandex_events google_events : gmap string EventData)
    (k : string) :
  CalendarSyncManager.all_events yandex_events google_events !! k
  = match google_events !! k with
    | Some e2 => Some e2
    | None => yandex_events !! k
    end.
Proof. apply lookup_dict_merge. Qed.

(** C9. The keys of the merged map are the keys of the Yandex map together
    with those of the Google map, so that no Identity Key is missing on
    both sides at once: the two missing sets are disjoint. *)
Theorem missing_sets_disjoint (yandex_events google_events : gmap string EventData) :
  dom (CalendarSyncManager.all_events yandex_events google_events)
  = dom yandex_events ∪ dom google_events
  /\ CalendarSyncManager.yandex_missing_keys yandex_events google_events
     ∩ CalendarSyncManager.google_missing_keys yandex_events google_events = ∅.
Proof.
  split; [apply dom_dict_merge|].
  rewrite yandex_missing_keys_alt, google_missing_keys_alt. set_solver.
Qed.

Section Engine.
Context {env : Environment}.
Variable convert_iso_timezone : option string -> Z -> res string.
Variable self : CalendarSyncManager.t.

Lemma reconcile_single (k : string) (ev1 : EventData) (w : World) :
  CalendarSyncManager.google_missing_keys {[ k := ev1 ]} ∅ = {[ k ]}
  /\ CalendarSyncManager.yandex_missing_keys {[ k := ev1 ]} ∅ = ∅
  /\ exists t,
       trace (CalendarSyncManager.reconcile self {[ k := ev1 ]} ∅ w).2
       = trace w
         ++ [Print (LineTotals 1 1 0);
             Print (LineMissingYandex ∅);
             Print (LineMissingGoogle {[ k ]});
             CallGoogleAdd ev1 (CalendarSyncManager.time_limit self)
                           (CalendarSyncManager.time_limit_future self)]
         ++ t
       /\ google_add_calls t = [] /\ yandex_add_calls t = [].
Proof.
  assert (Hg : CalendarSyncManager.google_missing_keys {[ k := ev1 ]} ∅ = {[ k ]}).
  { rewrite google_missing_keys_alt, dom_singleton_L, dom_empty_L. set_solver. }
  assert (Hy : CalendarSyncManager.yandex_missing_keys {[ k := ev1 ]} ∅ = ∅).
  { rewrite yandex_missing_keys_alt, dom_empty_L. set_solver. }
  assert (Hall : CalendarSyncManager.all_events {[ k := ev1 ]} ∅
                 = ({[ k := ev1 ]} : gmap string EventData)).
  { apply map_eq. intros k'. unfold CalendarSyncManager.all_events.
    by rewrite lookup_dict_merge, lookup_empty. }
  split; [exact Hg|]. split; [exact Hy|].
  unfold CalendarSyncManager.reconcile. cbv zeta.
  rewrite Hg, Hy, Hall, set_iter_empty, set_iter_singleton.
  rewrite map_size_singleton, map_size_empty.
  unfold for_each. cbv beta. unfold dict_getitem. rewrite lookup_singleton_eq.
  unfold print, bind, emit, ret, lift.
  cbn [yandex google rng trace].
  match goal with
  | |- context [GoogleCalendarClient.add_event ?c ?e ?a ?b ?w0] =>
      destruct (google_add_event_trace c e a b w0) as (t & Ht & Hg0 & Hy0);
      destruct (GoogleCalendarClient.add_event c e a b w0) as [[err|[]] w']
  end; cbn [snd trace] in Ht |- *; exists t; rewrite Ht, <- !app_assoc; done.
Qed.


End Engine.
(** ** The time window *)

(** C5 as stated fails: the window is not computed for every non-negative
    [past_days]. With 800000 days back from 2024-06-15 the first day would
    fall before 0001-01-01, and [__init__] raises [OverflowError]. *)
Lemma window_not_always_computed :
  0 <= past_days Sample.config_far_past
  /\ 0 <= future_days Sample.config_far_past
  /\ CalendarSyncManager.__init__ Sample.now Sample.config_far_past
     = Raise (OverflowError "date value out of range").
Proof. repeat split; try discriminate. Qed.

(** C5 (amended). For every [now] and non-negative [past_days] and
    [future_days] such that today minus [past_days] and today plus
    [future_days] are days that [date] can hold (0001-01-01 to
    9999-12-31), [__init__] computes the window: [time_limit] is 00:00:00
    UTC of the calendar day [past_days] days before today, and
    [time_limit_future] is 23:59:59.999999 UTC of the calendar day
    [future_days] days after today. *)
Theorem window_floor_and_ceiling (now : DateTime.t) (config : Config) :
  0 <= past_days config ->
  0 <= future_days config ->
  0 < Date.toordinal (DateTime.date_of now) - past_days config ->
  Date.toordinal (DateTime.date_of now) + future_days config <= Date.MAXORDINAL ->
  exists first_day last_day,
    CalendarSyncManager.__init__ now config
    = Ok (CalendarSyncManager.mk config
            (DateTime.mk first_day 0 0 0 0 (Some DateTime.utc))
            (DateTime.mk last_day 23 59 59 999999 (Some DateTime.utc)))
    /\ Date.valid first_day = true
    /\ Date.toordinal first_day
       = Date.toordinal (DateTime.date_of now) - past_days config
    /\ Date.valid last_day = true
    /\ Date.toordinal last_day
       = Date.toordinal (DateTime.date_of now) + future_days config.
Proof.
  intros Hp Hf Hlo Hhi.
  set (today := DateTime.date_of now) in *.
  exists (Date.fromordinal (Date.toordinal today - past_days config)),
         (Date.fromordinal (Date.toordinal today + future_days config)).
  assert (Hmax : Date.MAXORDINAL = 3652059) by reflexivity.
  split; [|split; [|split; [|split]]].
  - unfold CalendarSyncManager.__init__. fold today.
    unfold Date.timedelta_days.
    destruct (Z.leb_spec (Z.abs (past_days config)) 999999999); [|lia].
    cbn [res_bind]. unfold Date.sub_days, Date.add_days.
    rewrite Z.add_opp_r.
    destruct (Z.ltb_spec 0 (Date.toordinal today - past_days config)); [|lia].
    destruct (Z.leb_spec (Date.toordinal today - past_days config) Date.MAXORDINAL);
      [|lia].
    cbn [andb res_bind].
    destruct (Z.leb_spec (Z.abs (future_days config)) 999999999); [|lia].
    cbn [res_bind].
    destruct (Z.ltb_spec 0 (Date.toordinal today + future_days config)); [|lia].
    destruct (Z.leb_spec (Date.toordinal today + future_days config) Date.MAXORDINAL);
      [|lia].
    reflexivity.
  - apply valid_fromordinal. lia.
  - apply toordinal_fromordinal.
  - apply valid_fromordinal. lia.
  - apply toordinal_fromordinal.
Qed.

(** The window of 2024-06-15T00:00:00Z with 7 days back and 30 days ahead
    is 2024-06-08T00:00:00Z to 2024-07-15T23:59:59.999999Z. *)
Example window_2024_06_15 :
  CalendarSyncManager.__init__ Sample.now Sample.config = Ok Sample.manager.
Proof. reflexivity. Qed.

Lemma window_floor_and_ceiling_witness :
  exists first_day last_day,
    CalendarSyncManager.__init__ Sample.now Sample.config
    = Ok (CalendarSyncManager.mk Sample.config
            (DateTime.mk first_day 0 0 0 0 (Some DateTime.utc))
            (DateTime.mk last_day 23 59 59 999999 (Some DateTime.utc)))
    /\ Date.valid first_day = true
    /\ Date.toordinal first_day = 739052 - 7
    /\ Date.valid last_day = true
    /\ Date.toordinal last_day = 739052 + 30.
Proof.
  apply (window_floor_and_ceiling Sample.now Sample.config);
    vm_compute; (reflexivity || discriminate).
Defined.

(** ** Normalisation to UTC *)

Lemma string_app_assoc (a b c : string) : (a +:+ b) +:+ c = a +:+ (b +:+ c).
Proof.
  induction a as [|x a IH]; [reflexivity|].
  change (String x ((a +:+ b) +:+ c) = String x (a +:+ (b +:+ c))).
  by rewrite IH.
Qed.

Lemma isoformat_utc_suffix (d : DateTime.t) :
  DateTime.tzinfo d = Some DateTime.utc ->
  exists body, DateTime.isoformat d = body +:+ "+00:00".
Proof.
  intros H. unfold DateTime.isoformat. rewrite H.
  change (DateTime.format_offset (Some DateTime.utc)) with "+00:00".
  exists (DateTime.format_date (DateTime.date d) +:+ "T" +:+ DateTime.format_hms d
          +:+ (if DateTime.microsecond d =? 0 then ""
               else "." +:+ fmt_0d 6 (DateTime.microsecond d))).
  by rewrite !string_app_assoc.
Qed.

Lemma utc_text_intro (raw d : DateTime.t) :
  utc_equivalent raw d -> utc_text raw (DateTime.isoformat d).
Proof.
  intros H. exists d. split; [exact H|]. split; [reflexivity|].
  apply isoformat_utc_suffix, H.
Qed.

Lemma ensure_utc_total (raw : DateTime.t) :
  utc_representable raw = true ->
  exists d, YandexCalendarClient.ensure_utc (DtDateTime raw) = Ok d
            /\ utc_equivalent raw d.
Proof.
  intros H. unfold YandexCalendarClient.ensure_utc, utc_equivalent.
  destruct (DateTime.tzinfo raw) as [off|] eqn:Htz.
  - destruct (astimezone_utc_total raw off Htz H) as [d Hd].
    exists d. split; [exact Hd|]. by apply astimezone_utc_spec.
  - eexists. split; [reflexivity|]. by split.
Qed.




Lemma yandex_entry_utc (c : VEvent) (k : string) (e : EventData) :
  YandexCalendarClient.entry c = Ok (k, e) ->
  exists vs ve,
    dtstart c = Some (DtDateTime vs) /\ dtend c = Some (DtDateTime ve)
    /\ utc_text vs (start e) /\ utc_text ve (end_ e).
Proof.
  intros H.
  apply yandex_entry_spec in H
    as (n & vs & ve & ds & de & _ & Hs & He & Hds & Hde & _ & ->).
  apply ensure_utc_spec in Hds as (rs & -> & Hrs).
  apply ensure_utc_spec in Hde as (re & -> & Hre).
  exists rs, re. repeat split; try assumption; by apply utc_text_intro.
Qed.






(** ** Identity Keys *)

Section Keys.
Context {env : Environment}.
Variable convert_iso_timezone : option string -> Z -> res string.
Variable self : CalendarSyncManager.t.

(** C6. Every record of a fetched map is stored under its name, followed
    by ["/"], followed by its start text. On the Yandex side the name is a
    string and the start text is the ISO-8601 text of the UTC start; on the
    Google side the name is rendered as Python renders it in an f-string
    and the start text is what [convert_iso_timezone] returned for UTC.
    Hence two components (or items) with the same name and start, whatever
    their end and description, get one and the same key, and collecting
    both leaves a single entry. *)
Theorem identity_key_is_name_slash_start :
  (forall y m k e,
      yandex_view self y = Ok m -> m !! k = Some e ->
      exists n raw,
        name e = Some n /\ utc_text raw (start e) /\ k = n +:+ "/" +:+ start e)
  /\ (forall g m k e,
      google_view convert_iso_timezone self g = Ok m -> m !! k = Some e ->
      k = py_str (name e) +:+ "/" +:+ start e
      /\ forall n, name e = Some n -> k = n +:+ "/" +:+ start e)
  /\ (forall c1 c2 k1 e1 k2 e2,
      YandexCalendarClient.entry c1 = Ok (k1, e1) ->
      YandexCalendarClient.entry c2 = Ok (k2, e2) ->
      summary c1 = summary c2 -> dtstart c1 = dtstart c2 ->
      k1 = k2 /\ YandexCalendarClient.collect [c1; c2] ∅ = Ok {[ k1 := e2 ]})
  /\ (forall it1 it2 k1 e1 k2 e2,
      GoogleCalendarClient.entry convert_iso_timezone it1 = Ok (k1, e1) ->
      GoogleCalendarClient.entry convert_iso_timezone it2 = Ok (k2, e2) ->
      g_summary it1 = g_summary it2 -> g_start it1 = g_start it2 ->
      k1 = k2
      /\ GoogleCalendarClient.collect convert_iso_timezone [it1; it2] ∅
         = Ok {[ k1 := e2 ]}).
Proof.
  split; [|split; [|split]].
  - intros y m k e Hm Hk. destruct (yandex_view_from _ _ _ _ _ Hm Hk) as [c Hc].
    destruct (yandex_entry_utc _ _ _ Hc) as (vs & ve & _ & _ & Hs & _).
    apply yandex_entry_spec in Hc
      as (n & _ & _ & ds & de & _ & _ & _ & _ & _ & -> & ->).
    by exists n, vs.
  - intros g m k e Hm Hk. pose proof (google_view_keyed _ _ _ _ Hm k e Hk) as ->.
    split; [reflexivity|]. by intros n ->.
  - intros c1 c2 k1 e1 k2 e2 H1 H2 Hn Hs.
    assert (k1 = k2) as <-.
    { apply yandex_entry_spec in H1
        as (n1 & vs1 & ve1 & ds1 & de1 & Hn1 & Hs1 & _ & Hd1 & _ & -> & _).
      apply yandex_entry_spec in H2
        as (n2 & vs2 & ve2 & ds2 & de2 & Hn2 & Hs2 & _ & Hd2 & _ & -> & _).
      rewrite Hn, Hn2 in Hn1. injection Hn1 as ->.
      rewrite Hs, Hs2 in Hs1. injection Hs1 as ->.
      rewrite Hd2 in Hd1. by injection Hd1 as ->. }
    split; [reflexivity|]. cbn [YandexCalendarClient.collect].
    rewrite H1. cbn [res_bind]. rewrite H2. cbn [res_bind].
    by rewrite insert_insert_eq.
  - intros it1 it2 k1 e1 k2 e2 H1 H2 Hn Hs.
    assert (k1 = k2) as <-.
    { apply google_entry_spec in H1 as (s1 & s1' & Hs1 & _ & -> & _).
      apply google_entry_spec in H2 as (s2 & s2' & Hs2 & _ & -> & _).
      rewrite Hs, Hs2 in Hs1. injection Hs1 as ->. by rewrite Hn. }
    split; [reflexivity|]. cbn [GoogleCalendarClient.collect].
    rewrite H1. cbn [res_bind]. rewrite H2. cbn [res_bind].
    by rewrite insert_insert_eq.
Qed.

End Keys.

Lemma identity_key_is_name_slash_start_witness :
  (exists n raw,
      name Sample.ev_meeting = Some n
      /\ utc_text raw (start Sample.ev_meeting)
      /\ "Meeting/2024-06-20T07:00:00+00:00" = n +:+ "/" +:+ start Sample.ev_meeting)
  /\ ("None/2024-06-21T07:00:00+00:00"
      = py_str (name Sample.ev_untitled) +:+ "/" +:+ start Sample.ev_untitled
      /\ forall n, name Sample.ev_untitled = Some n ->
                   "None/2024-06-21T07:00:00+00:00"
                   = n +:+ "/" +:+ start Sample.ev_untitled)
  /\ ("Meeting/2024-06-20T07:00:00+00:00" = "Meeting/2024-06-20T07:00:00+00:00"
      /\ YandexCalendarClient.collect
           [Sample.vevent_meeting; Sample.vevent_meeting_longer] ∅
         = Ok {[ "Meeting/2024-06-20T07:00:00+00:00" := Sample.ev_meeting_longer ]}).
Proof.
  destruct (@identity_key_is_name_slash_start
              Ref.environment convert_iso_timezone_spec Sample.manager)
    as (P1 & P2 & P3 & _).
  split; [|split].
  - apply (P1 (Ref.mkY true [[Sample.vevent_meeting]])
              {[ "Meeting/2024-06-20T07:00:00+00:00" := Sample.ev_meeting ]}
              "Meeting/2024-06-20T07:00:00+00:00" Sample.ev_meeting); vm_refl.
  - apply (P2 (Ref.mkG true [Sample.gitem_untitled])
              {[ "None/2024-06-21T07:00:00+00:00" := Sample.ev_untitled ]}
              "None/2024-06-21T07:00:00+00:00" Sample.ev_untitled); vm_refl.
  - apply (P3 Sample.vevent_meeting Sample.vevent_meeting_longer
              "Meeting/2024-06-20T07:00:00+00:00" Sample.ev_meeting
              "Meeting/2024-06-20T07:00:00+00:00" Sample.ev_meeting_longer);
      vm_refl.
Defined.

(** ** Failing fetches *)

Section Failures.
Context {env : Environment}.
Variable convert_iso_timezone : option string -> Z -> res string.
Variable self : CalendarSyncManager.t.

(** C7. A fetch that fails ends the run with that failure and without any
    append. If the Yandex fetch raises, [sync] raises the same exception
    after the single remote call of that fetch: the Google fetch is not
    issued, nothing is written and both provider states are as before. If
    the Yandex fetch succeeds and the Google fetch raises, [sync] raises
    that exception after the two fetch calls, again with nothing written
    and both provider states as before. *)
Theorem fetch_failure_aborts_run (w : World) :
  let search :=
    CalSearch (CalendarSyncManager.time_limit self)
              (CalendarSyncManager.time_limit_future self) in
  let listing :=
    EventsList (google_calname (CalendarSyncManager.config self))
      (DateTime.isoformat_seconds (CalendarSyncManager.time_limit self))
      (DateTime.isoformat_seconds (CalendarSyncManager.time_limit_future self)) in
  (forall e,
      yandex_view self (yandex w) = Raise e ->
      exists w',
        CalendarSyncManager.sync convert_iso_timezone self w = (Raise e, w')
        /\ trace w' = trace w ++ [search]
        /\ yandex w' = yandex w /\ google w' = google w)
  /\ (forall yandex_events e,
      yandex_view self (yandex w) = Ok yandex_events ->
      google_view convert_iso_timezone self (google w) = Raise e ->
      exists w',
        CalendarSyncManager.sync convert_iso_timezone self w = (Raise e, w')
        /\ trace w' = trace w ++ [search; listing]
        /\ yandex w' = yandex w /\ google w' = google w).
Proof.
  cbv zeta. split.
  - intros e Hy. rewrite sync_run. cbv zeta. rewrite Hy.
    eexists. split; [reflexivity|]. by repeat split.
  - intros y e Hy Hg. rewrite sync_run. cbv zeta. rewrite Hy, Hg.
    eexists. split; [reflexivity|]. by repeat split.
Qed.

End Failures.

(** Yandex unreachable, then Google unreachable, with an event waiting on
    the other side each time. *)
Lemma fetch_failure_aborts_run_witness :
  let yandex_down :=
    mkWorld (env := Ref.environment)
            (Ref.mkY false []) (Ref.mkG true [Sample.gitem_untitled]) 0 [] in
  let google_down :=
    mkWorld (env := Ref.environment)
            (Ref.mkY true [[Sample.vevent_meeting]]) (Ref.mkG false []) 0 [] in
  (exists w',
      CalendarSyncManager.sync convert_iso_timezone_spec Sample.manager yandex_down
      = (Raise (RemoteError "caldav.yandex.ru: unreachable"), w')
      /\ trace w'
         = trace yandex_down
           ++ [CalSearch (CalendarSyncManager.time_limit Sample.manager)
                         (CalendarSyncManager.time_limit_future Sample.manager)]
      /\ yandex w' = yandex yandex_down /\ google w' = google yandex_down)
  /\ (exists w',
      CalendarSyncManager.sync convert_iso_timezone_spec Sample.manager google_down
      = (Raise (RemoteError "googleapis.com: unreachable"), w')
      /\ trace w'
         = trace google_down
           ++ [CalSearch (CalendarSyncManager.time_limit Sample.manager)
                         (CalendarSyncManager.time_limit_future Sample.manager);
               EventsList "primary" "2024-06-08T00:00:00+00:00"
                          "2024-07-15T23:59:59+00:00"]
      /\ yandex w' = yandex google_down /\ google w' = google google_down).
Proof.
  intros yandex_down google_down. split.
  - apply (fetch_failure_aborts_run (env := Ref.environment)
             convert_iso_timezone_spec Sample.manager yandex_down).
    reflexivity.
  - apply (proj2 (fetch_failure_aborts_run (env := Ref.environment)
                    convert_iso_timezone_spec Sample.manager google_down)
             {[ "Meeting/2024-06-20T07:00:00+00:00" := Sample.ev_meeting ]});
      vm_refl.
Defined.

(** ** Events without a title *)

Section Untitled.
Context {env : Environment}.
Variable convert_iso_timezone : option string -> Z -> res string.
Variable self : CalendarSyncManager.t.

Lemma reconcile_single_google (k : string) (e : EventData) (w : World) :
  CalendarSyncManager.all_events ∅ {[ k := e ]} !! k = Some e
  /\ CalendarSyncManager.yandex_missing_keys ∅ {[ k := e ]} = {[ k ]}
  /\ exists t,
       trace (CalendarSyncManager.reconcile self ∅ {[ k := e ]} w).2
       = trace w
         ++ [Print (LineTotals 1 0 1);
             Print (LineMissingYandex {[ k ]});
             CallYandexAdd e]
         ++ t
       /\ google_add_calls t = [] /\ yandex_add_calls t = [].
Proof.
  assert (Hy : CalendarSyncManager.yandex_missing_keys ∅ {[ k := e ]} = {[ k ]}).
  { rewrite yandex_missing_keys_alt, dom_singleton_L, dom_empty_L. set_solver. }
  assert (Hg : CalendarSyncManager.google_missing_keys ∅ {[ k := e ]} = ∅).
  { rewrite google_missing_keys_alt, dom_empty_L. set_solver. }
  assert (Hall : CalendarSyncManager.all_events ∅ {[ k := e ]}
                 = ({[ k := e ]} : gmap string EventData)).
  { apply map_eq. intros k'. unfold CalendarSyncManager.all_events.
    rewrite lookup_dict_merge, lookup_empty. by destruct (_ !! k'). }
  split; [by rewrite Hall, lookup_singleton_eq|]. split; [exact Hy|].
  unfold CalendarSyncManager.reconcile. cbv zeta.
  rewrite Hg, Hy, Hall, set_iter_empty, set_iter_singleton.
  rewrite map_size_singleton, map_size_empty.
  unfold for_each. cbv beta. unfold dict_getitem. rewrite lookup_singleton_eq.
  unfold print, bind, emit, ret, lift.
  cbn [yandex google rng trace].
  match goal with
  | |- context [YandexCalendarClient.add_event ?e0 ?w0] =>
      destruct (yandex_add_event_trace e0 w0) as (t & Ht & Hg0 & Hy0);
      destruct (YandexCalendarClient.add_event e0 w0) as [[err|[]] w']
  end; cbn [snd trace yandex google rng] in Ht |- *.
  - exists t. rewrite Ht, <- !app_assoc. done.
  - exists (t ++ [Print (LineMissingGoogle ∅)]). rewrite Ht, <- !app_assoc.
    split; [done|]. unfold google_add_calls, yandex_add_calls in *.
    rewrite !omap_app, Hg0, Hy0. done.
Qed.

(** C10. The name is not required to be text. Take a world in which the
    Google listing returns one item and that item has no [summary], the
    helper returning its start and end texts, and in which the Yandex
    search returns no component. Then [GoogleCalendarClient.get_events]
    returns the map with one record, whose name is [None], under the key
    ["None/"] followed by the start text; the union of the run holds that
    very record under that key; and [sync] enters
    [YandexCalendarClient.add_event] with it, right after the two fetches
    and the two report lines. *)
Theorem untitled_item_has_null_name (it : GItem) (s s' : string)
    (events : list (list VEvent)) (w : World) :
  let tl := CalendarSyncManager.time_limit self in
  let tlf := CalendarSyncManager.time_limit_future self in
  let calId := google_calname (CalendarSyncManager.config self) in
  let listing :=
    EventsList calId (DateTime.isoformat_seconds tl) (DateTime.isoformat_seconds tlf) in
  g_summary it = None ->
  convert_iso_timezone (GoogleCalendarClient.dateTime_of (g_start it)) DateTime.utc
  = Ok s ->
  convert_iso_timezone (GoogleCalendarClient.dateTime_of (g_end it)) DateTime.utc
  = Ok s' ->
  events_list (google w) calId
    (DateTime.isoformat_seconds tl) (DateTime.isoformat_seconds tlf)
  = Ok (Some [it]) ->
  calendar_search (yandex w) tl tlf = Ok events ->
  concat events = [] ->
  let e := mkEventData None (default "" (g_description it)) s s' in
  let k := "None/" +:+ s in
  GoogleCalendarClient.get_events convert_iso_timezone
    (CalendarSyncManager.config self) tl tlf w
  = (Ok {[ k := e ]}, log w [listing])
  /\ yandex_view self (yandex w) = Ok ∅
  /\ google_view convert_iso_timezone self (google w) = Ok {[ k := e ]}
  /\ CalendarSyncManager.all_events ∅ {[ k := e ]} !! k = Some e
  /\ exists t,
       trace (CalendarSyncManager.sync convert_iso_timezone self w).2
       = trace w
         ++ [CalSearch tl tlf; listing;
             Print (LineTotals 1 0 1);
             Print (LineMissingYandex {[ k ]});
             CallYandexAdd e]
         ++ t
       /\ google_add_calls t = [] /\ yandex_add_calls t = [].
Proof.
  intros tl tlf calId listing Hn Hs He Hlist Hsearch Hnil e k.
  assert (Hcollect : GoogleCalendarClient.collect convert_iso_timezone [it] ∅
                     = Ok {[ k := e ]}).
  { cbn [GoogleCalendarClient.collect]. unfold GoogleCalendarClient.entry.
    rewrite Hn, Hs, He. cbn [res_bind]. reflexivity. }
  assert (Hy : yandex_view self (yandex w) = Ok ∅).
  { unfold yandex_view. fold tl tlf. rewrite Hsearch. cbn [res_bind].
    by rewrite Hnil. }
  assert (Hg : google_view convert_iso_timezone self (google w) = Ok {[ k := e ]}).
  { unfold google_view. fold tl tlf calId. rewrite Hlist. cbn [res_bind default].
    exact Hcollect. }
  destruct (reconcile_single_google k e (log w [CalSearch tl tlf; listing]))
    as (Hall & _ & t & Ht & Hgc & Hyc).
  split; [|split; [exact Hy|split; [exact Hg|split; [exact Hall|]]]].
  - rewrite google_get_events_run. fold calId. rewrite Hlist.
    cbn [res_bind]. change (default [] (Some [it])) with [it].
    by rewrite Hcollect.
  - exists t. split; [|by split].
    rewrite sync_run. cbv zeta. rewrite Hy, Hg. fold tl tlf calId listing.
    rewrite Ht. unfold log. cbn [trace]. by rewrite <- !app_assoc.
Qed.

End Untitled.

(** The Google calendar holds one item without a title; Yandex holds
    nothing. *)
Lemma untitled_item_has_null_name_witness :
  let w := Ref.world [] [Sample.gitem_untitled] in
  let k := "None/" +:+ "2024-06-21T07:00:00+00:00" in
  let listing :=
    EventsList "primary" "2024-06-08T00:00:00+00:00" "2024-07-15T23:59:59+00:00" in
  GoogleCalendarClient.get_events convert_iso_timezone_spec Sample.config
    Scenario.time_limit Scenario.time_limit_future w
  = (Ok {[ k := Sample.ev_untitled ]}, log w [listing])
  /\ yandex_view Sample.manager (yandex w) = Ok ∅
  /\ google_view convert_iso_timezone_spec Sample.manager (google w)
     = Ok {[ k := Sample.ev_untitled ]}
  /\ CalendarSyncManager.all_events ∅ {[ k := Sample.ev_untitled ]} !! k
     = Some Sample.ev_untitled
  /\ exists t,
       trace (CalendarSyncManager.sync convert_iso_timezone_spec Sample.manager w).2
       = trace w
         ++ [CalSearch Scenario.time_limit Scenario.time_limit_future; listing;
             Print (LineTotals 1 0 1);
             Print (LineMissingYandex {[ k ]});
             CallYandexAdd Sample.ev_untitled]
         ++ t
       /\ google_add_calls t = [] /\ yandex_add_calls t = [].
Proof.
  intros w k listing.
  apply (untitled_item_has_null_name (env := Ref.environment)
           convert_iso_timezone_spec Sample.manager Sample.gitem_untitled
           "2024-06-21T07:00:00+00:00" "2024-06-21T08:00:00+00:00" [] w);
    vm_refl.
Defined.

(** ** The window check at write time *)

(** The Google side checks the window before writing: a record whose start
    is before [time_limit] or after [time_limit_future] is reported as
    skipped, with its name and parsed start, nothing is inserted, and the
    call returns normally. *)
Lemma google_append_rechecks_window {env : Environment} (config : Config)
    (ev : EventData) (tl tlf start_dt : DateTime.t) (w : World) :
  DateTime.fromisoformat (start ev) = Ok start_dt ->
  GoogleCalendarClient.out_of_range start_dt tl tlf = Ok true ->
  GoogleCalendarClient.add_event config ev tl tlf w
  = (Ok tt, log w [CallGoogleAdd ev tl tlf; Print (LineSkipped (name ev) start_dt)]).
Proof.
  intros Hs Ho. rewrite google_add_event_run. cbv zeta. by rewrite Hs, Ho.
Qed.

(** C2, at the input where the code departs from it. The record "Night
    shift" starts at 2024-06-07T22:00:00Z, two hours before the window of
    [Sample.manager] opens. Missing on the Google side, it is skipped and
    reported. Missing on the Yandex side, it is written to Yandex without
    any check and without any report; the same happens in a whole run of
    [sync] when Google lists the item and Yandex holds nothing. *)
Lemma yandex_append_ignores_window :
  let k := "Night shift/2024-06-07T22:00:00+00:00" in
  let ev := Sample.ev_night_shift in
  let written :=
    CalAddEvent (mkICalEvent 0 (Some "Night shift") ""
                             Sample.night_shift_start Sample.night_shift_end) in
  let to_google :=
    CalendarSyncManager.reconcile (env := Ref.environment) Sample.manager
      {[ k := ev ]} ∅ (Ref.world [] []) in
  let to_yandex :=
    CalendarSyncManager.reconcile (env := Ref.environment) Sample.manager
      ∅ {[ k := ev ]} (Ref.world [] []) in
  let whole_run :=
    CalendarSyncManager.sync (env := Ref.environment) convert_iso_timezone_spec
      Sample.manager (Ref.world [] [Sample.gitem_overhang]) in
  in_window Sample.manager ev = false
  /\ (to_google.1 = Ok tt
      /\ remote_writes (trace to_google.2) = []
      /\ skip_reports (trace to_google.2)
         = [(Some "Night shift", Sample.night_shift_start)])
  /\ (to_yandex.1 = Ok tt
      /\ remote_writes (trace to_yandex.2) = [written]
      /\ skip_reports (trace to_yandex.2) = [])
  /\ (whole_run.1 = Ok tt
      /\ remote_writes (trace whole_run.2) = [written]
      /\ skip_reports (trace whole_run.2) = []).
Proof. cbv zeta. repeat split; vm_refl. Qed.

(** ** Two runs in a row *)

Section Idempotence.
Context {env : Environment}.
Variable convert_iso_timezone : option string -> Z -> res string.
Variable self : CalendarSyncManager.t.

(** A run whose two fetches see the same keys finds nothing missing, only
    fetches and prints, and leaves the provider states alone. *)
Lemma sync_idle (w w' : World) (y g : gmap string EventData) :
  yandex_view self (yandex w) = Ok y ->
  google_view convert_iso_timezone self (google w) = Ok g ->
  dom y = dom g ->
  CalendarSyncManager.sync convert_iso_timezone self w = (Ok tt, w') ->
  CalendarSyncManager.yandex_missing_keys y g = ∅
  /\ CalendarSyncManager.google_missing_keys y g = ∅
  /\ exists t, trace w' = trace w ++ t /\ remote_writes t = [].
Proof.
  intros Hy Hg Hdom Hrun.
  assert (Hmy : CalendarSyncManager.yandex_missing_keys y g = ∅)
    by (rewrite yandex_missing_keys_alt, Hdom; set_solver).
  assert (Hmg : CalendarSyncManager.google_missing_keys y g = ∅)
    by (rewrite google_missing_keys_alt, Hdom; set_solver).
  split; [exact Hmy|]. split; [exact Hmg|].
  rewrite sync_run in Hrun. cbv zeta in Hrun. rewrite Hy, Hg in Hrun.
  rewrite (reconcile_idle _ _ _ _ Hmy Hmg), log_log in Hrun.
  injection Hrun as <-. eexists. split; reflexivity.
Qed.

End Idempotence.

(** The reference providers keep what is appended to them. *)
Lemma ref_keeps_appends : keeps_appends (env := Ref.environment).
Proof.
  split.
  - intros y y' ics s e found. cbn [calendar_add_event calendar_search Ref.environment].
    unfold Ref.put, Ref.search. destruct (Ref.y_online y) eqn:Hon; [|discriminate].
    intros [= <-] [= <-]. cbn [Ref.y_online Ref.y_resources].
    rewrite filter_app. f_equal. f_equal.
    rewrite filter_cons, filter_nil. cbn [existsb]. rewrite orb_false_r.
    destruct (Ref.overlaps s e (Ref.stored ics)); by case_decide.
  - intros g g' calendarId timeMin timeMax body listed.
    cbn [events_insert events_list Ref.environment].
    unfold Ref.insert, Ref.list_items. destruct (Ref.g_online g) eqn:Hon; [|discriminate].
    intros [= <-] [= <-]. cbn [Ref.g_online Ref.g_items]. simpl (default [] (Some _)).
    rewrite filter_app. f_equal. f_equal. f_equal.
    rewrite filter_cons, filter_nil.
    destruct (Ref.listed timeMin timeMax (Ref.inserted body)); by case_decide.
Qed.

(** C1 as stated fails. Yandex holds "Release", which starts an hour
    before the window opens and ends inside it, so the time-range search
    returns it; Google holds nothing; the providers keep what is appended
    to them. The first run finds "Release" missing in Google and skips it
    at the window check; it writes nothing, so the second run sees exactly
    what the first one saw, and finds the same key missing in Google
    again. *)
Lemma second_run_still_missing :
  let y : gmap string EventData := {[ Scenario.key_release := Sample.ev_release ]} in
  keeps_appends (env := Ref.environment)
  /\ two_runs convert_iso_timezone_spec Sample.manager
              Scenario.overhang Scenario.overhang_after_1 Scenario.overhang_after_2
              y ∅ y ∅
  /\ CalendarSyncManager.google_missing_keys y ∅ = {[ Scenario.key_release ]}
  /\ returns_from_google Sample.manager Sample.ev_release = false
  /\ ~ second_run_idle Scenario.overhang_after_1 Scenario.overhang_after_2 y ∅.
Proof.
  cbv zeta.
  destruct (reconcile_single (env := Ref.environment) Sample.manager
              Scenario.key_release Sample.ev_release Scenario.overhang)
    as (E & _).
  split; [exact ref_keeps_appends|].
  split; [|split; [exact E|split; [vm_refl|]]].
  - split; vm_refl.
  - intros (_ & H & _). rewrite E in H.
    exact (non_empty_singleton_L (C := gset string) _ H).
Qed.


(* ===================================================================== *)
(** * Part 7: further properties of the program *)
(* ===================================================================== *)

(** ** Text of numbers, there and back *)

Lemma digit_of_digit_char (d : Z) :
  0 <= d <= 9 -> digit_of (digit_char d) = Some d.
Proof.
  intros H.
  assert (d = 0 \/ d = 1 \/ d = 2 \/ d = 3 \/ d = 4 \/ d = 5 \/ d = 6 \/ d = 7
          \/ d = 8 \/ d = 9) as Hd by lia.
  repeat (destruct Hd as [->|Hd]; [reflexivity|]). subst d. reflexivity.
Qed.

Lemma string_app_cons (c : ascii) (s t : string) :
  String c s +:+ t = String c (s +:+ t).
Proof. reflexivity. Qed.

Lemma string_app_nil_l (s : string) : "" +:+ s = s.
Proof. reflexivity. Qed.

Lemma string_app_nil_r (s : string) : s +:+ "" = s.
Proof.
  induction s as [|c s IH]; [reflexivity|]. by rewrite string_app_cons, IH.
Qed.

(** Reading one more digit: [w + 1] digits are [w] digits and then one. *)
Lemma parse_digits_snoc (w : nat) :
  forall acc s,
    parse_digits (S w) acc s
    = match parse_digits w acc s with
      | Some (a, String c s') =>
          match digit_of c with
          | Some d => Some (a * 10 + d, s')
          | None => None
          end
      | _ => None
      end.
Proof.
  induction w as [|w IH]; intros acc s.
  - cbn [parse_digits]. destruct s as [|c s]; [reflexivity|].
    by destruct (digit_of c).
  - change (parse_digits (S (S w)) acc s)
      with (match s with
            | String c s' =>
                match digit_of c with
                | Some d => parse_digits (S w) (acc * 10 + d) s'
                | None => None
                end
            | EmptyString => None
            end).
    destruct s as [|c s]; [reflexivity|].
    destruct (digit_of c) as [d|] eqn:Hc; cbn [parse_digits]; rewrite Hc.
    + rewrite <- IH. reflexivity.
    + reflexivity.
Qed.

(** A number printed on [w] digits is read back by [parse_digits w]. *)
Lemma parse_digits_fmt (w : nat) :
  forall n acc rest,
    0 <= n < 10 ^ Z.of_nat w ->
    parse_digits w acc (fmt_0d w n +:+ rest) = Some (acc * 10 ^ Z.of_nat w + n, rest).
Proof.
  induction w as [|w IH]; intros n acc rest Hn.
  - cbn [parse_digits fmt_0d]. rewrite string_app_nil_l.
    change (10 ^ Z.of_nat 0) with 1 in *. f_equal. f_equal. lia.
  - rewrite parse_digits_snoc. cbn [fmt_0d].
    rewrite string_app_assoc, string_app_cons, string_app_nil_l.
    rewrite Nat2Z.inj_succ, Z.pow_succ_r in * by lia.
    assert (Hq : 0 <= n / 10 < 10 ^ Z.of_nat w).
    { split; [apply Z.div_pos; lia|]. apply Z.div_lt_upper_bound; lia. }
    rewrite (IH (n / 10) acc _ Hq).
    rewrite digit_of_digit_char
      by (pose proof (Z.mod_pos_bound n 10 ltac:(lia)); lia).
    f_equal. f_equal. pose proof (Z.div_mod n 10 ltac:(lia)). lia.
Qed.

Lemma length_fmt_0d (w : nat) (n : Z) : String.length (fmt_0d w n) = w.
Proof.
  revert n. induction w as [|w IH]; intros n; [reflexivity|].
  cbn [fmt_0d]. generalize (IH (n / 10)). generalize (fmt_0d w (n / 10)).
  clear IH. intros s. revert w. induction s as [|c s IHs]; intros w Hs.
  - cbn in Hs. subst w. reflexivity.
  - destruct w as [|w]; [discriminate|]. rewrite string_app_cons.
    cbn [String.length] in *. f_equal. apply IHs. by injection Hs.
Qed.
Lemma digit_char_not_sign (d : Z) :
  0 <= d <= 9 ->
  Ascii.eqb (digit_char d) "+" = false /\ Ascii.eqb (digit_char d) "-" = false.
Proof.
  intros H.
  assert (d = 0 \/ d = 1 \/ d = 2 \/ d = 3 \/ d = 4 \/ d = 5 \/ d = 6 \/ d = 7
          \/ d = 8 \/ d = 9) as Hd by lia.
  repeat (destruct Hd as [->|Hd]; [by split|]). subst d. by split.
Qed.

Lemma split_offset_cons (c : ascii) (rest : string) :
  Ascii.eqb c "+" = false -> Ascii.eqb c "-" = false ->
  DateTime.split_offset (String c rest)
  = (String c (DateTime.split_offset rest).1, (DateTime.split_offset rest).2).
Proof.
  intros Hp Hm. cbn [DateTime.split_offset]. rewrite Hp, Hm.
  by destruct (DateTime.split_offset rest).
Qed.

(** Digits are never taken for the sign of an offset. *)
Lemma split_offset_fmt (w : nat) :
  forall n rest,
    DateTime.split_offset (fmt_0d w n +:+ rest)
    = (fmt_0d w n +:+ (DateTime.split_offset rest).1,
       (DateTime.split_offset rest).2).
Proof.
  induction w as [|w IH]; intros n rest.
  - cbn [fmt_0d]. rewrite !string_app_nil_l. by destruct (DateTime.split_offset rest).
  - cbn [fmt_0d]. rewrite !string_app_assoc, !string_app_cons, !string_app_nil_l.
    rewrite IH.
    destruct (digit_char_not_sign (n mod 10)) as [Hp Hm];
      [pose proof (Z.mod_pos_bound n 10 ltac:(lia)); lia|].
    by rewrite (split_offset_cons _ _ Hp Hm).
Qed.

Lemma parse_digits_fmt0 (w : nat) (n : Z) (rest : string) :
  0 <= n < 10 ^ Z.of_nat w ->
  parse_digits w 0 (fmt_0d w n +:+ rest) = Some (n, rest).
Proof. intros H. by rewrite parse_digits_fmt. Qed.

(** The time of day and the fraction, as [isoformat] prints them, are read
    back by [parse_hh_mm_ss_ff]. *)
Lemma parse_hh_mm_ss_ff_format (h m s us : Z) :
  DateTime.valid_time h m s us = true ->
  DateTime.parse_hh_mm_ss_ff
    (fmt_0d 2 h +:+ ":" +:+ fmt_0d 2 m +:+ ":" +:+ fmt_0d 2 s
     +:+ (if us =? 0 then "" else "." +:+ fmt_0d 6 us))
  = Some (h, m, s, us).
Proof.
  unfold DateTime.valid_time. rewrite !andb_true_iff, !Z.leb_le.
  intros [[[[[[[H1 H2] H3] H4] H5] H6] H7] H8].
  unfold DateTime.parse_hh_mm_ss_ff.
  rewrite parse_digits_fmt0 by (change (10 ^ Z.of_nat 2) with 100; lia).
  cbn [mbind option_bind]. rewrite ?string_app_cons, ?string_app_nil_l.
  cbn [expect Ascii.eqb Bool.eqb]. cbn [mbind option_bind].
  rewrite parse_digits_fmt0 by (change (10 ^ Z.of_nat 2) with 100; lia).
  cbn [mbind option_bind]. rewrite ?string_app_cons, ?string_app_nil_l.
  cbn [expect Ascii.eqb Bool.eqb]. cbn [mbind option_bind].
  rewrite parse_digits_fmt0 by (change (10 ^ Z.of_nat 2) with 100; lia).
  cbn [mbind option_bind].
  destruct (Z.eqb_spec us 0) as [->|Hus]; [reflexivity|].
  rewrite ?string_app_cons, ?string_app_nil_l.
  cbn [expect Ascii.eqb Bool.eqb]. cbn [mbind option_bind].
  rewrite length_fmt_0d.
  rewrite <- (string_app_nil_r (fmt_0d 6 us)) at 1.
  rewrite parse_digits_fmt0 by (change (10 ^ Z.of_nat 6) with 1000000; lia).
  reflexivity.
Qed.
Lemma split_offset_time_utc (h m s us : Z) :
  let tm := fmt_0d 2 h +:+ ":" +:+ fmt_0d 2 m +:+ ":" +:+ fmt_0d 2 s
            +:+ (if us =? 0 then "" else "." +:+ fmt_0d 6 us) in
  DateTime.split_offset (tm +:+ "+00:00") = (tm, Some (false, "00:00")).
Proof.
  cbv zeta. rewrite !string_app_assoc.
  rewrite split_offset_fmt, string_app_cons, string_app_nil_l.
  rewrite (split_offset_cons ":") by reflexivity. cbn [fst snd].
  rewrite split_offset_fmt, string_app_cons, string_app_nil_l.
  rewrite (split_offset_cons ":") by reflexivity. cbn [fst snd].
  rewrite split_offset_fmt.
  destruct (us =? 0).
  - rewrite string_app_nil_l, !string_app_nil_r. reflexivity.
  - rewrite !string_app_assoc, string_app_cons, string_app_nil_l.
    rewrite (split_offset_cons ".") by reflexivity. cbn [fst snd].
    rewrite split_offset_fmt.
    change (DateTime.split_offset "+00:00") with ("", Some (false, "00:00")).
    cbn [fst snd]. rewrite !string_app_nil_r. reflexivity.
Qed.

(** [fromisoformat] reads back what [isoformat] prints for a UTC
    datetime. *)
Lemma fromisoformat_isoformat_utc (d : DateTime.t) :
  DateTime.valid d = true -> DateTime.tzinfo d = Some DateTime.utc ->
  DateTime.fromisoformat (DateTime.isoformat d) = Ok d.
Proof.
  destruct d as [[y mo dd] h m s us tz]. cbn [DateTime.tzinfo]. intros Hv ->.
  pose proof Hv as Hv'. unfold DateTime.valid in Hv'.
  cbn [DateTime.date DateTime.hour DateTime.minute DateTime.second
       DateTime.microsecond DateTime.tzinfo] in Hv'.
  apply andb_true_iff in Hv' as [Hv' _]. apply andb_true_iff in Hv' as [Hd Ht].
  unfold Date.valid in Hd. cbn [Date.year Date.month Date.day] in Hd.
  rewrite !andb_true_iff, !Z.leb_le in Hd.
  destruct Hd as [[[[[Hy1 Hy2] Hm1] Hm2] Hd1] Hd2].
  unfold Date.MINYEAR, Date.MAXYEAR in *.
  assert (Hdd : dd <= 31).
  { pose proof (days_in_month_le y mo (conj Hm1 Hm2)). lia. }
  unfold DateTime.fromisoformat.
  assert (Hp : DateTime.parse_isoformat
                 (DateTime.isoformat
                    (DateTime.mk (Date.mk y mo dd) h m s us (Some DateTime.utc)))
               = Some (DateTime.mk (Date.mk y mo dd) h m s us (Some DateTime.utc))).
  { unfold DateTime.isoformat, DateTime.format_date, DateTime.format_hms.
    cbn [DateTime.date DateTime.hour DateTime.minute DateTime.second
         DateTime.microsecond DateTime.tzinfo Date.year Date.month Date.day].
    change (DateTime.format_offset (Some DateTime.utc)) with "+00:00".
    unfold DateTime.parse_isoformat. rewrite !string_app_assoc.
    rewrite parse_digits_fmt0 by (change (10 ^ Z.of_nat 4) with 10000; lia).
    cbn [mbind option_bind]. rewrite string_app_cons, string_app_nil_l.
    cbn [expect Ascii.eqb Bool.eqb]. cbn [mbind option_bind].
    rewrite parse_digits_fmt0 by (change (10 ^ Z.of_nat 2) with 100; lia).
    cbn [mbind option_bind]. rewrite string_app_cons, string_app_nil_l.
    cbn [expect Ascii.eqb Bool.eqb]. cbn [mbind option_bind].
    rewrite parse_digits_fmt0 by (change (10 ^ Z.of_nat 2) with 100; lia).
    cbn [mbind option_bind]. rewrite string_app_cons, string_app_nil_l.
    pose proof (split_offset_time_utc h m s us) as Hsplit. cbv zeta in Hsplit.
    rewrite !string_app_assoc in Hsplit. rewrite Hsplit.
    pose proof (parse_hh_mm_ss_ff_format h m s us Ht) as Htime.
    rewrite ?string_app_assoc in Htime. rewrite Htime.
    cbn [mbind option_bind]. reflexivity. }
  rewrite Hp, Hv. reflexivity.
Qed.
(** ** Validity is kept by the arithmetic *)

Lemma time_of_day_valid (total : Z) :
  let rem := total mod DateTime.US_PER_DAY in
  let secs := rem / DateTime.US_PER_SECOND in
  DateTime.valid_time (secs / 3600) (secs mod 3600 / 60) (secs mod 3600 mod 60)
                      (rem mod DateTime.US_PER_SECOND) = true.
Proof.
  cbv zeta.
  pose proof (Z.mod_pos_bound total DateTime.US_PER_DAY ltac:(reflexivity)) as Hrem.
  set (rem := total mod DateTime.US_PER_DAY) in *. clearbody rem.
  assert (Hsecs : 0 <= rem / DateTime.US_PER_SECOND < 86400).
  { split; [apply Z.div_pos; [lia|reflexivity]|].
    apply Z.div_lt_upper_bound; [reflexivity|].
    unfold DateTime.US_PER_DAY in Hrem. lia. }
  pose proof (Z.mod_pos_bound rem DateTime.US_PER_SECOND ltac:(reflexivity)) as Hus.
  set (secs := rem / DateTime.US_PER_SECOND) in *. clearbody secs.
  set (us := rem mod DateTime.US_PER_SECOND) in *. clearbody us.
  unfold DateTime.US_PER_SECOND in Hus.
  assert (Hh : 0 <= secs / 3600 <= 23).
  { split; [apply Z.div_pos; lia|].
    assert (secs / 3600 < 24) by (apply Z.div_lt_upper_bound; lia). lia. }
  pose proof (Z.mod_pos_bound secs 3600 ltac:(lia)) as Hr.
  set (r := secs mod 3600) in *. clearbody r.
  assert (Hm : 0 <= r / 60 <= 59).
  { split; [apply Z.div_pos; lia|].
    assert (r / 60 < 60) by (apply Z.div_lt_upper_bound; lia). lia. }
  pose proof (Z.mod_pos_bound r 60 ltac:(lia)) as Hs.
  unfold DateTime.valid_time. rewrite !andb_true_iff, !Z.leb_le. lia.
Qed.

Lemma add_us_valid (d d' : DateTime.t) (delta : Z) :
  DateTime.add_us d delta = Ok d' ->
  match DateTime.tzinfo d with
  | Some off => DateTime.valid_offset off
  | None => true
  end = true ->
  DateTime.valid d' = true.
Proof.
  unfold DateTime.add_us. cbv zeta.
  destruct (0 <? _) eqn:H1; [|discriminate].
  destruct (_ <=? Date.MAXORDINAL) eqn:H2; [|discriminate].
  cbn [andb]. intros [= <-] Htz.
  apply Z.ltb_lt in H1. apply Z.leb_le in H2.
  unfold DateTime.valid.
  cbn [DateTime.date DateTime.hour DateTime.minute DateTime.second
       DateTime.microsecond DateTime.tzinfo].
  rewrite valid_fromordinal by lia.
  rewrite (time_of_day_valid (DateTime.wall_us d + delta)). by rewrite Htz.
Qed.

Lemma astimezone_utc_valid (d d' : DateTime.t) (off : Z) :
  DateTime.astimezone d off DateTime.utc = Ok d' -> DateTime.valid d' = true.
Proof.
  unfold DateTime.astimezone.
  destruct (DateTime.add_us d (- off)) as [|u]; [discriminate|]. cbn [res_bind].
  intros H. by apply add_us_valid in H.
Qed.

(** What [get_events] stores for a datetime is a valid UTC datetime; for a
    naive input this rests on the input being a datetime object. *)
Lemma ensure_utc_valid (raw d : DateTime.t) :
  YandexCalendarClient.ensure_utc (DtDateTime raw) = Ok d ->
  DateTime.valid raw = true ->
  DateTime.valid d = true /\ DateTime.tzinfo d = Some DateTime.utc.
Proof.
  intros H Hraw. split.
  - unfold YandexCalendarClient.ensure_utc in H.
    destruct (DateTime.tzinfo raw) as [off|] eqn:Htz.
    + by apply astimezone_utc_valid in H.
    + injection H as <-. unfold DateTime.valid in *.
      cbn [DateTime.replace_tzinfo DateTime.date DateTime.hour DateTime.minute
           DateTime.second DateTime.microsecond DateTime.tzinfo].
      rewrite Htz in Hraw. rewrite andb_true_r in Hraw. rewrite Hraw. reflexivity.
  - apply ensure_utc_spec in H as (raw' & _ & Hu & _). exact Hu.
Qed.
(** ** Calendar order is ordinal order *)

Lemma days_before_year_succ (y : Z) :
  Date.days_before_year (y + 1)
  = Date.days_before_year y + (if Date.is_leap y then 366 else 365).
Proof.
  unfold Date.days_before_year, Date.is_leap. cbv zeta.
  replace (y + 1 - 1) with y by lia.
  destruct (Z.eqb_spec (y mod 4) 0) as [H4|H4];
    destruct (Z.eqb_spec (y mod 100) 0) as [H100|H100];
    destruct (Z.eqb_spec (y mod 400) 0) as [H400|H400];
    cbn [andb orb negb]; Z.div_mod_to_equations; lia.
Qed.

Lemma days_before_year_mono (y y' : Z) :
  y <= y' -> Date.days_before_year y <= Date.days_before_year y'.
Proof.
  intros H. unfold Date.days_before_year. cbv zeta.
  Z.div_mod_to_equations. lia.
Qed.

Lemma day_of_year_bounds (leap : bool) (m d : Z) :
  1 <= m <= 12 ->
  1 <= d <= (if (m =? 2) && leap then 29 else Date.DAYS_IN_MONTH m) ->
  1 <= Date.DAYS_BEFORE_MONTH m + (if (2 <? m) && leap then 1 else 0) + d
    <= (if leap then 366 else 365).
Proof.
  intros Hm. apply month_cases in Hm.
  repeat (destruct Hm as [Hm|Hm]; [subst m; destruct leap; cbn; lia|]).
  subst m; destruct leap; cbn; lia.
Qed.

Lemma month_start_mono (leap : bool) (m1 m2 d : Z) :
  1 <= m1 -> m1 < m2 -> m2 <= 12 ->
  d <= (if (m1 =? 2) && leap then 29 else Date.DAYS_IN_MONTH m1) ->
  Date.DAYS_BEFORE_MONTH m1 + (if (2 <? m1) && leap then 1 else 0) + d
  <= Date.DAYS_BEFORE_MONTH m2 + (if (2 <? m2) && leap then 1 else 0).
Proof.
  intros H1 H12 H2.
  assert (Hc1 : 1 <= m1 <= 12) by lia. assert (Hc2 : 1 <= m2 <= 12) by lia.
  apply month_cases in Hc1. apply month_cases in Hc2.
  repeat (destruct Hc1 as [Hc1|Hc1];
          [subst m1;
           repeat (destruct Hc2 as [Hc2|Hc2];
                   [subst m2; try lia; destruct leap; cbn; lia|]);
           subst m2; try lia; destruct leap; cbn; lia|]).
  subst m1. lia.
Qed.

(** Among dates that the [date] constructor accepts, an earlier date
    (by year, then month, then day) has a smaller ordinal. *)
Lemma toordinal_lt (a b : Date.t) :
  Date.valid a = true -> Date.valid b = true ->
  Date.year a < Date.year b
  \/ (Date.year a = Date.year b
      /\ (Date.month a < Date.month b
          \/ (Date.month a = Date.month b /\ Date.day a < Date.day b))) ->
  Date.toordinal a < Date.toordinal b.
Proof.
  destruct a as [y1 m1 d1], b as [y2 m2 d2].
  unfold Date.valid, Date.toordinal, Date.ymd2ord, Date.days_before_month,
    Date.days_in_month.
  cbn [Date.year Date.month Date.day].
  rewrite !andb_true_iff, !Z.leb_le.
  intros [[[[[_ _] Ha1] Ha2] Ha3] Ha4] [[[[[_ _] Hb1] Hb2] Hb3] Hb4] Hlt.
  pose proof (day_of_year_bounds (Date.is_leap y1) m1 d1 (conj Ha1 Ha2) (conj Ha3 Ha4))
    as Hdoy1.
  pose proof (day_of_year_bounds (Date.is_leap y2) m2 d2 (conj Hb1 Hb2) (conj Hb3 Hb4))
    as Hdoy2.
  destruct Hlt as [Hy|[-> Hm]].
  - pose proof (days_before_year_succ y1) as Hs.
    pose proof (days_before_year_mono (y1 + 1) y2 ltac:(lia)) as Hmono.
    destruct (Date.is_leap y1); lia.
  - destruct Hm as [Hm|[-> Hd]]; [|lia].
    pose proof (month_start_mono (Date.is_leap y2) m1 m2 d1 Ha1 Hm Hb2 Ha4). lia.
Qed.
(** ** Comparing datetimes is comparing instants *)

Lemma wall_us_split (d : DateTime.t) :
  DateTime.wall_us d
  = Date.toordinal (DateTime.date d) * 86400000000
    + (((DateTime.hour d * 60 + DateTime.minute d) * 60 + DateTime.second d) * 1000000
       + DateTime.microsecond d).
Proof. unfold DateTime.wall_us, DateTime.US_PER_SECOND. lia. Qed.

Lemma time_of_day_bounds (h m s us : Z) :
  DateTime.valid_time h m s us = true ->
  0 <= ((h * 60 + m) * 60 + s) * 1000000 + us < 86400000000.
Proof.
  unfold DateTime.valid_time. rewrite !andb_true_iff, !Z.leb_le. lia.
Qed.

(** The field-by-field comparison of two valid datetimes is the comparison
    of their wall-clock readings. *)
Lemma cmp_fields_wall (a b : DateTime.t) :
  DateTime.valid a = true -> DateTime.valid b = true ->
  DateTime.cmp_fields (DateTime.fields a) (DateTime.fields b)
  = (DateTime.wall_us a ?= DateTime.wall_us b).
Proof.
  intros Ha Hb. rewrite !wall_us_split.
  unfold DateTime.valid in Ha, Hb.
  apply andb_true_iff in Ha as [Ha _]. apply andb_true_iff in Ha as [Hda Hta].
  apply andb_true_iff in Hb as [Hb _]. apply andb_true_iff in Hb as [Hdb Htb].
  unfold DateTime.valid_time in Hta, Htb.
  rewrite !andb_true_iff, !Z.leb_le in Hta, Htb.
  pose proof (toordinal_lt _ _ Hda Hdb) as Hab.
  pose proof (toordinal_lt _ _ Hdb Hda) as Hba.
  destruct a as [[y1 m1 d1] h1 mi1 s1 us1 tz1], b as [[y2 m2 d2] h2 mi2 s2 us2 tz2].
  unfold DateTime.fields.
  cbn [DateTime.date DateTime.hour DateTime.minute DateTime.second
       DateTime.microsecond Date.year Date.month Date.day] in *.
  cbn [DateTime.cmp_fields].
  set (o1 := Date.toordinal (Date.mk y1 m1 d1)) in *.
  set (o2 := Date.toordinal (Date.mk y2 m2 d2)) in *.
  assert (Hlt : y1 < y2 \/ y1 = y2 /\ (m1 < m2 \/ m1 = m2 /\ d1 < d2) ->
                Lt = (o1 * 86400000000 + (((h1 * 60 + mi1) * 60 + s1) * 1000000 + us1)
                      ?= o2 * 86400000000
                         + (((h2 * 60 + mi2) * 60 + s2) * 1000000 + us2))).
  { intros H. apply Hab in H. symmetry. apply Z.compare_lt_iff. lia. }
  assert (Hgt : y2 < y1 \/ y2 = y1 /\ (m2 < m1 \/ m2 = m1 /\ d2 < d1) ->
                Gt = (o1 * 86400000000 + (((h1 * 60 + mi1) * 60 + s1) * 1000000 + us1)
                      ?= o2 * 86400000000
                         + (((h2 * 60 + mi2) * 60 + s2) * 1000000 + us2))).
  { intros H. apply Hba in H. symmetry. apply Z.compare_gt_iff. lia. }
  destruct (Z.compare_spec y1 y2) as [Ey|Hy|Hy]; [|apply Hlt; lia|apply Hgt; lia].
  destruct (Z.compare_spec m1 m2) as [Em|Hm|Hm]; [|apply Hlt; lia|apply Hgt; lia].
  destruct (Z.compare_spec d1 d2) as [Ed|Hd|Hd]; [|apply Hlt; lia|apply Hgt; lia].
  assert (o1 = o2) as -> by (unfold o1, o2; congruence).
  clear Hlt Hgt Hab Hba.
  destruct (Z.compare_spec h1 h2) as [->|Hh|Hh];
    [|symmetry; apply Z.compare_lt_iff; lia|symmetry; apply Z.compare_gt_iff; lia].
  destruct (Z.compare_spec mi1 mi2) as [->|Hmi|Hmi];
    [|symmetry; apply Z.compare_lt_iff; lia|symmetry; apply Z.compare_gt_iff; lia].
  destruct (Z.compare_spec s1 s2) as [->|Hs|Hs];
    [|symmetry; apply Z.compare_lt_iff; lia|symmetry; apply Z.compare_gt_iff; lia].
  destruct (Z.compare_spec us1 us2) as [->|Hus|Hus];
    [|symmetry; apply Z.compare_lt_iff; lia|symmetry; apply Z.compare_gt_iff; lia].
  symmetry. apply Z.compare_eq_iff. reflexivity.
Qed.
Lemma fromisoformat_valid (s : string) (d : DateTime.t) :
  DateTime.fromisoformat s = Ok d -> DateTime.valid d = true.
Proof.
  unfold DateTime.fromisoformat. destruct (DateTime.parse_isoformat s) as [d'|];
    [|discriminate].
  destruct (DateTime.valid d') eqn:Hv; [|discriminate]. by intros [= <-].
Qed.

Lemma compare_shift (x y c : Z) : (x - c ?= y - c) = (x ?= y).
Proof.
  destruct (Z.compare_spec x y) as [->|H|H].
  - apply Z.compare_refl.
  - apply Z.compare_lt_iff. lia.
  - apply Z.compare_gt_iff. lia.
Qed.

(** Two valid aware datetimes compare as the instants they denote. *)
Lemma cmp_aware (a b : DateTime.t) :
  DateTime.valid a = true -> DateTime.valid b = true ->
  aware a = true -> aware b = true ->
  DateTime.cmp a b = Ok (instant a ?= instant b).
Proof.
  unfold aware, instant, DateTime.cmp. intros Ha Hb Hta Htb.
  destruct (DateTime.tzinfo a) as [oa|]; [|discriminate].
  destruct (DateTime.tzinfo b) as [ob|]; [|discriminate].
  cbn [default]. destruct (Z.eqb_spec oa ob) as [->|Hne]; [|reflexivity].
  rewrite (cmp_fields_wall a b Ha Hb). unfold DateTime.instant_us.
  by rewrite compare_shift.
Qed.

Lemma lt_aware (a b : DateTime.t) :
  DateTime.valid a = true -> DateTime.valid b = true ->
  aware a = true -> aware b = true ->
  DateTime.lt a b = Ok (instant a <? instant b).
Proof.
  intros Ha Hb Hta Htb. unfold DateTime.lt. rewrite cmp_aware by assumption.
  cbn [res_bind]. unfold Z.ltb. by destruct (instant a ?= instant b).
Qed.

Lemma gt_aware (a b : DateTime.t) :
  DateTime.valid a = true -> DateTime.valid b = true ->
  aware a = true -> aware b = true ->
  DateTime.gt a b = Ok (instant b <? instant a).
Proof.
  intros Ha Hb Hta Htb. unfold DateTime.gt. rewrite cmp_aware by assumption.
  cbn [res_bind]. unfold Z.ltb. rewrite (Z.compare_antisym (instant a) (instant b)).
  by destruct (instant a ?= instant b).
Qed.

(** The window check of [GoogleCalendarClient.add_event] on valid aware
    datetimes: out of range exactly when the instant is outside the closed
    interval between the two limits. *)
Lemma out_of_range_aware (d tl tlf : DateTime.t) :
  DateTime.valid d = true -> DateTime.valid tl = true -> DateTime.valid tlf = true ->
  aware d = true -> aware tl = true -> aware tlf = true ->
  GoogleCalendarClient.out_of_range d tl tlf
  = Ok (negb ((instant tl <=? instant d) && (instant d <=? instant tlf))).
Proof.
  intros Hd Htl Htlf Ad Atl Atlf. unfold GoogleCalendarClient.out_of_range.
  rewrite lt_aware by assumption. cbn [res_bind].
  destruct (Z.ltb_spec (instant d) (instant tl)) as [H1|H1].
  - destruct (Z.leb_spec (instant tl) (instant d)); [lia|reflexivity].
  - rewrite gt_aware by assumption.
    destruct (Z.leb_spec (instant tl) (instant d)); [|lia].
    destruct (Z.ltb_spec (instant tlf) (instant d)),
             (Z.leb_spec (instant d) (instant tlf)); (reflexivity || lia).
Qed.

(** The limits computed by [__init__] are valid UTC datetimes. *)
Lemma init_limits_valid (now : DateTime.t) (config : Config)
    (self : CalendarSyncManager.t) :
  CalendarSyncManager.__init__ now config = Ok self ->
  DateTime.valid (CalendarSyncManager.time_limit self) = true
  /\ DateTime.tzinfo (CalendarSyncManager.time_limit self) = Some DateTime.utc
  /\ DateTime.valid (CalendarSyncManager.time_limit_future self) = true
  /\ DateTime.tzinfo (CalendarSyncManager.time_limit_future self) = Some DateTime.utc.
Proof.
  unfold CalendarSyncManager.__init__.
  destruct (Date.timedelta_days (past_days config)) as [|p] eqn:Hp; [discriminate|].
  cbn [res_bind]. unfold Date.sub_days, Date.add_days.
  destruct (_ && _) eqn:H1; [|discriminate]. cbn [res_bind].
  destruct (Date.timedelta_days (future_days config)) as [|f] eqn:Hf; [discriminate|].
  cbn [res_bind].
  destruct (_ && _) eqn:H2 in |- *; [|discriminate]. cbn [res_bind].
  intros [= <-]. cbn [CalendarSyncManager.time_limit CalendarSyncManager.time_limit_future].
  apply andb_true_iff in H1 as [H1a H1b]. apply andb_true_iff in H2 as [H2a H2b].
  apply Z.ltb_lt in H1a, H2a. apply Z.leb_le in H1b, H2b.
  unfold DateTime.valid, DateTime.combine, DateTime.time_min, DateTime.time_max,
    DateTime.replace_tzinfo.
  cbn [DateTime.date DateTime.hour DateTime.minute DateTime.second
       DateTime.microsecond DateTime.tzinfo].
  rewrite !valid_fromordinal by lia. by repeat split.
Qed.
(** ** The window check of [GoogleCalendarClient.add_event] *)

Lemma utc_equivalent_instant (raw d : DateTime.t) :
  utc_equivalent raw d -> instant d = instant raw.
Proof.
  unfold utc_equivalent, instant. intros [Hd Hraw]. rewrite Hd. cbn [default].
  destruct (DateTime.tzinfo raw) as [off|]; [exact Hraw|].
  rewrite Hraw. cbn [default]. unfold DateTime.instant_us.
  by rewrite wall_us_replace_tzinfo.
Qed.

Section Guard.
Context {env : Environment}.

(** One call of [GoogleCalendarClient.add_event] with valid aware limits
    and an aware start: the skip branch is taken exactly when the start
    instant is outside the closed interval between the limits. *)
Lemma google_add_event_aware (config : Config) (ev : EventData)
    (tl tlf d : DateTime.t) (w : World) :
  DateTime.valid tl = true -> aware tl = true ->
  DateTime.valid tlf = true -> aware tlf = true ->
  DateTime.fromisoformat (start ev) = Ok d -> aware d = true ->
  let call := CallGoogleAdd ev tl tlf in
  let body := mkGBody (name ev) (description ev) (start ev) "UTC" (end_ ev) "UTC" in
  let write := EventsInsert (google_calname config) body in
  GoogleCalendarClient.add_event config ev tl tlf w
  = if (instant tl <=? instant d) && (instant d <=? instant tlf)
    then match events_insert (google w) (google_calname config) body with
         | Raise e => (Raise e, log w [call; write])
         | Ok g' => (Ok tt, mkWorld (yandex w) g' (rng w) (trace w ++ [call; write]))
         end
    else (Ok tt, log w [call; Print (LineSkipped (name ev) d)]).
Proof.
  intros Vtl Atl Vtlf Atlf Hd Ad. cbv zeta.
  rewrite google_add_event_run. cbv zeta. rewrite Hd.
  rewrite out_of_range_aware
    by (try assumption; exact (fromisoformat_valid _ _ Hd)).
  by destruct (_ && _).
Qed.

Lemma init_limits_aware (now : DateTime.t) (config : Config)
    (self : CalendarSyncManager.t) :
  CalendarSyncManager.__init__ now config = Ok self ->
  DateTime.valid (CalendarSyncManager.time_limit self) = true
  /\ aware (CalendarSyncManager.time_limit self) = true
  /\ DateTime.valid (CalendarSyncManager.time_limit_future self) = true
  /\ aware (CalendarSyncManager.time_limit_future self) = true.
Proof.
  intros H. destruct (init_limits_valid _ _ _ H) as (V1 & T1 & V2 & T2).
  unfold aware. rewrite T1, T2. done.
Qed.

(** X1. For a manager whose limits [__init__] computed and a record whose
    start text parses to an aware datetime,
    [GoogleCalendarClient.add_event] inserts exactly when the start
    instant lies in the closed interval from [time_limit] to
    [time_limit_future] (a start equal to either limit is inserted);
    otherwise it prints the skip line, returns normally and sends
    nothing. *)
Theorem google_add_event_closed_window (now : DateTime.t) (cfg : Config)
    (self : CalendarSyncManager.t) (ev : EventData) (d : DateTime.t) (w : World) :
  CalendarSyncManager.__init__ now cfg = Ok self ->
  DateTime.fromisoformat (start ev) = Ok d ->
  aware d = true ->
  let tl := CalendarSyncManager.time_limit self in
  let tlf := CalendarSyncManager.time_limit_future self in
  let calId := google_calname (CalendarSyncManager.config self) in
  let call := CallGoogleAdd ev tl tlf in
  let body := mkGBody (name ev) (description ev) (start ev) "UTC" (end_ ev) "UTC" in
  let write := EventsInsert calId body in
  GoogleCalendarClient.add_event (CalendarSyncManager.config self) ev tl tlf w
  = if within self d
    then match events_insert (google w) calId body with
         | Raise e => (Raise e, log w [call; write])
         | Ok g' => (Ok tt, mkWorld (yandex w) g' (rng w) (trace w ++ [call; write]))
         end
    else (Ok tt, log w [call; Print (LineSkipped (name ev) d)]).
Proof.
  intros Hinit Hd Ad. cbv zeta.
  destruct (init_limits_aware _ _ _ Hinit) as (V1 & A1 & V2 & A2).
  exact (google_add_event_aware _ ev _ _ d w V1 A1 V2 A2 Hd Ad).
Qed.

(** X2. A record whose start text carries no UTC offset parses to a naive
    datetime; comparing it with the aware [time_limit] raises TypeError,
    so [GoogleCalendarClient.add_event] raises before it prints or sends
    anything. *)
Theorem google_add_event_naive_start (now : DateTime.t) (cfg : Config)
    (self : CalendarSyncManager.t) (ev : EventData) (d : DateTime.t) (w : World) :
  CalendarSyncManager.__init__ now cfg = Ok self ->
  DateTime.fromisoformat (start ev) = Ok d ->
  aware d = false ->
  let tl := CalendarSyncManager.time_limit self in
  let tlf := CalendarSyncManager.time_limit_future self in
  GoogleCalendarClient.add_event (CalendarSyncManager.config self) ev tl tlf w
  = (Raise (TypeError "can't compare offset-naive and offset-aware datetimes"),
     log w [CallGoogleAdd ev tl tlf]).
Proof.
  intros Hinit Hd Ad. cbv zeta.
  destruct (init_limits_valid _ _ _ Hinit) as (_ & T1 & _).
  rewrite google_add_event_run. cbv zeta. rewrite Hd.
  unfold GoogleCalendarClient.out_of_range, DateTime.lt, DateTime.cmp.
  unfold aware in Ad. destruct (DateTime.tzinfo d); [discriminate|].
  by rewrite T1.
Qed.

End Guard.

(** ** From a fetched Yandex component to the Google write *)

(** What [YandexCalendarClient.get_events] stores for a component with
    valid datetimes reads back, by [fromisoformat], as the UTC datetimes
    the loop computed. *)
Lemma yandex_entry_round_trip (c : VEvent) (k : string) (e : EventData)
    (vs ve : DateTime.t) :
  YandexCalendarClient.entry c = Ok (k, e) ->
  dtstart c = Some (DtDateTime vs) -> dtend c = Some (DtDateTime ve) ->
  DateTime.valid vs = true -> DateTime.valid ve = true ->
  exists ds de,
    YandexCalendarClient.ensure_utc (DtDateTime vs) = Ok ds
    /\ YandexCalendarClient.ensure_utc (DtDateTime ve) = Ok de
    /\ DateTime.fromisoformat (start e) = Ok ds
    /\ DateTime.fromisoformat (end_ e) = Ok de.
Proof.
  intros H Hs He Vs Ve.
  apply yandex_entry_spec in H
    as (n & vs' & ve' & ds & de & _ & Hs' & He' & Hds & Hde & _ & ->).
  rewrite Hs in Hs'. rewrite He in He'.
  injection Hs' as <-. injection He' as <-.
  exists ds, de. cbn [start end_].
  destruct (ensure_utc_valid _ _ Hds Vs) as [V1 T1].
  destruct (ensure_utc_valid _ _ Hde Ve) as [V2 T2].
  repeat split; try assumption; by apply fromisoformat_isoformat_utc.
Qed.

(** X3. Round trip of the canonical record: for a VEVENT whose start and
    end are valid datetimes, the [start] and [end] texts that
    [YandexCalendarClient.get_events] stores parse back with
    [datetime.fromisoformat] to aware datetimes that denote the instants
    of the component (a floating time being read as UTC). *)
Theorem yandex_record_parses_back (c : VEvent) (k : string) (e : EventData)
    (vs ve : DateTime.t) :
  YandexCalendarClient.entry c = Ok (k, e) ->
  dtstart c = Some (DtDateTime vs) -> dtend c = Some (DtDateTime ve) ->
  DateTime.valid vs = true -> DateTime.valid ve = true ->
  exists ds de,
    DateTime.fromisoformat (start e) = Ok ds
    /\ DateTime.fromisoformat (end_ e) = Ok de
    /\ DateTime.tzinfo ds = Some DateTime.utc
    /\ DateTime.tzinfo de = Some DateTime.utc
    /\ instant ds = instant vs /\ instant de = instant ve.
Proof.
  intros H Hs He Vs Ve.
  destruct (yandex_entry_round_trip _ _ _ _ _ H Hs He Vs Ve)
    as (ds & de & Hds & Hde & Ps & Pe).
  exists ds, de.
  apply ensure_utc_spec in Hds as (rs & [= <-] & Hrs).
  apply ensure_utc_spec in Hde as (re & [= <-] & Hre).
  repeat split; try assumption.
  - apply Hrs.
  - apply Hre.
  - by apply utc_equivalent_instant.
  - by apply utc_equivalent_instant.
Qed.

Section Compose.
Context {env : Environment}.

(** X4. A record that [YandexCalendarClient.get_events] built from a VEVENT
    with valid datetimes, handed to [GoogleCalendarClient.add_event] of a
    manager whose limits [__init__] computed: the call never raises on its
    own account; it inserts when the instant of the component's start lies
    in the closed window and prints the skip line otherwise. *)
Theorem yandex_record_to_google (now : DateTime.t) (cfg : Config)
    (self : CalendarSyncManager.t) (c : VEvent) (k : string) (e : EventData)
    (vs ve : DateTime.t) (w : World) :
  CalendarSyncManager.__init__ now cfg = Ok self ->
  YandexCalendarClient.entry c = Ok (k, e) ->
  dtstart c = Some (DtDateTime vs) -> dtend c = Some (DtDateTime ve) ->
  DateTime.valid vs = true -> DateTime.valid ve = true ->
  let tl := CalendarSyncManager.time_limit self in
  let tlf := CalendarSyncManager.time_limit_future self in
  let calId := google_calname (CalendarSyncManager.config self) in
  let call := CallGoogleAdd e tl tlf in
  let body := mkGBody (name e) (description e) (start e) "UTC" (end_ e) "UTC" in
  let write := EventsInsert calId body in
  exists ds,
    YandexCalendarClient.ensure_utc (DtDateTime vs) = Ok ds
    /\ GoogleCalendarClient.add_event (CalendarSyncManager.config self) e tl tlf w
       = if (instant tl <=? instant vs) && (instant vs <=? instant tlf)
         then match events_insert (google w) calId body with
              | Raise x => (Raise x, log w [call; write])
              | Ok g' =>
                  (Ok tt, mkWorld (yandex w) g' (rng w) (trace w ++ [call; write]))
              end
         else (Ok tt, log w [call; Print (LineSkipped (name e) ds)]).
Proof.
  intros Hinit H Hs He Vs Ve. cbv zeta.
  destruct (yandex_entry_round_trip _ _ _ _ _ H Hs He Vs Ve)
    as (ds & de & Hds & Hde & Ps & Pe).
  exists ds. split; [exact Hds|].
  destruct (init_limits_aware _ _ _ Hinit) as (V1 & A1 & V2 & A2).
  pose proof Hds as Hspec. apply ensure_utc_spec in Hspec as (rs & [= <-] & Hrs).
  assert (Ad : aware ds = true).
  { unfold aware. destruct Hrs as [-> _]. done. }
  rewrite (google_add_event_aware _ e _ _ ds w V1 A1 V2 A2 Ps Ad).
  by rewrite (utc_equivalent_instant _ _ Hrs).
Qed.

End Compose.
(** ** The window of [CalendarSyncManager.__init__] *)

(** [timedelta(days=n)] returns for day counts of magnitude up to
    999999999 and raises OverflowError otherwise. *)
Lemma timedelta_days_cases (n : Z) :
  (Z.abs n <= 999999999 /\ Date.timedelta_days n = Ok n)
  \/ (999999999 < Z.abs n
      /\ exists msg, Date.timedelta_days n = Raise (OverflowError msg)).
Proof.
  unfold Date.timedelta_days.
  destruct (Z.leb_spec (Z.abs n) 999999999) as [H|H]; [by left|right].
  split; [exact H|]. destruct (_ && _); eauto.
Qed.

(** The instants of the two limits, in days and microseconds. *)
Lemma init_limits_instants (now : DateTime.t) (cfg : Config)
    (self : CalendarSyncManager.t) :
  CalendarSyncManager.__init__ now cfg = Ok self ->
  let today := Date.toordinal (DateTime.date_of now) in
  CalendarSyncManager.config self = cfg
  /\ instant (CalendarSyncManager.time_limit self)
     = (today - past_days cfg) * 86400000000
  /\ instant (CalendarSyncManager.time_limit_future self)
     = (today + future_days cfg) * 86400000000 + 86399999999.
Proof.
  cbv zeta. unfold CalendarSyncManager.__init__.
  destruct (Date.timedelta_days (past_days cfg)) as [|p] eqn:Hp; [discriminate|].
  cbn [res_bind]. unfold Date.sub_days, Date.add_days.
  destruct (_ && _) eqn:H1; [|discriminate]. cbn [res_bind].
  destruct (Date.timedelta_days (future_days cfg)) as [|f] eqn:Hf; [discriminate|].
  cbn [res_bind].
  destruct (_ && _) eqn:H2 in |- *; [|discriminate]. cbn [res_bind].
  intros [= <-].
  cbn [CalendarSyncManager.time_limit CalendarSyncManager.time_limit_future
       CalendarSyncManager.config].
  destruct (timedelta_days_cases (past_days cfg)) as [[_ Hp']|(_ & msg & Hp')];
    rewrite Hp' in Hp; [|discriminate].
  destruct (timedelta_days_cases (future_days cfg)) as [[_ Hf']|(_ & msg & Hf')];
    rewrite Hf' in Hf; [|discriminate].
  injection Hp as <-. injection Hf as <-.
  split; [reflexivity|].
  unfold instant, DateTime.instant_us, DateTime.replace_tzinfo, DateTime.combine,
    DateTime.time_min, DateTime.time_max.
  cbn [DateTime.tzinfo default]. rewrite !wall_us_split.
  cbn [DateTime.date DateTime.hour DateTime.minute DateTime.second
       DateTime.microsecond].
  rewrite !toordinal_fromordinal. unfold id, DateTime.utc. split; lia.
Qed.

(** When [__init__] computes the limits, and what it raises otherwise. *)
Lemma init_outcome_aux (now : DateTime.t) (cfg : Config) :
  let today := Date.toordinal (DateTime.date_of now) in
  let fits :=
    Z.abs (past_days cfg) <= 999999999
    /\ 0 < today - past_days cfg <= Date.MAXORDINAL
    /\ Z.abs (future_days cfg) <= 999999999
    /\ 0 < today + future_days cfg <= Date.MAXORDINAL in
  ((exists self, CalendarSyncManager.__init__ now cfg = Ok self) <-> fits)
  /\ (forall e, CalendarSyncManager.__init__ now cfg = Raise e ->
        exists msg, e = OverflowError msg).
Proof.
  cbv zeta. unfold CalendarSyncManager.__init__, Date.sub_days, Date.add_days.
  set (today := Date.toordinal (DateTime.date_of now)).
  destruct (timedelta_days_cases (past_days cfg)) as [[Hp ->]|(Hp & msg & ->)];
    cbn [res_bind];
    [|split; [split; [intros [? [=]]|lia]|intros e [= <-]; eauto]].
  rewrite Z.add_opp_r.
  destruct (Z.ltb_spec 0 (today - past_days cfg)) as [H1|H1]; cbn [andb res_bind];
    [|split; [split; [intros [? [=]]|lia]|intros e [= <-]; eauto]].
  destruct (Z.leb_spec (today - past_days cfg) Date.MAXORDINAL) as [H2|H2];
    cbn [res_bind];
    [|split; [split; [intros [? [=]]|lia]|intros e [= <-]; eauto]].
  destruct (timedelta_days_cases (future_days cfg)) as [[Hf ->]|(Hf & msg & ->)];
    cbn [res_bind];
    [|split; [split; [intros [? [=]]|lia]|intros e [= <-]; eauto]].
  destruct (Z.ltb_spec 0 (today + future_days cfg)) as [H3|H3]; cbn [andb res_bind];
    [|split; [split; [intros [? [=]]|lia]|intros e [= <-]; eauto]].
  destruct (Z.leb_spec (today + future_days cfg) Date.MAXORDINAL) as [H4|H4];
    cbn [res_bind];
    [|split; [split; [intros [? [=]]|lia]|intros e [= <-]; eauto]].
  split; [split; [lia|eauto]|intros e [=]].
Qed.

(** X5. [CalendarSyncManager.__init__] computes the limits exactly when
    both day counts fit a [timedelta] (at most 999999999 days either way)
    and both shifted days are days that [date] can hold; day counts may be
    negative. Every other input makes it raise OverflowError, and nothing
    else. *)
Theorem init_succeeds_iff (now : DateTime.t) (cfg : Config) :
  let today := Date.toordinal (DateTime.date_of now) in
  let fits :=
    Z.abs (past_days cfg) <= 999999999
    /\ 0 < today - past_days cfg <= Date.MAXORDINAL
    /\ Z.abs (future_days cfg) <= 999999999
    /\ 0 < today + future_days cfg <= Date.MAXORDINAL in
  ((exists self, CalendarSyncManager.__init__ now cfg = Ok self) <-> fits)
  /\ (forall e, CalendarSyncManager.__init__ now cfg = Raise e ->
        exists msg, e = OverflowError msg).
Proof. exact (init_outcome_aux now cfg). Qed.

(** X6. The window that [__init__] computes runs from its floor to one
    microsecond before [past_days + future_days + 1] whole days later,
    whatever the signs of the two counts; when both counts are
    non-negative and [now] is a valid UTC datetime, the window contains
    [now]. *)
Theorem window_span (now : DateTime.t) (cfg : Config)
    (self : CalendarSyncManager.t) :
  CalendarSyncManager.__init__ now cfg = Ok self ->
  instant (CalendarSyncManager.time_limit_future self)
  - instant (CalendarSyncManager.time_limit self)
  = (past_days cfg + future_days cfg + 1) * DateTime.US_PER_DAY - 1
  /\ (DateTime.valid now = true -> DateTime.tzinfo now = Some DateTime.utc ->
      0 <= past_days cfg -> 0 <= future_days cfg ->
      within self now = true).
Proof.
  intros H. destruct (init_limits_instants _ _ _ H) as (_ & Hl & Hu).
  assert (Hday : DateTime.US_PER_DAY = 86400000000) by reflexivity.
  split; [rewrite Hl, Hu, Hday; lia|].
  intros Vnow Tnow Hp Hf. unfold within. rewrite Hl, Hu.
  unfold instant, DateTime.instant_us. rewrite Tnow. cbn [default].
  rewrite wall_us_split.
  unfold DateTime.valid in Vnow. apply andb_true_iff in Vnow as [Vt _].
  apply andb_true_iff in Vt as [_ Vt].
  apply time_of_day_bounds in Vt. unfold DateTime.date_of.
  apply andb_true_iff. rewrite !Z.leb_le. unfold id, DateTime.utc. lia.
Qed.

Section Inverted.
Context {env : Environment}.

(** X7. Negative day counts are accepted. When [past_days + future_days]
    is negative the floor lies after the ceiling, no instant is inside the
    window, and [GoogleCalendarClient.add_event] skips every record whose
    start parses to an aware datetime: such a manager never inserts into
    Google. *)
Theorem inverted_window_skips_all (now : DateTime.t) (cfg : Config)
    (self : CalendarSyncManager.t) (ev : EventData) (d : DateTime.t) (w : World) :
  CalendarSyncManager.__init__ now cfg = Ok self ->
  past_days cfg + future_days cfg < 0 ->
  DateTime.fromisoformat (start ev) = Ok d ->
  aware d = true ->
  let tl := CalendarSyncManager.time_limit self in
  let tlf := CalendarSyncManager.time_limit_future self in
  instant tlf < instant tl
  /\ GoogleCalendarClient.add_event (CalendarSyncManager.config self) ev tl tlf w
     = (Ok tt, log w [CallGoogleAdd ev tl tlf; Print (LineSkipped (name ev) d)]).
Proof.
  intros H Hneg Hd Ad. cbv zeta.
  destruct (init_limits_instants _ _ _ H) as (_ & Hl & Hu).
  assert (Hlt : instant (CalendarSyncManager.time_limit_future self)
                < instant (CalendarSyncManager.time_limit self))
    by (rewrite Hl, Hu; lia).
  split; [exact Hlt|].
  destruct (init_limits_aware _ _ _ H) as (V1 & A1 & V2 & A2).
  rewrite (google_add_event_aware _ ev _ _ d w V1 A1 V2 A2 Hd Ad).
  destruct (Z.leb_spec (instant (CalendarSyncManager.time_limit self)) (instant d));
    [|reflexivity].
  destruct (Z.leb_spec (instant d)
              (instant (CalendarSyncManager.time_limit_future self)));
    [lia|reflexivity].
Qed.

End Inverted.
(** ** The loops of the two [get_events] *)

(** Both loops have the same shape: an entry per element, stored under its
    key, the run ending at the first element whose entry raises. *)
Section Loop.
Context {A : Type}.
Variable entry : A -> res (string * EventData).
Variable collect : list A -> gmap string EventData -> res (gmap string EventData).
Hypothesis collect_nil : forall m0, collect [] m0 = Ok m0.
Hypothesis collect_cons : forall c rest m0,
  collect (c :: rest) m0
  = let? (k, e) := entry c in collect rest (<[k := e]> m0).

Lemma loop_app (pre post : list A) :
  forall m0,
    collect (pre ++ post) m0 = let? m := collect pre m0 in collect post m.
Proof.
  induction pre as [|c pre IH]; intros m0.
  - cbn [app]. by rewrite collect_nil.
  - cbn [app]. rewrite !collect_cons.
    destruct (entry c) as [|[k e]]; [reflexivity|]. cbn [res_bind]. apply IH.
Qed.

Lemma loop_ok (cs : list A) :
  forall m0,
    (exists m, collect cs m0 = Ok m)
    <-> (forall c, c ∈ cs -> exists k e, entry c = Ok (k, e)).
Proof.
  induction cs as [|c cs IH]; intros m0.
  - rewrite collect_nil. split; [|by eauto].
    intros _ c Hc. by apply elem_of_nil in Hc.
  - rewrite collect_cons. split.
    + intros [m H] c' Hc'.
      destruct (entry c) as [|[k e]] eqn:Hc; [discriminate|]. cbn [res_bind] in H.
      apply elem_of_cons in Hc' as [->|Hin]; [by eauto|].
      by apply (proj1 (IH _) (ex_intro _ m H)).
    + intros H. destruct (H c) as (k & e & Hc); [by left|].
      rewrite Hc. cbn [res_bind]. apply IH. intros c' Hc'. apply H. by right.
Qed.

Lemma loop_raise (cs : list A) :
  forall m0 x,
    collect cs m0 = Raise x
    <-> exists pre c post,
          cs = pre ++ c :: post /\ entry c = Raise x
          /\ forall c', c' ∈ pre -> exists k e, entry c' = Ok (k, e).
Proof.
  induction cs as [|c cs IH]; intros m0 x.
  - rewrite collect_nil. split; [discriminate|].
    intros (pre & c & post & H & _). by destruct pre.
  - rewrite collect_cons. split.
    + destruct (entry c) as [y|[k e]] eqn:Hc; cbn [res_bind].
      * intros [= ->]. exists [], c, cs. repeat split; [done|].
        intros c' Hc'. by apply elem_of_nil in Hc'.
      * intros H. apply IH in H as (pre & c0 & post & -> & Hc0 & Hpre).
        exists (c :: pre), c0, post. repeat split; [done|].
        intros c' Hc'. apply elem_of_cons in Hc' as [->|Hin]; eauto.
    + intros (pre & c0 & post & Heq & Hc0 & Hpre).
      destruct pre as [|c1 pre]; cbn [app] in Heq; injection Heq as -> ->.
      * by rewrite Hc0.
      * destruct (Hpre c1) as (k & e & Hc1); [by left|].
        rewrite Hc1. cbn [res_bind]. apply IH.
        exists pre, c0, post. repeat split; [done|].
        intros c' Hc'. apply Hpre. by right.
Qed.

Lemma loop_keeps (cs : list A) :
  forall m0 m k,
    collect cs m0 = Ok m ->
    (forall c k' e', c ∈ cs -> entry c = Ok (k', e') -> k' <> k) ->
    m !! k = m0 !! k.
Proof.
  induction cs as [|c cs IH]; intros m0 m k H Hne.
  - rewrite collect_nil in H. by injection H as <-.
  - rewrite collect_cons in H.
    destruct (entry c) as [|[k0 e0]] eqn:Hc; [discriminate|]. cbn [res_bind] in H.
    rewrite (IH _ _ k H).
    + apply lookup_insert_ne. apply (Hne c k0 e0); [by left|done].
    + intros c' k' e' Hin. apply Hne. by right.
Qed.

Lemma loop_last_wins (pre post : list A) (c : A) (k : string) (e : EventData) :
  forall m0 m,
    collect (pre ++ c :: post) m0 = Ok m ->
    entry c = Ok (k, e) ->
    (forall c' k' e', c' ∈ post -> entry c' = Ok (k', e') -> k' <> k) ->
    m !! k = Some e.
Proof.
  intros m0 m H Hc Hpost. rewrite loop_app in H.
  destruct (collect pre m0) as [|m1]; [discriminate|]. cbn [res_bind] in H.
  rewrite collect_cons, Hc in H. cbn [res_bind] in H.
  rewrite (loop_keeps _ _ _ k H Hpost). apply lookup_insert_eq.
Qed.

Lemma loop_dom (cs : list A) :
  forall m0 m k,
    collect cs m0 = Ok m ->
    (is_Some (m !! k)
     <-> is_Some (m0 !! k) \/ exists c e, c ∈ cs /\ entry c = Ok (k, e)).
Proof.
  induction cs as [|c cs IH]; intros m0 m k H.
  - rewrite collect_nil in H. injection H as <-. split; [by left|].
    intros [H|(c & e & Hc & _)]; [done|]. by apply elem_of_nil in Hc.
  - rewrite collect_cons in H.
    destruct (entry c) as [|[k0 e0]] eqn:Hc; [discriminate|]. cbn [res_bind] in H.
    rewrite (IH _ _ k H). split.
    + intros [H0|(c' & e' & Hin & Hc')].
      * destruct (decide (k0 = k)) as [->|Hne].
        -- right. exists c, e0. split; [by left|done].
        -- left. by rewrite lookup_insert_ne in H0.
      * right. exists c', e'. split; [by right|done].
    + intros [H0|(c' & e' & Hin & Hc')].
      * left. destruct (decide (k0 = k)) as [->|Hne].
        -- rewrite lookup_insert_eq. by eexists.
        -- by rewrite lookup_insert_ne.
      * apply elem_of_cons in Hin as [->|Hin].
        -- left. rewrite Hc in Hc'. injection Hc' as -> ->.
           rewrite lookup_insert_eq. by eexists.
        -- right. by exists c', e'.
Qed.

Lemma loop_size (cs : list A) :
  forall m0 m,
    collect cs m0 = Ok m -> (size m <= size m0 + length cs)%nat.
Proof.
  induction cs as [|c cs IH]; intros m0 m H.
  - rewrite collect_nil in H. injection H as <-. cbn [length]. lia.
  - rewrite collect_cons in H.
    destruct (entry c) as [|[k0 e0]] eqn:Hc; [discriminate|]. cbn [res_bind] in H.
    apply IH in H. cbn [length].
    assert (size (<[k0 := e0]> m0) <= S (size m0))%nat; [|lia].
    destruct (m0 !! k0) as [e1|] eqn:Hk.
    + rewrite <- (insert_delete_id m0 k0 e1 Hk) at 2.
      rewrite <- (insert_delete_eq m0).
      rewrite !map_size_insert_None by apply lookup_delete_eq. lia.
    + rewrite map_size_insert_None by done. lia.
Qed.

End Loop.
(** ** What the two [get_events] return *)

Lemma ensure_utc_raises (v : dtvalue) (x : exn) :
  YandexCalendarClient.ensure_utc v = Raise x ->
  match v with
  | DtDate _ => exists msg, x = AttributeError msg
  | DtDateTime raw =>
      utc_representable raw = false /\ exists msg, x = OverflowError msg
  end.
Proof.
  destruct v as [raw|d]; cbn [YandexCalendarClient.ensure_utc].
  - destruct (DateTime.tzinfo raw) as [off|] eqn:Htz; [|discriminate].
    destruct (utc_representable raw) eqn:Hr.
    + destruct (astimezone_utc_total raw off Htz Hr) as [d' ->]. discriminate.
    + rewrite (astimezone_utc_overflow raw off Htz Hr). intros [= <-]. eauto.
  - intros [= <-]. eauto.
Qed.

Lemma yandex_entry_cases (c : VEvent) :
  match YandexCalendarClient.entry c with
  | Ok _ => well_formed c = true
  | Raise (AttributeError _) => well_formed c = false
  | Raise (OverflowError _) =>
      exists raw,
        (dtstart c = Some (DtDateTime raw) \/ dtend c = Some (DtDateTime raw))
        /\ utc_representable raw = false
  | Raise _ => False
  end.
Proof.
  unfold YandexCalendarClient.entry, YandexCalendarClient.dt_of, well_formed.
  destruct (summary c) as [n|]; [|reflexivity]. cbn [res_bind].
  destruct (dtstart c) as [vs|]; [|reflexivity]. cbn [res_bind].
  destruct (dtend c) as [ve|]; [|by destruct vs]. cbn [res_bind].
  destruct (YandexCalendarClient.ensure_utc vs) as [x|ds] eqn:Hs; cbn [res_bind].
  { apply ensure_utc_raises in Hs. destruct vs as [rs|d].
    - destruct Hs as (Hr & msg & ->). exists rs. split; [by left|done].
    - destruct Hs as (msg & ->). reflexivity. }
  destruct (YandexCalendarClient.ensure_utc ve) as [x|de] eqn:He; cbn [res_bind].
  { apply ensure_utc_raises in He. destruct ve as [re|d].
    - destruct He as (Hr & msg & ->). exists re. split; [by right|done].
    - destruct He as (msg & ->). by destruct vs. }
  destruct vs; [|discriminate]. destruct ve; [|discriminate]. reflexivity.
Qed.

(** X8. The outcome of the loop body of [YandexCalendarClient.get_events]
    on one VEVENT. It returns only for a component with a summary and with
    datetimes as start and end; it raises AttributeError only for a
    component that lacks one of these (a missing summary, start or end, or
    the plain date of an all-day entry); it raises OverflowError only when
    the UTC rendering of the start or the end falls outside the days that
    [datetime] can hold; it raises nothing else. *)
Theorem yandex_entry_outcome (c : VEvent) :
  (forall k e, YandexCalendarClient.entry c = Ok (k, e) -> well_formed c = true)
  /\ (forall x, YandexCalendarClient.entry c = Raise x ->
        ((exists msg, x = AttributeError msg) /\ well_formed c = false)
        \/ ((exists msg, x = OverflowError msg)
            /\ exists raw,
                 (dtstart c = Some (DtDateTime raw) \/ dtend c = Some (DtDateTime raw))
                 /\ utc_representable raw = false)).
Proof.
  split.
  - intros k e H. pose proof (yandex_entry_cases c) as Hc. by rewrite H in Hc.
  - intros x H. pose proof (yandex_entry_cases c) as Hc. rewrite H in Hc.
    destruct x; try contradiction;
      [left|right]; (split; [by eexists|exact Hc]).
Qed.

Section Fetch.
Context {env : Environment}.
Variable convert_iso_timezone : option string -> Z -> res string.

(** X9. A [YandexCalendarClient.get_events] that returns has made one
    search and nothing else; the map holds exactly the keys of the
    components found; under each key sits the record of the last component
    with that key, in the order the search gave them; and the map has at
    most as many records as components were found. *)
Theorem yandex_get_events_map (s e : DateTime.t) (w w' : World)
    (m : gmap string EventData) :
  YandexCalendarClient.get_events s e w = (Ok m, w') ->
  w' = log w [CalSearch s e]
  /\ exists events,
       calendar_search (yandex w) s e = Ok events
       /\ (forall k, is_Some (m !! k)
             <-> exists c r, c ∈ concat events
                   /\ YandexCalendarClient.entry c = Ok (k, r))
       /\ (forall pre c post k r,
             concat events = pre ++ c :: post ->
             YandexCalendarClient.entry c = Ok (k, r) ->
             (forall c' k' r', c' ∈ post ->
                YandexCalendarClient.entry c' = Ok (k', r') -> k' <> k) ->
             m !! k = Some r)
       /\ (size m <= length (concat events))%nat.
Proof.
  rewrite yandex_get_events_run. intros [= H <-]. split; [reflexivity|].
  destruct (calendar_search (yandex w) s e) as [|events]; [discriminate|].
  cbn [res_bind] in H. exists events. split; [reflexivity|].
  split; [|split].
  - intros k.
    rewrite (loop_dom YandexCalendarClient.entry YandexCalendarClient.collect
               (fun _ => eq_refl) (fun _ _ _ => eq_refl) _ _ _ k H).
    rewrite lookup_empty. split; [intros [[? [=]]|H']; exact H'|by right].
  - intros pre c post k r Heq Hc Hpost. rewrite Heq in H.
    exact (loop_last_wins YandexCalendarClient.entry YandexCalendarClient.collect
             (fun _ => eq_refl) (fun _ _ _ => eq_refl) _ _ _ _ _ _ _ H Hc Hpost).
  - pose proof (loop_size YandexCalendarClient.entry YandexCalendarClient.collect
                  (fun _ => eq_refl) (fun _ _ _ => eq_refl) _ _ _ H) as Hs.
    by rewrite map_size_empty in Hs.
Qed.

(** X10. The same for [GoogleCalendarClient.get_events], over the items of
    the response (none when the response has no [items] member): one
    listing call and nothing else; exactly the keys of the items; the last
    item with a key wins; at most as many records as items. *)
Theorem google_get_events_map (config : Config) (s e : DateTime.t) (w w' : World)
    (m : gmap string EventData) :
  GoogleCalendarClient.get_events convert_iso_timezone config s e w = (Ok m, w') ->
  let entry := GoogleCalendarClient.entry convert_iso_timezone in
  w' = log w [EventsList (google_calname config)
                (DateTime.isoformat_seconds s) (DateTime.isoformat_seconds e)]
  /\ exists events_result,
       events_list (google w) (google_calname config)
         (DateTime.isoformat_seconds s) (DateTime.isoformat_seconds e)
       = Ok events_result
       /\ let items := default [] events_result in
          (forall k, is_Some (m !! k)
             <-> exists it r, it ∈ items /\ entry it = Ok (k, r))
          /\ (forall pre it post k r,
                items = pre ++ it :: post ->
                entry it = Ok (k, r) ->
                (forall it' k' r', it' ∈ post -> entry it' = Ok (k', r') -> k' <> k) ->
                m !! k = Some r)
          /\ (size m <= length items)%nat.
Proof.
  rewrite google_get_events_run. intros [= H <-]. cbv zeta. split; [reflexivity|].
  destruct (events_list _ _ _ _) as [|events_result]; [discriminate|].
  cbn [res_bind] in H. exists events_result. split; [reflexivity|].
  split; [|split].
  - intros k.
    rewrite (loop_dom (GoogleCalendarClient.entry convert_iso_timezone)
               (GoogleCalendarClient.collect convert_iso_timezone)
               (fun _ => eq_refl) (fun _ _ _ => eq_refl) _ _ _ k H).
    rewrite lookup_empty. split; [intros [[? [=]]|H']; exact H'|by right].
  - intros pre c post k r Heq Hc Hpost. rewrite Heq in H.
    exact (loop_last_wins (GoogleCalendarClient.entry convert_iso_timezone)
             (GoogleCalendarClient.collect convert_iso_timezone)
             (fun _ => eq_refl) (fun _ _ _ => eq_refl) _ _ _ _ _ _ _ H Hc Hpost).
  - pose proof (loop_size (GoogleCalendarClient.entry convert_iso_timezone)
                  (GoogleCalendarClient.collect convert_iso_timezone)
                  (fun _ => eq_refl) (fun _ _ _ => eq_refl) _ _ _ H) as Hs.
    by rewrite map_size_empty in Hs.
Qed.

(** X11. [YandexCalendarClient.get_events] raises in two cases only: the
    search raised, or a component's entry raised; in the second case the
    exception is that of the first such component, and the components
    before it were processed without effect on the outcome. Either way the
    search is the only effect. *)
Theorem yandex_get_events_raises (s e : DateTime.t) (w : World) (x : exn) :
  (YandexCalendarClient.get_events s e w).2 = log w [CalSearch s e]
  /\ ((YandexCalendarClient.get_events s e w).1 = Raise x
      <-> calendar_search (yandex w) s e = Raise x
          \/ exists events pre c post,
               calendar_search (yandex w) s e = Ok events
               /\ concat events = pre ++ c :: post
               /\ YandexCalendarClient.entry c = Raise x
               /\ forall c', c' ∈ pre ->
                    exists k r, YandexCalendarClient.entry c' = Ok (k, r)).
Proof.
  rewrite yandex_get_events_run. cbn [fst snd]. split; [reflexivity|].
  destruct (calendar_search (yandex w) s e) as [y|events]; cbn [res_bind].
  - split; [intros [= ->]; by left|].
    intros [[= ->]|(? & ? & ? & ? & [=] & _)]. reflexivity.
  - rewrite (loop_raise YandexCalendarClient.entry YandexCalendarClient.collect
               (fun _ => eq_refl) (fun _ _ _ => eq_refl)).
    split.
    + intros (pre & c & post & H1 & H2 & H3). right. by exists events, pre, c, post.
    + intros [[=]|(ev' & pre & c & post & [= <-] & H1 & H2 & H3)].
      by exists pre, c, post.
Qed.

(** X12. One component that is not well formed among those the Yandex
    search returns (an all-day entry, say) makes [sync] raise
    AttributeError or OverflowError right after the search: Google is not
    queried, nothing is printed, no [add_event] is entered and both stores
    are as before. *)
Theorem malformed_component_aborts_sync (self : CalendarSyncManager.t) (w : World)
    (events : list (list VEvent)) (c : VEvent) :
  let tl := CalendarSyncManager.time_limit self in
  let tlf := CalendarSyncManager.time_limit_future self in
  calendar_search (yandex w) tl tlf = Ok events ->
  c ∈ concat events ->
  well_formed c = false ->
  exists x,
    CalendarSyncManager.sync convert_iso_timezone self w
    = (Raise x, log w [CalSearch tl tlf])
    /\ ((exists msg, x = AttributeError msg) \/ (exists msg, x = OverflowError msg)).
Proof.
  cbv zeta. intros Hsearch Hin Hbad. rewrite sync_run. cbv zeta.
  unfold yandex_view. rewrite Hsearch. cbn [res_bind].
  destruct (YandexCalendarClient.collect (concat events) ∅) as [x|m] eqn:H.
  - exists x. split; [reflexivity|].
    apply (loop_raise YandexCalendarClient.entry YandexCalendarClient.collect
             (fun _ => eq_refl) (fun _ _ _ => eq_refl)) in H
      as (pre & c0 & post & _ & Hc0 & _).
    pose proof (yandex_entry_cases c0) as Hout. rewrite Hc0 in Hout.
    destruct x; try contradiction; eauto.
  - exfalso.
    destruct (proj1 (loop_ok YandexCalendarClient.entry YandexCalendarClient.collect
                       (fun _ => eq_refl) (fun _ _ _ => eq_refl) _ ∅)
                    (ex_intro _ m H) c Hin) as (k & r & Hc).
    pose proof (yandex_entry_cases c) as Hout. rewrite Hc in Hout. congruence.
Qed.

End Fetch.
(** ** The write-back pass of [sync] *)

Lemma omap_lookup_ext {V} (a b : gmap string V) (ks : list string) :
  (forall k, k ∈ ks -> a !! k = b !! k) -> omap (a !!.) ks = omap (b !!.) ks.
Proof.
  induction ks as [|k ks IH]; intros H; [reflexivity|].
  cbn [omap list_omap]. rewrite (H k) by left.
  rewrite IH; [reflexivity|]. intros k' Hk'. apply H. by right.
Qed.


Section ForEach.
Context {env : Environment}.
Variable all : gmap string EventData.
Variable add : EventData -> M unit.
Variable sel other : Effect -> option EventData.
Variable own : Effect -> bool.
Hypothesis add_trace : forall ev w,
  exists t, trace (add ev w).2 = trace w ++ t
            /\ omap sel t = [ev] /\ omap other t = []
            /\ forallb own t = true.

(** A loop [for event_key in keys: add(all_events[event_key])] over keys
    of the dict is the loop over their records. *)
Lemma for_each_records (ks : list string) :
  (forall k, k ∈ ks -> is_Some (all !! k)) ->
  forall w,
    for_each ks (fun event_key =>
      do event_data <- lift (dict_getitem all event_key);
      add event_data) w
    = for_each (omap (all !!.) ks) add w.
Proof.
  set (body := fun event_key : string =>
                 do event_data <- lift (dict_getitem all event_key);
                 add event_data).
  induction ks as [|k ks IH]; intros Hks w; [reflexivity|].
  destruct (Hks k) as [ev Hk]; [by left|].
  cbn [omap list_omap]. rewrite Hk.
  assert (Hbody : body k w = add ev w).
  { unfold body, bind, lift, dict_getitem. by rewrite Hk. }
  assert (Hkeys : for_each (k :: ks) body w
                  = match body k w with
                    | (Raise e, w') => (Raise e, w')
                    | (Ok _, w') => for_each ks body w'
                    end) by reflexivity.
  assert (Hrecs : for_each (ev :: omap (all !!.) ks) add w
                  = match add ev w with
                    | (Raise e, w') => (Raise e, w')
                    | (Ok _, w') => for_each (omap (all !!.) ks) add w'
                    end) by reflexivity.
  rewrite Hkeys, Hrecs, Hbody. destruct (add ev w) as [[x|[]] w1]; [reflexivity|].
  apply IH. intros k' Hk'. apply Hks. by right.
Qed.



End ForEach.

Section WriteBack.
Context {env : Environment}.

Lemma elem_of_set_iter (X : gset string) (k : string) : k ∈ set_iter X <-> k ∈ X.
Proof. by rewrite (set_iter_perm X), elem_of_elements. Qed.



(** Every missing key has its record in the merged map: the record of the
    other side. *)
Lemma missing_records (y g : gmap string EventData) :
  let all := CalendarSyncManager.all_events y g in
  (forall k, k ∈ set_iter (CalendarSyncManager.yandex_missing_keys y g) ->
     all !! k = g !! k /\ is_Some (g !! k) /\ y !! k = None)
  /\ (forall k, k ∈ set_iter (CalendarSyncManager.google_missing_keys y g) ->
        all !! k = y !! k /\ is_Some (y !! k) /\ g !! k = None).
Proof.
  cbv zeta. split; intros k Hk; apply elem_of_set_iter in Hk.
  - rewrite yandex_missing_keys_alt in Hk.
    apply elem_of_difference in Hk as [Hg Hny].
    apply not_elem_of_dom in Hny. apply elem_of_dom in Hg as [v Hv].
    unfold CalendarSyncManager.all_events.
    rewrite lookup_dict_merge, Hv. by eauto.
  - rewrite google_missing_keys_alt in Hk.
    apply elem_of_difference in Hk as [Hy' Hng].
    apply not_elem_of_dom in Hng. apply elem_of_dom in Hy' as [v Hv].
    unfold CalendarSyncManager.all_events.
    rewrite lookup_dict_merge, Hng, Hv. by eauto.
Qed.

(** The write-back pass as two loops over records in sequence. *)
Lemma reconcile_run (self : CalendarSyncManager.t)
    (y g : gmap string EventData) (w : World) :
  let all := CalendarSyncManager.all_events y g in
  let my := CalendarSyncManager.yandex_missing_keys y g in
  let mg := CalendarSyncManager.google_missing_keys y g in
  CalendarSyncManager.reconcile self y g w
  = match for_each (omap (g !!.) (set_iter my)) YandexCalendarClient.add_event
          (log w [Print (LineTotals (size all) (size y) (size g));
                  Print (LineMissingYandex my)]) with
    | (Raise e, w') => (Raise e, w')
    | (Ok _, w') =>
        for_each (omap (y !!.) (set_iter mg))
          (fun event_data =>
             GoogleCalendarClient.add_event (CalendarSyncManager.config self)
               event_data (CalendarSyncManager.time_limit self)
               (CalendarSyncManager.time_limit_future self))
          (log w' [Print (LineMissingGoogle mg)])
    end.
Proof.
  cbv zeta. destruct (missing_records y g) as [Hy Hg]. cbv zeta in Hy, Hg.
  rewrite <- (omap_lookup_ext (CalendarSyncManager.all_events y g) g)
    by (intros k Hk; apply (Hy k Hk)).
  rewrite <- (omap_lookup_ext (CalendarSyncManager.all_events y g) y)
    by (intros k Hk; apply (Hg k Hk)).
  rewrite <- (for_each_records (CalendarSyncManager.all_events y g)
                YandexCalendarClient.add_event)
    by (intros k Hk; destruct (Hy k Hk) as (-> & ? & _); done).
  unfold CalendarSyncManager.reconcile. cbv zeta.
  unfold print. unfold bind at 1, emit at 1. unfold bind at 1, emit at 1.
  cbn [yandex google rng trace]. rewrite <- app_assoc. cbn [app].
  unfold bind at 1. unfold log. cbn [app].
  destruct (for_each _ _ _) as [[x|[]] w3]; [reflexivity|].
  unfold bind at 1, emit at 1.
  apply (for_each_records (CalendarSyncManager.all_events y g)
           (fun event_data =>
              GoogleCalendarClient.add_event (CalendarSyncManager.config self)
                event_data (CalendarSyncManager.time_limit self)
                (CalendarSyncManager.time_limit_future self))).
  intros k Hk. destruct (Hg k Hk) as (-> & ? & _). done.
Qed.


(** X14. The numbers of the totals line add up: the merged map has as many
    records as the Yandex map plus the keys missing in Yandex, and as many
    as the Google map plus the keys missing in Google; the two missing
    sets together are the keys that only one side holds. *)
Theorem totals_add_up (y g : gmap string EventData) :
  let all := CalendarSyncManager.all_events y g in
  let my := CalendarSyncManager.yandex_missing_keys y g in
  let mg := CalendarSyncManager.google_missing_keys y g in
  size all = (size y + size my)%nat
  /\ size all = (size g + size mg)%nat
  /\ (size all <= size y + size g)%nat
  /\ (size y <= size all)%nat /\ (size g <= size all)%nat.
Proof.
  cbv zeta.
  assert (H1 : size (CalendarSyncManager.all_events y g)
               = (size y + size (CalendarSyncManager.yandex_missing_keys y g))%nat).
  { rewrite <- !size_dom. unfold CalendarSyncManager.all_events.
    rewrite dom_dict_merge, yandex_missing_keys_alt. apply size_union_alt. }
  assert (H2 : size (CalendarSyncManager.all_events y g)
               = (size g + size (CalendarSyncManager.google_missing_keys y g))%nat).
  { rewrite <- !size_dom. unfold CalendarSyncManager.all_events.
    rewrite dom_dict_merge, google_missing_keys_alt.
    rewrite (union_comm_L (dom y) (dom g)). apply size_union_alt. }
  split; [exact H1|]. split; [exact H2|].
  assert (H3 : (size (CalendarSyncManager.yandex_missing_keys y g) <= size g)%nat).
  { rewrite yandex_missing_keys_alt, <- (size_dom g).
    apply subseteq_size. set_solver. }
  lia.
Qed.

End WriteBack.
(** ** Identity Keys of Yandex records *)

Lemma no_slash_app (a b : string) :
  no_slash (a +:+ b) = no_slash a && no_slash b.
Proof.
  induction a as [|c a IH]; [reflexivity|].
  rewrite string_app_cons. cbn [no_slash]. rewrite IH. by rewrite andb_assoc.
Qed.

Lemma no_slash_digit (d : Z) : 0 <= d < 10 -> Ascii.eqb (digit_char d) "/" = false.
Proof.
  intros H.
  assert (Hd : d = 0 \/ d = 1 \/ d = 2 \/ d = 3 \/ d = 4 \/ d = 5 \/ d = 6
               \/ d = 7 \/ d = 8 \/ d = 9) by lia.
  destruct Hd as [->|[->|[->|[->|[->|[->|[->|[->|[->| ->]]]]]]]]]; reflexivity.
Qed.

Lemma no_slash_fmt (w : nat) : forall n, no_slash (fmt_0d w n) = true.
Proof.
  induction w as [|w IH]; intros n; [reflexivity|].
  cbn [fmt_0d]. rewrite no_slash_app, IH. cbn [no_slash andb].
  rewrite no_slash_digit; [reflexivity|]. apply Z.mod_pos_bound. lia.
Qed.

Lemma no_slash_format_offset (tz : option Z) :
  no_slash (DateTime.format_offset tz) = true.
Proof.
  destruct tz as [off|]; [|reflexivity]. unfold DateTime.format_offset. cbv zeta.
  rewrite !no_slash_app, !no_slash_fmt.
  assert (Hsign : no_slash (if off <? 0 then "-" else "+") = true)
    by (by destruct (off <? 0)).
  rewrite Hsign. cbn [andb no_slash Ascii.eqb Bool.eqb negb].
  destruct (_ && _); [reflexivity|].
  rewrite !no_slash_app, !no_slash_fmt. cbn [andb no_slash Ascii.eqb Bool.eqb negb].
  destruct (_ =? 0); [reflexivity|].
  rewrite !no_slash_app, !no_slash_fmt. reflexivity.
Qed.

Lemma no_slash_isoformat (d : DateTime.t) : no_slash (DateTime.isoformat d) = true.
Proof.
  unfold DateTime.isoformat, DateTime.format_date, DateTime.format_hms.
  rewrite !no_slash_app, !no_slash_fmt, no_slash_format_offset.
  cbn [andb no_slash Ascii.eqb Bool.eqb negb].
  destruct (DateTime.microsecond d =? 0); [reflexivity|].
  rewrite !no_slash_app, !no_slash_fmt. reflexivity.
Qed.

(** A key splits in one way only into a name and a text without ["/"]. *)
Lemma event_key_split (s1 s2 : string) :
  no_slash s1 = true -> no_slash s2 = true ->
  forall n1 n2,
    n1 +:+ String "/" s1 = n2 +:+ String "/" s2 -> n1 = n2 /\ s1 = s2.
Proof.
  intros H1 H2.
  assert (Hbad : forall a b, no_slash (a +:+ String "/" b) = false).
  { intros a b. rewrite no_slash_app. cbn [no_slash].
    destruct (no_slash a); reflexivity. }
  induction n1 as [|c1 n1 IH]; intros [|c2 n2] H.
  - rewrite !string_app_nil_l in H. by injection H as ->.
  - rewrite string_app_nil_l, string_app_cons in H.
    injection H as _ ->. by rewrite Hbad in H1.
  - rewrite string_app_nil_l, string_app_cons in H.
    injection H as _ <-. by rewrite Hbad in H2.
  - rewrite !string_app_cons in H. injection H as -> H.
    destruct (IH _ H) as [-> ->]. done.
Qed.

Lemma cmp_fields_eq (l1 : list Z) :
  forall l2, DateTime.cmp_fields l1 l2 = Eq -> l1 = l2.
Proof.
  induction l1 as [|x l1 IH]; intros [|y l2] H; cbn [DateTime.cmp_fields] in H;
    try discriminate; [reflexivity|].
  destruct (Z.compare_spec x y) as [->|?|?]; try discriminate.
  by rewrite (IH _ H).
Qed.

(** A valid datetime is determined by its wall-clock reading and its
    tzinfo. *)
Lemma wall_us_inj (a b : DateTime.t) :
  DateTime.valid a = true -> DateTime.valid b = true ->
  DateTime.tzinfo a = DateTime.tzinfo b ->
  DateTime.wall_us a = DateTime.wall_us b -> a = b.
Proof.
  intros Va Vb Ht Hw.
  pose proof (cmp_fields_wall a b Va Vb) as H.
  rewrite Hw, Z.compare_refl in H. apply cmp_fields_eq in H.
  destruct a as [[y1 m1 d1] h1 mi1 s1 u1 t1], b as [[y2 m2 d2] h2 mi2 s2 u2 t2].
  cbn [DateTime.tzinfo] in Ht. unfold DateTime.fields in H.
  cbn [DateTime.date DateTime.hour DateTime.minute DateTime.second
       DateTime.microsecond Date.year Date.month Date.day] in H.
  injection H as -> -> -> -> -> -> ->. by rewrite Ht.
Qed.

(** Equal keys of two UTC datetimes' texts: equal names and datetimes. *)
Lemma event_key_inj (n1 n2 : string) (d1 d2 : DateTime.t) :
  DateTime.valid d1 = true -> DateTime.tzinfo d1 = Some DateTime.utc ->
  DateTime.valid d2 = true -> DateTime.tzinfo d2 = Some DateTime.utc ->
  n1 +:+ String "/" (DateTime.isoformat d1) = n2 +:+ String "/" (DateTime.isoformat d2) ->
  n1 = n2 /\ d1 = d2.
Proof.
  intros V1 T1 V2 T2 Hk.
  apply event_key_split in Hk as [-> Hiso]; try apply no_slash_isoformat.
  split; [reflexivity|].
  pose proof (fromisoformat_isoformat_utc d1 V1 T1) as R1.
  pose proof (fromisoformat_isoformat_utc d2 V2 T2) as R2.
  rewrite Hiso, R2 in R1. by injection R1 as ->.
Qed.

Lemma instant_utc (d : DateTime.t) :
  DateTime.tzinfo d = Some DateTime.utc -> instant d = DateTime.wall_us d.
Proof.
  unfold instant, DateTime.instant_us. intros ->. apply Z.sub_0_r.
Qed.

Lemma utc_instant_inj (d1 d2 : DateTime.t) :
  DateTime.valid d1 = true -> DateTime.tzinfo d1 = Some DateTime.utc ->
  DateTime.valid d2 = true -> DateTime.tzinfo d2 = Some DateTime.utc ->
  instant d1 = instant d2 -> d1 = d2.
Proof.
  intros V1 T1 V2 T2 Hi.
  rewrite (instant_utc d1 T1), (instant_utc d2 T2) in Hi.
  apply (wall_us_inj d1 d2 V1 V2); [|exact Hi].
  rewrite T1. symmetry. exact T2.
Qed.

(** X15. The identity rule on the Yandex side. Two VEVENTs with valid
    datetimes get the same Identity Key exactly when they have the same
    summary and their starts denote the same instant: the key is
    injective on (name, start instant), also for names that contain
    ["/"]. *)
Theorem yandex_key_identity (c1 c2 : VEvent) (k1 k2 : string) (e1 e2 : EventData)
    (vs1 vs2 : DateTime.t) :
  YandexCalendarClient.entry c1 = Ok (k1, e1) ->
  YandexCalendarClient.entry c2 = Ok (k2, e2) ->
  dtstart c1 = Some (DtDateTime vs1) -> dtstart c2 = Some (DtDateTime vs2) ->
  DateTime.valid vs1 = true -> DateTime.valid vs2 = true ->
  (k1 = k2 <-> summary c1 = summary c2 /\ instant vs1 = instant vs2).
Proof.
  intros H1 H2 Hs1 Hs2 V1 V2.
  apply yandex_entry_spec in H1
    as (n1 & vs1' & ve1 & ds1 & de1 & Hn1 & Hs1' & _ & Hds1 & _ & -> & _).
  apply yandex_entry_spec in H2
    as (n2 & vs2' & ve2 & ds2 & de2 & Hn2 & Hs2' & _ & Hds2 & _ & -> & _).
  rewrite Hs1 in Hs1'. injection Hs1' as <-.
  rewrite Hs2 in Hs2'. injection Hs2' as <-.
  destruct (ensure_utc_valid _ _ Hds1 V1) as [Vd1 T1].
  destruct (ensure_utc_valid _ _ Hds2 V2) as [Vd2 T2].
  pose proof Hds1 as E1. apply ensure_utc_spec in E1 as (r1 & [= <-] & E1).
  pose proof Hds2 as E2. apply ensure_utc_spec in E2 as (r2 & [= <-] & E2).
  rewrite <- (utc_equivalent_instant _ _ E1), <- (utc_equivalent_instant _ _ E2).
  rewrite Hn1, Hn2. split.
  - intros Hk.
    destruct (event_key_inj n1 n2 ds1 ds2 Vd1 T1 Vd2 T2 Hk) as [-> ->]. done.
  - intros [[= ->] Hi].
    by rewrite (utc_instant_inj ds1 ds2 Vd1 T1 Vd2 T2 Hi).
Qed.
(** ** Start-up *)

Section StartUp.
Context {env : Environment} {platform : Platform}.

(** The loop of [_get_calendar_by_name] returns the first calendar with
    the name. *)
Lemma find_calendar_ok (calendars : list Calendar) (n : string) (cal : Calendar) :
  YandexConnection.find_calendar calendars n = Ok cal
  <-> exists pre post,
        calendars = pre ++ cal :: post /\ cal_name cal = Some n
        /\ forall c, c ∈ pre -> cal_name c <> Some n.
Proof.
  induction calendars as [|c cs IH]; cbn [YandexConnection.find_calendar].
  - split; [discriminate|]. intros (pre & post & H & _). by destruct pre.
  - destruct (bool_decide_reflect (cal_name c = Some n)) as [Hc|Hc].
    + split.
      * intros [= <-]. exists [], cs. repeat split; [done|].
        intros c' Hc'. by apply elem_of_nil in Hc'.
      * intros (pre & post & Heq & Hn & Hpre). destruct pre as [|c' pre].
        -- by injection Heq as ->.
        -- injection Heq as -> _. exfalso. apply (Hpre c'); [by left|done].
    + rewrite IH. split.
      * intros (pre & post & -> & Hn & Hpre). exists (c :: pre), post.
        repeat split; [done|]. intros c' Hc'.
        apply elem_of_cons in Hc' as [->|Hin]; [done|by apply Hpre].
      * intros (pre & post & Heq & Hn & Hpre). destruct pre as [|c' pre].
        -- injection Heq as -> _. done.
        -- injection Heq as -> ->. exists pre, post. repeat split; [done|].
           intros c'' Hc''. apply Hpre. by right.
Qed.

Lemma find_calendar_raise (calendars : list Calendar) (n : string) (e : exn) :
  YandexConnection.find_calendar calendars n = Raise e
  <-> e = ValueError ("Calendar named " +:+ n +:+ " not found.")
      /\ forall c, c ∈ calendars -> cal_name c <> Some n.
Proof.
  induction calendars as [|c cs IH]; cbn [YandexConnection.find_calendar].
  - split.
    + intros [= <-]. split; [done|]. intros c Hc. by apply elem_of_nil in Hc.
    + by intros [-> _].
  - destruct (bool_decide_reflect (cal_name c = Some n)) as [Hc|Hc].
    + split; [discriminate|]. intros [_ H]. exfalso. apply (H c); [by left|done].
    + rewrite IH. split; intros [-> H]; (split; [done|]).
      * intros c' Hc'. apply elem_of_cons in Hc' as [->|Hin]; [done|by apply H].
      * intros c' Hc'. apply H. by right.
Qed.

(** X16. [_get_calendar_by_name] asks the principal once for its
    calendars and changes nothing else. When the principal answers, it
    returns the first calendar whose name equals the one asked for (later
    ones with the same name are ignored), and it raises ValueError
    ["Calendar named <name> not found."] exactly when no calendar has that
    name; a calendar without a name never matches. *)
Theorem get_calendar_by_name_spec (principal : Principal) (n : string) (h : Host) :
  let out := YandexConnection._get_calendar_by_name principal n h in
  out.2 = mkHost (files h) (steps h ++ [StepCalendars])
  /\ match principal_calendars principal with
     | Raise e => out.1 = Raise e
     | Ok calendars =>
         (forall cal,
            out.1 = Ok cal
            <-> exists pre post,
                  calendars = pre ++ cal :: post /\ cal_name cal = Some n
                  /\ forall c, c ∈ pre -> cal_name c <> Some n)
         /\ (forall e,
               out.1 = Raise e
               <-> e = ValueError ("Calendar named " +:+ n +:+ " not found.")
                   /\ forall c, c ∈ calendars -> cal_name c <> Some n)
     end.
Proof.
  cbv zeta.
  unfold YandexConnection._get_calendar_by_name, hbind, remote_calendars, call, hlift.
  cbn [files steps].
  destruct (principal_calendars principal) as [e|calendars]; cbn [fst snd];
    [by split|].
  split; [reflexivity|]. split.
  - intros cal. apply find_calendar_ok.
  - intros e. apply find_calendar_raise.
Qed.

(** What one call of [_authenticate] does, branch by branch. *)
Lemma authenticate_run (config : Settings) (h : Host) :
  let p := google_token_file config in
  let cf := google_credentials_file config in
  let sc := google_scopes config in
  let f := files h in
  let pre := if path_exists f p then [StepLoad p] else [] in
  let finish := fun (t : list Step) (c : Creds) =>
    match pickle_dump f p c with
    | (Raise e, f') => (Raise e, mkHost f' (steps h ++ pre ++ t ++ [StepDump p c]))
    | (Ok _, f') =>
        (build (Some c),
         mkHost f' (steps h ++ pre ++ t ++ [StepDump p c; StepBuild (Some c)]))
    end in
  GoogleConnection._authenticate config h
  = match (if path_exists f p then pickle_load f p else Ok None) with
    | Raise e => (Raise e, mkHost f (steps h ++ pre))
    | Ok creds =>
        if GoogleConnection.needs_login creds then
          match GoogleConnection.refreshable creds with
          | Some c =>
              match creds_refresh c with
              | Raise e => (Raise e, mkHost f (steps h ++ pre ++ [StepRefresh c]))
              | Ok c' => finish [StepRefresh c] c'
              end
          | None =>
              match from_client_secrets_file f cf sc with
              | Raise e => (Raise e, mkHost f (steps h ++ pre ++ [StepSecrets cf sc]))
              | Ok flow =>
                  match run_local_server flow with
                  | Raise e =>
                      (Raise e,
                       mkHost f (steps h ++ pre ++ [StepSecrets cf sc; StepLocalServer]))
                  | Ok c' => finish [StepSecrets cf sc; StepLocalServer] c'
                  end
              end
          end
        else (build creds, mkHost f (steps h ++ pre ++ [StepBuild creds]))
    end.
Proof.
  cbv zeta. unfold GoogleConnection._authenticate. cbv zeta.
  unfold hbind at 1. unfold hbind at 1.
  assert (Hfirst :
    (if path_exists (files h) (google_token_file config)
     then load (google_token_file config) h else hret None h)
    = ((if path_exists (files h) (google_token_file config)
        then pickle_load (files h) (google_token_file config) else Ok None),
       mkHost (files h)
         (steps h ++ (if path_exists (files h) (google_token_file config)
                      then [StepLoad (google_token_file config)] else [])))).
  { destruct (path_exists _ _); [reflexivity|].
    unfold hret. rewrite app_nil_r. by destruct h. }
  rewrite Hfirst. clear Hfirst.
  set (pre := if path_exists _ _ then [StepLoad _] else []).
  destruct (if path_exists _ _ then pickle_load _ _ else Ok None) as [e|creds];
    [reflexivity|].
  destruct (GoogleConnection.needs_login creds); cbn [fst snd];
    [|unfold hret, service, call; cbn [files steps];
      by rewrite <- app_assoc].
  unfold hbind at 1.
  destruct (GoogleConnection.refreshable creds) as [c|].
  - unfold refresh, call. cbn [files steps].
    destruct (creds_refresh c) as [e|c']; [by rewrite <- app_assoc|].
    unfold hbind, dump, hret, service, call. cbn [files steps].
    destruct (pickle_dump (files h) (google_token_file config) c') as [[e|[]] f'];
      cbn [files steps]; by rewrite <- !app_assoc.
  - unfold hbind at 1, secrets, call. cbn [files steps].
    destruct (from_client_secrets_file _ _ _) as [e|flow];
      [by rewrite <- app_assoc|].
    unfold local_server, call. cbn [files steps].
    destruct (run_local_server flow) as [e|c']; [by rewrite <- !app_assoc|].
    unfold hbind, dump, hret, service, call. cbn [files steps].
    destruct (pickle_dump (files h) (google_token_file config) c') as [[e|[]] f'];
      cbn [files steps]; by rewrite <- !app_assoc.
Qed.

End StartUp.
(** ** Authentication *)

(** Membership of a step in a literal list of steps. *)
Ltac step_in H :=
  repeat first
    [ apply elem_of_nil in H; destruct H
    | apply elem_of_app in H as [H|H]
    | apply elem_of_cons in H as [H|H] ];
  try discriminate.

(** The step is the last of a list given by appends and literals. *)
Ltac step_last :=
  repeat first
    [ apply list_elem_of_here
    | apply elem_of_app; right
    | apply list_elem_of_further ].

Section Authenticate.
Context {env : Environment} {platform : Platform}.

Lemma needs_login_false (creds : option Creds) :
  GoogleConnection.needs_login creds = false ->
  exists c, creds = Some c /\ creds_valid c = true.
Proof.
  destruct creds as [c|]; [|discriminate]. cbn [GoogleConnection.needs_login].
  intros H. exists c. split; [reflexivity|]. by destruct (creds_valid c).
Qed.

Lemma refreshable_some (creds : option Creds) (c : Creds) :
  GoogleConnection.refreshable creds = Some c ->
  creds = Some c /\ creds_expired c = true
  /\ GoogleConnection.truthy (creds_refresh_token c) = true.
Proof.
  destruct creds as [c0|]; [|discriminate]. cbn [GoogleConnection.refreshable].
  destruct (creds_expired c0) eqn:He; [|discriminate].
  destruct (GoogleConnection.truthy _) eqn:Ht; [|discriminate].
  cbn [andb]. intros [= <-]. repeat split; assumption || reflexivity.
Qed.

Lemma loaded_some (f : Files) (p : string) (c : Creds) :
  (if path_exists f p then pickle_load f p else Ok None) = Ok (Some c) ->
  path_exists f p = true /\ pickle_load f p = Ok (Some c).
Proof. destruct (path_exists f p); [by intros ->|discriminate]. Qed.

(** Valid credentials in the token file are used as they are. *)
Lemma authenticate_cached (config : Settings) (h : Host) (c : Creds) :
  let p := google_token_file config in
  path_exists (files h) p = true ->
  pickle_load (files h) p = Ok (Some c) ->
  creds_valid c = true ->
  GoogleConnection._authenticate config h
  = (build (Some c), mkHost (files h) (steps h ++ [StepLoad p; StepBuild (Some c)])).
Proof.
  cbv zeta. intros He Hl Hv. rewrite authenticate_run. cbv zeta.
  rewrite He, Hl. cbn [GoogleConnection.needs_login]. rewrite Hv. reflexivity.
Qed.

(** Where the credentials given to [build] come from. *)
Lemma authenticate_service_credentials_aux (config : Settings) (h : Host) :
  let p := google_token_file config in
  let out := GoogleConnection._authenticate config h in
  exists t,
    steps out.2 = steps h ++ t
    /\ (forall g, out.1 = Ok g -> exists c, StepBuild c ∈ t)
    /\ forall c, StepBuild c ∈ t ->
         out.1 = build c
         /\ exists c0,
              c = Some c0
              /\ ((creds_valid c0 = true
                   /\ path_exists (files h) p = true
                   /\ pickle_load (files h) p = Ok (Some c0)
                   /\ files out.2 = files h
                   /\ t = [StepLoad p; StepBuild c])
                  \/ (exists t0,
                        t = t0 ++ [StepDump p c0; StepBuild c]
                        /\ pickle_dump (files h) p c0 = (Ok tt, files out.2))).
Proof.
  cbv zeta. rewrite authenticate_run. cbv zeta.
  set (p := google_token_file config). set (f := files h).
  set (pre := if path_exists f p then [StepLoad p] else []).
  assert (Hpre : forall c, StepBuild c ∈ pre -> False).
  { intros c H. unfold pre in H. destruct (path_exists f p); step_in H. }
  assert (Hfin : forall (t0 : list Step) (c' : Creds),
            (forall c, StepBuild c ∈ t0 -> False) ->
            let out :=
              match pickle_dump f p c' with
              | (Raise e, f') =>
                  (Raise e, mkHost f' (steps h ++ pre ++ t0 ++ [StepDump p c']))
              | (Ok _, f') =>
                  (build (Some c'),
                   mkHost f' (steps h ++ pre ++ t0
                              ++ [StepDump p c'; StepBuild (Some c')]))
              end in
            exists t,
              steps out.2 = steps h ++ t
              /\ (forall g, out.1 = Ok g -> exists c, StepBuild c ∈ t)
              /\ forall c, StepBuild c ∈ t ->
                   out.1 = build c
                   /\ exists c0,
                        c = Some c0
                        /\ ((creds_valid c0 = true
                             /\ path_exists f p = true
                             /\ pickle_load f p = Ok (Some c0)
                             /\ files out.2 = f
                             /\ t = [StepLoad p; StepBuild c])
                            \/ (exists t1,
                                  t = t1 ++ [StepDump p c0; StepBuild c]
                                  /\ pickle_dump f p c0 = (Ok tt, files out.2)))).
  { intros t0 c' Ht0. cbv zeta.
    destruct (pickle_dump f p c') as [[e|[]] f'] eqn:Hd; cbn [fst snd files steps].
    - exists (pre ++ t0 ++ [StepDump p c']). split; [reflexivity|].
      split; [discriminate|]. intros c H. step_in H.
      + destruct (Hpre _ H).
      + destruct (Ht0 _ H).
    - exists (pre ++ t0 ++ [StepDump p c'; StepBuild (Some c')]).
      split; [reflexivity|]. split.
      + intros g _. exists (Some c').
        step_last.
      + intros c H. step_in H.
        * destruct (Hpre _ H).
        * destruct (Ht0 _ H).
        * injection H as ->. split; [reflexivity|]. exists c'.
          split; [reflexivity|]. right. exists (pre ++ t0).
          split; [by rewrite <- app_assoc|exact Hd]. }
  destruct (if path_exists f p then pickle_load f p else Ok None)
    as [e|creds] eqn:Hload.
  { exists pre. cbn [fst snd steps]. split; [reflexivity|].
    split; [discriminate|]. intros c H. destruct (Hpre _ H). }
  destruct (GoogleConnection.needs_login creds) eqn:Hneed.
  - destruct (GoogleConnection.refreshable creds) as [c1|].
    + destruct (creds_refresh c1) as [e|c'].
      * exists (pre ++ [StepRefresh c1]). cbn [fst snd steps].
        split; [reflexivity|]. split; [discriminate|].
        intros c H. step_in H. destruct (Hpre _ H).
      * apply Hfin. intros c H. step_in H.
    + destruct (from_client_secrets_file f _ _) as [e|flow].
      * eexists (pre ++ [_]). cbn [fst snd steps].
        split; [reflexivity|]. split; [discriminate|].
        intros c H. step_in H. destruct (Hpre _ H).
      * destruct (run_local_server flow) as [e|c'].
        -- eexists (pre ++ [_; _]). cbn [fst snd steps].
           split; [reflexivity|]. split; [discriminate|].
           intros c H. step_in H. destruct (Hpre _ H).
        -- apply Hfin. intros c H. step_in H.
  - apply needs_login_false in Hneed as (c0 & -> & Hv).
    apply loaded_some in Hload as [He Hl].
    exists (pre ++ [StepBuild (Some c0)]). cbn [fst snd steps files].
    split; [reflexivity|]. split.
    + intros g _. exists (Some c0). step_last.
    + intros c H. step_in H; [destruct (Hpre _ H)|].
      injection H as ->. split; [reflexivity|]. exists c0. split; [reflexivity|].
      left. unfold pre. rewrite He. done.
Qed.

(** X17. Whatever [_authenticate] returns, the service is only ever built
    from credentials that are in the token file at that moment: either the
    valid ones just read from it, in which case nothing was refreshed,
    nobody was asked to log in and the file was not written, or the ones
    written to it in the step before. [build] is never called with
    [None], and a call that returns a service has called [build]. *)
Theorem authenticate_service_credentials (config : Settings) (h : Host) :
  let p := google_token_file config in
  let out := GoogleConnection._authenticate config h in
  exists t,
    steps out.2 = steps h ++ t
    /\ (forall g, out.1 = Ok g -> exists c, StepBuild c ∈ t)
    /\ forall c, StepBuild c ∈ t ->
         out.1 = build c
         /\ exists c0,
              c = Some c0
              /\ ((creds_valid c0 = true
                   /\ path_exists (files h) p = true
                   /\ pickle_load (files h) p = Ok (Some c0)
                   /\ files out.2 = files h
                   /\ t = [StepLoad p; StepBuild c])
                  \/ (exists t0,
                        t = t0 ++ [StepDump p c0; StepBuild c]
                        /\ pickle_dump (files h) p c0 = (Ok tt, files out.2))).
Proof. exact (authenticate_service_credentials_aux config h). Qed.

(** X18. A refresh is attempted only on credentials read from the token
    file that are not valid, are expired and carry a non-empty refresh
    token. In such a call nobody is asked to log in, also when the refresh
    fails: the failure is raised as it is and the token file is left
    untouched. After a refresh that returns, the credentials are written
    to the token file without a second look at their validity. *)
Theorem authenticate_refresh_no_fallback (config : Settings) (h : Host) :
  let p := google_token_file config in
  let out := GoogleConnection._authenticate config h in
  exists t,
    steps out.2 = steps h ++ t
    /\ forall c, StepRefresh c ∈ t ->
         path_exists (files h) p = true
         /\ pickle_load (files h) p = Ok (Some c)
         /\ creds_valid c = false /\ creds_expired c = true
         /\ GoogleConnection.truthy (creds_refresh_token c) = true
         /\ (StepLocalServer ∉ t)
         /\ (forall cf sc, StepSecrets cf sc ∉ t)
         /\ (forall e, creds_refresh c = Raise e ->
               out = (Raise e,
                      mkHost (files h) (steps h ++ [StepLoad p; StepRefresh c])))
         /\ (forall c', creds_refresh c = Ok c' -> StepDump p c' ∈ t).
Proof.
  cbv zeta. rewrite authenticate_run. cbv zeta.
  set (p := google_token_file config). set (f := files h).
  set (pre := if path_exists f p then [StepLoad p] else []).
  assert (Hpre : forall s, s ∈ pre -> s = StepLoad p).
  { intros s H. unfold pre in H. destruct (path_exists f p); step_in H. done. }
  destruct (if path_exists f p then pickle_load f p else Ok None)
    as [e|creds] eqn:Hload.
  { exists pre. cbn [snd steps]. split; [reflexivity|].
    intros c H. by apply Hpre in H. }
  destruct (GoogleConnection.needs_login creds) eqn:Hneed.
  - destruct (GoogleConnection.refreshable creds) as [c1|] eqn:Hr.
    + apply refreshable_some in Hr as (-> & Hexp & Htok).
      apply loaded_some in Hload as [He Hl].
      cbn [GoogleConnection.needs_login] in Hneed.
      apply negb_true_iff in Hneed.
      assert (Hpre' : pre = [StepLoad p]) by (unfold pre; by rewrite He).
      destruct (creds_refresh c1) as [e|c'] eqn:Href.
      * exists (pre ++ [StepRefresh c1]). cbn [snd steps]. split; [reflexivity|].
        intros c H. step_in H; [by apply Hpre in H|]. injection H as ->.
        rewrite Href, Hpre'.
        repeat split; try assumption.
        -- intros H. step_in H.
        -- intros cf sc H. step_in H.
        -- by intros e' [= ->].
        -- discriminate.
      * destruct (pickle_dump f p c') as [[e|[]] f'] eqn:Hd.
        -- exists (pre ++ [StepRefresh c1] ++ [StepDump p c']).
           cbn [snd steps]. split; [reflexivity|].
           intros c H. step_in H; [by apply Hpre in H|]. injection H as ->.
           rewrite Href, Hpre'.
           repeat split; try assumption.
           ++ intros H. step_in H.
           ++ intros cf sc H. step_in H.
           ++ discriminate.
           ++ intros c'' [= <-]. step_last.
        -- exists (pre ++ [StepRefresh c1] ++ [StepDump p c'; StepBuild (Some c')]).
           cbn [snd steps]. split; [reflexivity|].
           intros c H. step_in H; [by apply Hpre in H|]. injection H as ->.
           rewrite Href, Hpre'.
           repeat split; try assumption.
           ++ intros H. step_in H.
           ++ intros cf sc H. step_in H.
           ++ discriminate.
           ++ intros c'' [= <-]. step_last.
    + destruct (from_client_secrets_file f _ _) as [e|flow].
      * eexists (pre ++ [_]). cbn [snd steps]. split; [reflexivity|].
        intros c H. step_in H. by apply Hpre in H.
      * destruct (run_local_server flow) as [e|c'].
        -- eexists (pre ++ [_; _]). cbn [snd steps]. split; [reflexivity|].
           intros c H. step_in H. by apply Hpre in H.
        -- destruct (pickle_dump f p c') as [[e|[]] f'].
           ++ eexists (pre ++ [_; _] ++ [_]). cbn [snd steps].
              split; [reflexivity|]. intros c H. step_in H. by apply Hpre in H.
           ++ eexists (pre ++ [_; _] ++ [_; _]). cbn [snd steps].
              split; [reflexivity|]. intros c H. step_in H. by apply Hpre in H.
  - eexists (pre ++ [_]). cbn [snd steps]. split; [reflexivity|].
    intros c H. step_in H. by apply Hpre in H.
Qed.

(** X19. Persistence of the credentials: after an [_authenticate] that
    returned a service, on a machine where a pickled object reads back as
    it was written and with valid credentials now in the token file, the
    next [_authenticate] reads the file, builds the service from those
    credentials and does nothing else: no refresh, no login, no write. *)
Theorem second_start_reuses_token (config : Settings) (h h1 : Host) (g : GStore) :
  let p := google_token_file config in
  GoogleConnection._authenticate config h = (Ok g, h1) ->
  (forall f c f', pickle_dump f p c = (Ok tt, f') ->
     path_exists f' p = true /\ pickle_load f' p = Ok (Some c)) ->
  (forall c, pickle_load (files h1) p = Ok (Some c) -> creds_valid c = true) ->
  exists c,
    build (Some c) = Ok g
    /\ GoogleConnection._authenticate config h1
       = (Ok g, mkHost (files h1) (steps h1 ++ [StepLoad p; StepBuild (Some c)])).
Proof.
  cbv zeta. intros Hrun Hlaw Hvalid.
  destruct (authenticate_service_credentials_aux config h) as (t & Ht & Hb & Hc).
  rewrite Hrun in Ht, Hb, Hc. cbn [fst snd] in Ht, Hb, Hc.
  destruct (Hb g eq_refl) as [c Hin].
  destruct (Hc c Hin) as (Hg & c0 & -> & [(Hv & He & Hl & Hf & _)|(t0 & _ & Hd)]).
  - exists c0. split; [done|]. rewrite Hg.
    apply authenticate_cached; rewrite ?Hf; assumption.
  - exists c0. split; [done|]. rewrite Hg.
    destruct (Hlaw _ _ _ Hd) as [He Hl].
    apply authenticate_cached; try assumption. by apply Hvalid.
Qed.

End Authenticate.
(** ** [main] *)

Section Main.
Context {env : Environment} {platform : Platform}.
Variable convert_iso_timezone : option string -> Z -> res string.

(** X20. When the CalDAV account answers and none of its calendars has the
    configured name, [main] raises ValueError ["Calendar named <name> not
    found."] after the two CalDAV calls: the token file is not read, no
    OAuth call is made, the limits are not computed and [sync] is not
    reached. *)
Theorem calendar_not_found_stops_main (config : Settings) (now : DateTime.t)
    (h : Host) (principal : Principal) (calendars : list Calendar) :
  let url := "https://caldav.yandex.ru" in
  let n := yandex_calname (core config) in
  dav_principal url (yandex_username config) (yandex_password config)
  = Ok principal ->
  principal_calendars principal = Ok calendars ->
  (forall c, c ∈ calendars -> cal_name c <> Some n) ->
  Program.main convert_iso_timezone config now h
  = (Raise (ValueError ("Calendar named " +:+ n +:+ " not found.")),
     mkHost (files h)
       (steps h ++ [StepPrincipal url (yandex_username config) (yandex_password config);
                    StepCalendars]),
     None).
Proof.
  cbv zeta. intros Hp Hc Hnone.
  unfold Program.main, Program.construct, hbind at 1.
  unfold YandexConnection.__init__, hbind at 1, remote_principal, call.
  rewrite Hp. cbn [files steps].
  unfold YandexConnection._get_calendar_by_name, hbind, remote_calendars, call, hlift.
  rewrite Hc. cbn [files steps].
  rewrite (proj2 (find_calendar_raise calendars _ _) (conj eq_refl Hnone)).
  by rewrite <- app_assoc.
Qed.

(** X21. The limits are computed last. With both clients constructed, day
    counts that do not fit (see [init_succeeds_iff]) make [main] raise
    OverflowError without reaching [sync], and the host is then the one
    that authentication left: a token file written on the way stays
    written. *)
Theorem overflow_after_connections (config : Settings) (now : DateTime.t)
    (h h1 h2 : Host) (cal : Calendar) (g : GStore) :
  let today := Date.toordinal (DateTime.date_of now) in
  YandexConnection.__init__ config h = (Ok cal, h1) ->
  GoogleConnection.__init__ config h1 = (Ok g, h2) ->
  ~ (Z.abs (past_days (core config)) <= 999999999
     /\ 0 < today - past_days (core config) <= Date.MAXORDINAL
     /\ Z.abs (future_days (core config)) <= 999999999
     /\ 0 < today + future_days (core config) <= Date.MAXORDINAL) ->
  exists msg,
    Program.main convert_iso_timezone config now h
    = (Raise (OverflowError msg), h2, None).
Proof.
  cbv zeta. intros Hy Hg Hbad.
  unfold Program.main, Program.construct, hbind. rewrite Hy, Hg. unfold hlift.
  destruct (init_outcome_aux now (core config)) as [Hok Hraise].
  destruct (CalendarSyncManager.__init__ now (core config)) as [e|self] eqn:Hinit.
  - destruct (Hraise e eq_refl) as [msg ->]. by exists msg.
  - exfalso. apply Hbad. apply Hok. by exists self.
Qed.

End Main.
(** ** The further properties at concrete inputs *)

(** "Release" starts an hour before the window of [Sample.manager] opens:
    skipped. *)
Lemma google_add_event_closed_window_witness :
  let w := Ref.world [] [] in
  let tl := CalendarSyncManager.time_limit Sample.manager in
  let tlf := CalendarSyncManager.time_limit_future Sample.manager in
  GoogleCalendarClient.add_event (CalendarSyncManager.config Sample.manager)
    Sample.ev_release tl tlf w
  = (Ok tt,
     log w [CallGoogleAdd Sample.ev_release tl tlf;
            Print (LineSkipped (Some "Release") Cases.release_start)]).
Proof.
  refine (eq_trans
            (google_add_event_closed_window Sample.now Sample.config Sample.manager
               Sample.ev_release Cases.release_start (Ref.world [] [])
               window_2024_06_15 _ _) _); vm_refl.
Defined.

Lemma google_add_event_naive_start_witness :
  let w := Ref.world [] [] in
  let tl := CalendarSyncManager.time_limit Sample.manager in
  let tlf := CalendarSyncManager.time_limit_future Sample.manager in
  GoogleCalendarClient.add_event (CalendarSyncManager.config Sample.manager)
    Cases.ev_floating tl tlf w
  = (Raise (TypeError "can't compare offset-naive and offset-aware datetimes"),
     log w [CallGoogleAdd Cases.ev_floating tl tlf]).
Proof.
  apply (google_add_event_naive_start Sample.now Sample.config Sample.manager
           Cases.ev_floating Cases.floating_start (Ref.world [] []));
    [exact window_2024_06_15|vm_refl|vm_refl].
Defined.

Lemma yandex_record_parses_back_witness :
  exists ds de,
    DateTime.fromisoformat (start Sample.ev_meeting) = Ok ds
    /\ DateTime.fromisoformat (end_ Sample.ev_meeting) = Ok de
    /\ DateTime.tzinfo ds = Some DateTime.utc
    /\ DateTime.tzinfo de = Some DateTime.utc
    /\ instant ds = instant (DateTime.mk (Date.mk 2024 6 20) 10 0 0 0 Sample.msk)
    /\ instant de = instant (DateTime.mk (Date.mk 2024 6 20) 11 0 0 0 Sample.msk).
Proof.
  apply (yandex_record_parses_back Sample.vevent_meeting Scenario.key_meeting
           Sample.ev_meeting); vm_refl.
Defined.

(** "Meeting" starts inside the window of [Sample.manager]: inserted. *)
Lemma yandex_record_to_google_witness :
  let w := Ref.world [] [] in
  let tl := CalendarSyncManager.time_limit Sample.manager in
  let tlf := CalendarSyncManager.time_limit_future Sample.manager in
  let body :=
    mkGBody (Some "Meeting") "" "2024-06-20T07:00:00+00:00" "UTC"
            "2024-06-20T08:00:00+00:00" "UTC" in
  exists ds,
    YandexCalendarClient.ensure_utc
      (DtDateTime (DateTime.mk (Date.mk 2024 6 20) 10 0 0 0 Sample.msk)) = Ok ds
    /\ GoogleCalendarClient.add_event (CalendarSyncManager.config Sample.manager)
         Sample.ev_meeting tl tlf w
       = (Ok tt,
          mkWorld (env := Ref.environment) (Ref.mkY true [])
            (Ref.mkG true [Ref.inserted body]) 0
            [CallGoogleAdd Sample.ev_meeting tl tlf; EventsInsert "primary" body]).
Proof.
  cbv zeta.
  destruct (yandex_record_to_google Sample.now Sample.config Sample.manager
              Sample.vevent_meeting Scenario.key_meeting Sample.ev_meeting
              (DateTime.mk (Date.mk 2024 6 20) 10 0 0 0 Sample.msk)
              (DateTime.mk (Date.mk 2024 6 20) 11 0 0 0 Sample.msk)
              (Ref.world [] []) window_2024_06_15)
    as (ds & Hds & Hrun); try vm_refl.
  exists ds. split; [exact Hds|]. refine (eq_trans Hrun _). vm_refl.
Defined.

Lemma window_span_witness :
  instant (CalendarSyncManager.time_limit_future Sample.manager)
  - instant (CalendarSyncManager.time_limit Sample.manager)
  = (past_days Sample.config + future_days Sample.config + 1) * DateTime.US_PER_DAY - 1
  /\ (DateTime.valid Sample.now = true ->
      DateTime.tzinfo Sample.now = Some DateTime.utc ->
      0 <= past_days Sample.config -> 0 <= future_days Sample.config ->
      within Sample.manager Sample.now = true).
Proof.
  exact (window_span Sample.now Sample.config Sample.manager window_2024_06_15).
Defined.

Lemma window_inverted :
  CalendarSyncManager.__init__ Sample.now Cases.config_inverted
  = Ok Cases.manager_inverted.
Proof. reflexivity. Qed.

(** "Meeting" and a window whose floor is 2024-06-18 and whose ceiling is
    2024-06-16. *)
Lemma inverted_window_skips_all_witness :
  let w := Ref.world [] [] in
  let tl := CalendarSyncManager.time_limit Cases.manager_inverted in
  let tlf := CalendarSyncManager.time_limit_future Cases.manager_inverted in
  instant tlf < instant tl
  /\ GoogleCalendarClient.add_event (CalendarSyncManager.config Cases.manager_inverted)
       Sample.ev_meeting tl tlf w
     = (Ok tt,
        log w [CallGoogleAdd Sample.ev_meeting tl tlf;
               Print (LineSkipped (name Sample.ev_meeting) Cases.meeting_start)]).
Proof.
  apply (inverted_window_skips_all Sample.now Cases.config_inverted
           Cases.manager_inverted Sample.ev_meeting Cases.meeting_start
           (Ref.world [] []));
    [exact window_inverted|reflexivity|vm_refl|vm_refl].
Defined.
(** Two components with one key, found by one search. *)
Lemma yandex_get_events_map_witness :
  let w := Ref.world [[Sample.vevent_meeting; Sample.vevent_meeting_longer]] [] in
  let s := Scenario.time_limit in
  let e := Scenario.time_limit_future in
  let m : gmap string EventData := {[ Scenario.key_meeting := Sample.ev_meeting_longer ]} in
  log w [CalSearch s e] = log w [CalSearch s e]
  /\ exists events,
       calendar_search (yandex w) s e = Ok events
       /\ (forall k, is_Some (m !! k)
             <-> exists c r, c ∈ concat events
                   /\ YandexCalendarClient.entry c = Ok (k, r))
       /\ (forall pre c post k r,
             concat events = pre ++ c :: post ->
             YandexCalendarClient.entry c = Ok (k, r) ->
             (forall c' k' r', c' ∈ post ->
                YandexCalendarClient.entry c' = Ok (k', r') -> k' <> k) ->
             m !! k = Some r)
       /\ (size m <= length (concat events))%nat.
Proof.
  apply (yandex_get_events_map Scenario.time_limit Scenario.time_limit_future
           (Ref.world [[Sample.vevent_meeting; Sample.vevent_meeting_longer]] [])).
  vm_refl.
Defined.

Lemma google_get_events_map_witness :
  let w := Ref.world [] [Sample.gitem_untitled] in
  let s := Scenario.time_limit in
  let e := Scenario.time_limit_future in
  let m : gmap string EventData := {[ Scenario.key_untitled := Sample.ev_untitled ]} in
  let entry := GoogleCalendarClient.entry convert_iso_timezone_spec in
  let listing :=
    EventsList (google_calname Sample.config)
      (DateTime.isoformat_seconds s) (DateTime.isoformat_seconds e) in
  log w [listing] = log w [listing]
  /\ exists events_result,
       events_list (google w) (google_calname Sample.config)
         (DateTime.isoformat_seconds s) (DateTime.isoformat_seconds e)
       = Ok events_result
       /\ let items := default [] events_result in
          (forall k, is_Some (m !! k)
             <-> exists it r, it ∈ items /\ entry it = Ok (k, r))
          /\ (forall pre it post k r,
                items = pre ++ it :: post ->
                entry it = Ok (k, r) ->
                (forall it' k' r', it' ∈ post -> entry it' = Ok (k', r') -> k' <> k) ->
                m !! k = Some r)
          /\ (size m <= length items)%nat.
Proof.
  apply (google_get_events_map convert_iso_timezone_spec Sample.config
           Scenario.time_limit Scenario.time_limit_future
           (Ref.world [] [Sample.gitem_untitled])).
  vm_refl.
Defined.

(** An all-day entry in the Yandex calendar, a meeting waiting in Google. *)
Lemma malformed_component_aborts_sync_witness :
  let w := Ref.world [[Cases.vevent_all_day]] [Sample.gitem_untitled] in
  exists x,
    CalendarSyncManager.sync convert_iso_timezone_spec Sample.manager w
    = (Raise x, log w [CalSearch Scenario.time_limit Scenario.time_limit_future])
    /\ ((exists msg, x = AttributeError msg) \/ (exists msg, x = OverflowError msg)).
Proof.
  apply (malformed_component_aborts_sync convert_iso_timezone_spec Sample.manager
           (Ref.world [[Cases.vevent_all_day]] [Sample.gitem_untitled])
           [[Cases.vevent_all_day]] Cases.vevent_all_day);
    [vm_refl|apply list_elem_of_here|reflexivity].
Defined.

(** "Meeting" and "Meeting" with another end: one key. *)
Lemma yandex_key_identity_witness :
  Scenario.key_meeting = Scenario.key_meeting
  <-> summary Sample.vevent_meeting = summary Sample.vevent_meeting_longer
      /\ instant (DateTime.mk (Date.mk 2024 6 20) 10 0 0 0 Sample.msk)
         = instant (DateTime.mk (Date.mk 2024 6 20) 10 0 0 0 Sample.msk).
Proof.
  apply (yandex_key_identity Sample.vevent_meeting Sample.vevent_meeting_longer
           Scenario.key_meeting Scenario.key_meeting
           Sample.ev_meeting Sample.ev_meeting_longer); vm_refl.
Defined.

(** A first start without a token file, then a second start. *)
Lemma second_start_reuses_token_witness :
  exists c,
    build (Platform := Cases.platform) (Some c) = Ok Cases.google
    /\ GoogleConnection._authenticate Cases.settings Cases.after_login
       = (Ok Cases.google,
          mkHost (files Cases.after_login)
            (steps Cases.after_login
             ++ [StepLoad "token.pickle"; StepBuild (Some c)])).
Proof.
  apply (second_start_reuses_token (platform := Cases.platform)
           Cases.settings Cases.fresh Cases.after_login Cases.google).
  - reflexivity.
  - intros f c f' [= <-]. split; reflexivity.
  - intros c [= <-]. reflexivity.
Defined.

(** The account has a calendar "home" only; "work" is asked for. *)
Lemma calendar_not_found_stops_main_witness :
  Program.main (platform := Cases.platform_home_only) convert_iso_timezone_spec
    Cases.settings Sample.now Cases.fresh_home_only
  = (Raise (ValueError "Calendar named work not found."),
     Cases.after_caldav_home_only, None).
Proof.
  apply (calendar_not_found_stops_main (platform := Cases.platform_home_only)
           convert_iso_timezone_spec Cases.settings Sample.now
           Cases.fresh_home_only tt [Cases.calendar_home]);
    [reflexivity|reflexivity|].
  intros c Hc. apply list_elem_of_singleton in Hc as ->. discriminate.
Defined.

(** 800000 days back from 2024-06-15 is before 0001-01-01. *)
Lemma overflow_after_connections_witness :
  exists msg,
    Program.main (platform := Cases.platform) convert_iso_timezone_spec
      Cases.settings_far_past Sample.now Cases.fresh
    = (Raise (OverflowError msg), Cases.after_both, None).
Proof.
  apply (overflow_after_connections (platform := Cases.platform)
           convert_iso_timezone_spec Cases.settings_far_past Sample.now
           Cases.fresh Cases.after_caldav Cases.after_both
           Cases.calendar_work Cases.google); [reflexivity|reflexivity|].
  intros (_ & [H _] & _). vm_compute in H. discriminate H.
Defined.
(** ** The Yandex write *)

Section YandexWrite.
Context {env : Environment}.

(** X22. A record whose [start] and [end] texts are the ISO texts of two
    valid UTC datetimes: [YandexCalendarClient.add_event] never raises on
    its own account; it draws one uid and sends one VEVENT that carries
    the name, the description and the two datetimes cut to whole seconds,
    the serialisation leaving the microseconds out; these are the two
    datetimes themselves when they have no microseconds. Its outcome is
    that of the remote call. *)
Theorem yandex_add_event_sends_instants (ev : EventData) (ds de : DateTime.t)
    (w : World) :
  DateTime.valid ds = true -> DateTime.tzinfo ds = Some DateTime.utc ->
  DateTime.valid de = true -> DateTime.tzinfo de = Some DateTime.utc ->
  start ev = DateTime.isoformat ds -> end_ ev = DateTime.isoformat de ->
  let ics :=
    mkICalEvent (rng w) (name ev) (description ev)
      (DateTime.replace_microsecond ds 0) (DateTime.replace_microsecond de 0) in
  let t := [CallYandexAdd ev; CalAddEvent ics] in
  YandexCalendarClient.add_event ev w
  = match calendar_add_event (yandex w) ics with
    | Raise e => (Raise e, mkWorld (yandex w) (google w) (S (rng w)) (trace w ++ t))
    | Ok y' => (Ok tt, mkWorld y' (google w) (S (rng w)) (trace w ++ t))
    end
  /\ (DateTime.microsecond ds = 0 -> i_dtstart ics = ds)
  /\ (DateTime.microsecond de = 0 -> i_dtend ics = de).
Proof.
  intros Vs Ts Ve Te Hs He. cbv zeta. split; [|split].
  - rewrite yandex_add_event_run. cbv zeta. rewrite Hs, He.
    rewrite (fromisoformat_isoformat_utc ds Vs Ts).
    rewrite (fromisoformat_isoformat_utc de Ve Te).
    reflexivity.
  - cbn [i_dtstart]. destruct ds. cbn. by intros ->.
  - cbn [i_dtend]. destruct de. cbn. by intros ->.
Qed.

End YandexWrite.

(** A record with microseconds 1 and 999999: the VEVENT sent has none. *)
Lemma yandex_add_event_sends_instants_witness :
  let w := Ref.world [] [] in
  let ics :=
    mkICalEvent 0 (Some "Blink") ""
      (DateTime.mk (Date.mk 2024 6 20) 7 0 0 0 (Some DateTime.utc))
      (DateTime.mk (Date.mk 2024 6 20) 8 0 0 0 (Some DateTime.utc)) in
  YandexCalendarClient.add_event Cases.ev_subsecond w
  = (Ok tt,
     mkWorld (env := Ref.environment) (Ref.mkY true [[Ref.stored ics]])
       (Ref.mkG true []) 1 [CallYandexAdd Cases.ev_subsecond; CalAddEvent ics]).
Proof.
  destruct (yandex_add_event_sends_instants Cases.ev_subsecond
              (DateTime.mk (Date.mk 2024 6 20) 7 0 0 1 (Some DateTime.utc))
              (DateTime.mk (Date.mk 2024 6 20) 8 0 0 999999 (Some DateTime.utc))
              (Ref.world [] [])) as [H _]; try vm_refl.
  refine (eq_trans H _). vm_refl.
Defined.


(* ===================================================================== *)
(** * Part 8: two runs in a row *)
(* ===================================================================== *)

(** ** Datetimes in UTC, cut to whole seconds *)

Lemma toordinal_bounds (d : Date.t) :
  Date.valid d = true -> 1 <= Date.toordinal d <= Date.MAXORDINAL.
Proof.
  destruct d as [y m dd].
  unfold Date.valid, Date.toordinal, Date.ymd2ord, Date.days_before_month,
    Date.days_in_month, Date.MINYEAR, Date.MAXYEAR.
  cbn [Date.year Date.month Date.day].
  rewrite !andb_true_iff, !Z.leb_le. intros [[[[[Hy1 Hy2] Hm1] Hm2] Hd1] Hd2].
  pose proof (day_of_year_bounds (Date.is_leap y) m dd (conj Hm1 Hm2) (conj Hd1 Hd2))
    as Hdoy.
  pose proof (days_before_year_mono 1 y Hy1) as Hlo.
  assert (H1 : Date.days_before_year 1 = 0) by reflexivity.
  pose proof (days_before_year_succ y) as Hsucc.
  pose proof (days_before_year_mono (y + 1) 10000 ltac:(lia)) as Hhi.
  assert (H2 : Date.days_before_year 10000 = 3652059) by reflexivity.
  assert (Hmax : Date.MAXORDINAL = 3652059) by reflexivity.
  destruct (Date.is_leap y); lia.
Qed.

Lemma utc_representable_utc (d : DateTime.t) :
  DateTime.valid d = true -> DateTime.tzinfo d = Some DateTime.utc ->
  utc_representable d = true.
Proof.
  intros V T. unfold utc_representable. rewrite T. cbv zeta.
  assert (Hq : (DateTime.wall_us d - DateTime.utc) / DateTime.US_PER_DAY
               = Date.toordinal (DateTime.date d)).
  { rewrite wall_us_split.
    unfold DateTime.valid in V. apply andb_true_iff in V as [V _].
    apply andb_true_iff in V as [_ Vt]. apply time_of_day_bounds in Vt.
    assert (Hday : DateTime.US_PER_DAY = 86400000000) by reflexivity.
    rewrite Hday. unfold DateTime.utc.
    symmetry. apply (Z.div_unique_pos _ _ _
      (((DateTime.hour d * 60 + DateTime.minute d) * 60 + DateTime.second d) * 1000000
       + DateTime.microsecond d)); lia. }
  rewrite Hq.
  unfold DateTime.valid in V. apply andb_true_iff in V as [V _].
  apply andb_true_iff in V as [Vd _]. apply toordinal_bounds in Vd.
  apply andb_true_iff. rewrite Z.ltb_lt, Z.leb_le. lia.
Qed.

(** A valid UTC datetime is its own UTC rendering. *)
Lemma ensure_utc_id (d : DateTime.t) :
  DateTime.valid d = true -> DateTime.tzinfo d = Some DateTime.utc ->
  YandexCalendarClient.ensure_utc (DtDateTime d) = Ok d.
Proof.
  intros V T.
  destruct (ensure_utc_total d (utc_representable_utc d V T)) as (d' & Hd' & Heq).
  rewrite Hd'. f_equal.
  destruct (ensure_utc_valid _ _ Hd' V) as [V' T'].
  apply utc_instant_inj; try assumption.
  by apply utc_equivalent_instant.
Qed.

Lemma valid_microsecond (d : DateTime.t) :
  DateTime.valid d = true -> 0 <= DateTime.microsecond d <= 999999.
Proof.
  unfold DateTime.valid, DateTime.valid_time.
  rewrite !andb_true_iff, !Z.leb_le. intuition lia.
Qed.

Lemma replace_microsecond_id (d : DateTime.t) :
  DateTime.microsecond d = 0 -> DateTime.replace_microsecond d 0 = d.
Proof. destruct d. cbn. by intros ->. Qed.

Lemma replace_microsecond_valid (d : DateTime.t) :
  DateTime.valid d = true -> DateTime.valid (DateTime.replace_microsecond d 0) = true.
Proof.
  unfold DateTime.valid, DateTime.replace_microsecond, DateTime.valid_time.
  cbn [DateTime.date DateTime.hour DateTime.minute DateTime.second
       DateTime.microsecond DateTime.tzinfo].
  rewrite !andb_true_iff, !Z.leb_le. intuition lia.
Qed.

Lemma replace_microsecond_instant (d : DateTime.t) :
  instant (DateTime.replace_microsecond d 0) = instant d - DateTime.microsecond d.
Proof.
  unfold instant, DateTime.instant_us. rewrite !wall_us_split.
  unfold DateTime.replace_microsecond.
  cbn [DateTime.date DateTime.hour DateTime.minute DateTime.second
       DateTime.microsecond DateTime.tzinfo].
  lia.
Qed.

(** [isoformat(timespec="seconds")] prints the datetime cut to whole
    seconds. *)
Lemma isoformat_seconds_cut (d : DateTime.t) :
  DateTime.isoformat_seconds d
  = DateTime.isoformat (DateTime.replace_microsecond d 0).
Proof. reflexivity. Qed.

Lemma fromisoformat_isoformat_seconds (d : DateTime.t) :
  DateTime.valid d = true -> DateTime.tzinfo d = Some DateTime.utc ->
  DateTime.fromisoformat (DateTime.isoformat_seconds d)
  = Ok (DateTime.replace_microsecond d 0).
Proof.
  intros V T. rewrite isoformat_seconds_cut.
  apply fromisoformat_isoformat_utc; [by apply replace_microsecond_valid|exact T].
Qed.

Lemma canonical_spec (s : string) (d : DateTime.t) :
  canonical s = Some d ->
  DateTime.fromisoformat s = Ok d /\ DateTime.valid d = true
  /\ DateTime.tzinfo d = Some DateTime.utc /\ s = DateTime.isoformat d.
Proof.
  unfold canonical. destruct (DateTime.fromisoformat s) as [|d'] eqn:Hp; [discriminate|].
  destruct (DateTime.tzinfo d') as [off|] eqn:Ht; [|discriminate].
  destruct (Z.eqb_spec off DateTime.utc) as [->|]; [|discriminate].
  destruct (String.eqb_spec (DateTime.isoformat d') s) as [Hs|]; [|discriminate].
  cbn [andb]. intros [= <-].
  repeat split; try done. by apply fromisoformat_valid in Hp.
Qed.

Lemma canonical_isoformat (d : DateTime.t) :
  DateTime.valid d = true -> DateTime.tzinfo d = Some DateTime.utc ->
  canonical (DateTime.isoformat d) = Some d.
Proof.
  intros V T. unfold canonical. rewrite (fromisoformat_isoformat_utc d V T), T.
  by rewrite Z.eqb_refl, String.eqb_refl.
Qed.

(** The reference providers read a datetime value as its instant. *)
Lemma instant_of_datetime (d : DateTime.t) : Ref.instant_of (DtDateTime d) = instant d.
Proof. reflexivity. Qed.

(** ** What was written comes back under its key *)

Lemma canonical_aware (s : string) (d : DateTime.t) :
  canonical s = Some d -> aware d = true.
Proof.
  intros H. apply canonical_spec in H as (_ & _ & T & _).
  unfold aware. by rewrite T.
Qed.

(** The VEVENT that Yandex keeps for a record with UTC datetimes is read
    back under the key of the record made from the start cut to whole
    seconds. *)
Lemma stored_entry (u : nat) (n : option string) (desc : string)
    (ds de : DateTime.t) :
  DateTime.valid ds = true -> DateTime.tzinfo ds = Some DateTime.utc ->
  DateTime.valid de = true -> DateTime.tzinfo de = Some DateTime.utc ->
  YandexCalendarClient.entry (Ref.stored (to_ical (mkICalEvent u n desc ds de)))
  = Ok (event_key n (DateTime.isoformat (DateTime.replace_microsecond ds 0)),
        mkEventData (Some (py_str n)) desc
          (DateTime.isoformat (DateTime.replace_microsecond ds 0))
          (DateTime.isoformat (DateTime.replace_microsecond de 0))).
Proof.
  intros Vs Ts Ve Te.
  unfold YandexCalendarClient.entry, Ref.stored, to_ical, YandexCalendarClient.dt_of.
  cbn [summary vdescription dtstart dtend i_summary i_description i_dtstart i_dtend
       res_bind default].
  rewrite (ensure_utc_id (DateTime.replace_microsecond ds 0))
    by (try (by apply replace_microsecond_valid); exact Ts).
  rewrite (ensure_utc_id (DateTime.replace_microsecond de 0))
    by (try (by apply replace_microsecond_valid); exact Te).
  reflexivity.
Qed.

Lemma stored_overlaps (s e : DateTime.t) (u : nat) (n : option string)
    (desc : string) (ds de : DateTime.t) :
  Ref.overlaps s e (Ref.stored (to_ical (mkICalEvent u n desc ds de)))
  = (instant (DateTime.replace_microsecond ds 0) <? instant e)
    && (instant s <? instant (DateTime.replace_microsecond de 0)).
Proof.
  unfold Ref.overlaps, Ref.stored, to_ical.
  cbn [dtstart dtend i_dtstart i_dtend default].
  by rewrite !instant_of_datetime.
Qed.

Lemma concat_snoc {A} (xs : list (list A)) (x : list A) :
  concat (xs ++ [x]) = concat xs ++ x.
Proof. rewrite concat_app. cbn [concat]. by rewrite app_nil_r. Qed.

Section Returns.
Context {env : Environment}.
Variable self : CalendarSyncManager.t.
Hypothesis appends : keeps_appends.

(** One call of [YandexCalendarClient.add_event] that returned, on a
    record that comes back: the next fetch from Yandex has the key of the
    record beside what it had; Google is not touched. *)
Lemma yandex_add_returns (ev : EventData) (w w' : World)
    (m : gmap string EventData) :
  returns_from_yandex self ev = true ->
  yandex_view self (yandex w) = Ok m ->
  YandexCalendarClient.add_event ev w = (Ok tt, w') ->
  google w' = google w
  /\ exists e', yandex_view self (yandex w')
                = Ok (<[event_key (name ev) (start ev) := e']> m).
Proof.
  unfold returns_from_yandex.
  destruct (canonical (start ev)) as [ds|] eqn:Cs; [|discriminate].
  destruct (canonical (end_ ev)) as [de|] eqn:Ce; [|discriminate].
  apply canonical_spec in Cs as (Ps & Vs & Ts & Es).
  apply canonical_spec in Ce as (Pe & Ve & Te & Ee).
  rewrite !andb_true_iff, Z.eqb_eq, !Z.ltb_lt. intros [[Hus Hlt] Hgt] Hm Hadd.
  rewrite yandex_add_event_run in Hadd. cbv zeta in Hadd. rewrite Ps, Pe in Hadd.
  destruct (calendar_add_event (yandex w) _) as [|y'] eqn:Hput; [discriminate|].
  injection Hadd as <-. cbn [google yandex]. split; [reflexivity|].
  unfold yandex_view in Hm |- *.
  destruct (calendar_search (yandex w) _ _) as [|found] eqn:Hfound; [discriminate|].
  cbn [res_bind] in Hm.
  rewrite (put_visible appends _ _ _ _ _ _ Hput Hfound).
  rewrite stored_overlaps, (replace_microsecond_id ds Hus).
  destruct (Z.ltb_spec (instant ds) (instant (CalendarSyncManager.time_limit_future self)))
    as [_|]; [|lia].
  destruct (Z.ltb_spec (instant (CalendarSyncManager.time_limit self))
              (instant (DateTime.replace_microsecond de 0))) as [_|]; [|lia].
  cbn [andb res_bind]. rewrite concat_snoc.
  rewrite (loop_app YandexCalendarClient.entry YandexCalendarClient.collect
             (fun _ => eq_refl) (fun _ _ _ => eq_refl)), Hm.
  cbn [res_bind YandexCalendarClient.collect].
  rewrite (stored_entry _ _ _ ds de Vs Ts Ve Te), (replace_microsecond_id ds Hus).
  cbn [res_bind]. rewrite <- Es. by eexists.
Qed.

(** The same along a loop of such calls. *)
Lemma yandex_loop_returns (evs : list EventData) :
  forall (w w' : World) (m : gmap string EventData),
    (forall ev, ev ∈ evs -> returns_from_yandex self ev = true) ->
    yandex_view self (yandex w) = Ok m ->
    for_each evs YandexCalendarClient.add_event w = (Ok tt, w') ->
    google w' = google w
    /\ exists m', yandex_view self (yandex w') = Ok m'
         /\ dom m' = dom m ∪ list_to_set ((fun ev => event_key (name ev) (start ev)) <$> evs).
Proof.
  induction evs as [|ev evs IH]; intros w w' m Hall Hm Hrun.
  - injection Hrun as <-. split; [reflexivity|]. exists m. split; [exact Hm|].
    cbn [fmap list_fmap list_to_set]. set_solver.
  - cbn [for_each] in Hrun. unfold bind in Hrun.
    destruct (YandexCalendarClient.add_event ev w) as [[x|[]] w1] eqn:Hadd;
      [discriminate|].
    destruct (yandex_add_returns ev w w1 m (Hall ev ltac:(left)) Hm Hadd)
      as (Hg1 & e' & Hm1).
    destruct (IH w1 w' _ (fun ev' H => Hall ev' ltac:(by right)) Hm1 Hrun)
      as (Hg2 & m' & Hm' & Hdom).
    split; [by rewrite Hg2|]. exists m'. split; [exact Hm'|].
    rewrite Hdom, dom_insert_L. cbn [fmap list_fmap list_to_set]. set_solver.
Qed.

Variable convert_iso_timezone : option string -> Z -> res string.
Hypothesis helper_canonical : keeps_canonical convert_iso_timezone.
Hypothesis limits :
  DateTime.valid (CalendarSyncManager.time_limit self) = true
  /\ DateTime.tzinfo (CalendarSyncManager.time_limit self) = Some DateTime.utc
  /\ DateTime.valid (CalendarSyncManager.time_limit_future self) = true
  /\ DateTime.tzinfo (CalendarSyncManager.time_limit_future self) = Some DateTime.utc.

(** The item that Google keeps for a record with UTC texts is read back
    under the key of the record. *)
Lemma inserted_entry (ev : EventData) (ds de : DateTime.t) :
  canonical (start ev) = Some ds -> canonical (end_ ev) = Some de ->
  GoogleCalendarClient.entry convert_iso_timezone
    (Ref.inserted (mkGBody (name ev) (description ev) (start ev) "UTC"
                           (end_ ev) "UTC"))
  = Ok (event_key (name ev) (start ev), ev).
Proof.
  intros Cs Ce.
  apply canonical_spec in Cs as (Ps & Vs & Ts & Es).
  apply canonical_spec in Ce as (Pe & Ve & Te & Ee).
  unfold GoogleCalendarClient.entry, Ref.inserted, GoogleCalendarClient.dateTime_of.
  cbn [g_summary g_description g_start g_end b_summary b_description
       b_start_dateTime b_end_dateTime dateTime default].
  pose proof (helper_canonical ds Vs Ts) as Hs. rewrite <- Es in Hs.
  pose proof (helper_canonical de Ve Te) as He. rewrite <- Ee in He.
  rewrite Hs, He. cbn [res_bind]. by destruct ev.
Qed.

Lemma inserted_listed (ev : EventData) (ds de : DateTime.t) :
  DateTime.fromisoformat (start ev) = Ok ds ->
  DateTime.fromisoformat (end_ ev) = Ok de ->
  Ref.listed (DateTime.isoformat_seconds (CalendarSyncManager.time_limit self))
             (DateTime.isoformat_seconds (CalendarSyncManager.time_limit_future self))
             (Ref.inserted (mkGBody (name ev) (description ev) (start ev) "UTC"
                                    (end_ ev) "UTC"))
  = (instant (DateTime.replace_microsecond (CalendarSyncManager.time_limit self) 0)
     <? instant de)
    && (instant ds
        <? instant (DateTime.replace_microsecond
                      (CalendarSyncManager.time_limit_future self) 0)).
Proof.
  intros Ps Pe. destruct limits as (V1 & T1 & V2 & T2).
  unfold Ref.listed, Ref.inserted, GoogleCalendarClient.dateTime_of, Ref.instant_of_text.
  cbn [g_start g_end b_start_dateTime b_end_dateTime dateTime].
  rewrite Ps, Pe.
  rewrite (fromisoformat_isoformat_seconds _ V1 T1),
          (fromisoformat_isoformat_seconds _ V2 T2).
  by rewrite !instant_of_datetime.
Qed.

(** One call of [GoogleCalendarClient.add_event] that returned, on a
    record that comes back: it was written, and the next listing has the
    key of the record beside what it had; Yandex is not touched. *)
Lemma google_add_returns (ev : EventData) (w w' : World)
    (m : gmap string EventData) :
  returns_from_google self ev = true ->
  google_view convert_iso_timezone self (google w) = Ok m ->
  GoogleCalendarClient.add_event (CalendarSyncManager.config self) ev
    (CalendarSyncManager.time_limit self)
    (CalendarSyncManager.time_limit_future self) w = (Ok tt, w') ->
  yandex w' = yandex w
  /\ google_view convert_iso_timezone self (google w')
     = Ok (<[event_key (name ev) (start ev) := ev]> m).
Proof.
  unfold returns_from_google.
  destruct (canonical (start ev)) as [ds|] eqn:Cs; [|discriminate].
  destruct (canonical (end_ ev)) as [de|] eqn:Ce; [|discriminate].
  pose proof (inserted_entry ev ds de Cs Ce) as Hentry.
  pose proof (canonical_aware _ _ Cs) as As.
  apply canonical_spec in Cs as (Ps & Vs & Ts & Es).
  apply canonical_spec in Ce as (Pe & Ve & Te & Ee).
  destruct limits as (V1 & T1 & V2 & T2).
  rewrite !andb_true_iff, Z.leb_le, !Z.ltb_lt. intros [[Hlo Hhi] Hend] Hm Hadd.
  assert (A1 : aware (CalendarSyncManager.time_limit self) = true)
    by (unfold aware; by rewrite T1).
  assert (A2 : aware (CalendarSyncManager.time_limit_future self) = true)
    by (unfold aware; by rewrite T2).
  rewrite (google_add_event_aware _ ev _ _ ds w V1 A1 V2 A2 Ps As) in Hadd.
  assert (Hcut : instant (DateTime.replace_microsecond
                            (CalendarSyncManager.time_limit_future self) 0)
                 <= instant (CalendarSyncManager.time_limit_future self)).
  { rewrite replace_microsecond_instant.
    pose proof (valid_microsecond _ V2). lia. }
  destruct (Z.leb_spec (instant (CalendarSyncManager.time_limit self)) (instant ds))
    as [_|]; [|lia].
  destruct (Z.leb_spec (instant ds)
              (instant (CalendarSyncManager.time_limit_future self))) as [_|]; [|lia].
  cbn [andb] in Hadd.
  destruct (events_insert (google w) _ _) as [|g'] eqn:Hins; [discriminate|].
  injection Hadd as <-. cbn [google yandex]. split; [reflexivity|].
  unfold google_view in Hm |- *.
  destruct (events_list (google w) _ _ _) as [|listed] eqn:Hlist; [discriminate|].
  cbn [res_bind] in Hm.
  rewrite (insert_visible appends _ _ _ _ _ _ _ Hins Hlist).
  rewrite (inserted_listed ev ds de Ps Pe).
  destruct (Z.ltb_spec
              (instant (DateTime.replace_microsecond
                          (CalendarSyncManager.time_limit self) 0)) (instant de))
    as [_|]; [|lia].
  destruct (Z.ltb_spec (instant ds)
              (instant (DateTime.replace_microsecond
                          (CalendarSyncManager.time_limit_future self) 0)))
    as [_|]; [|lia].
  cbn [andb res_bind]. simpl (default [] (Some _)).
  rewrite (loop_app (GoogleCalendarClient.entry convert_iso_timezone)
             (GoogleCalendarClient.collect convert_iso_timezone)
             (fun _ => eq_refl) (fun _ _ _ => eq_refl)), Hm.
  cbn [res_bind GoogleCalendarClient.collect]. rewrite Hentry. reflexivity.
Qed.

Lemma google_loop_returns (evs : list EventData) :
  forall (w w' : World) (m : gmap string EventData),
    (forall ev, ev ∈ evs -> returns_from_google self ev = true) ->
    google_view convert_iso_timezone self (google w) = Ok m ->
    for_each evs
      (fun event_data =>
         GoogleCalendarClient.add_event (CalendarSyncManager.config self)
           event_data (CalendarSyncManager.time_limit self)
           (CalendarSyncManager.time_limit_future self)) w = (Ok tt, w') ->
    yandex w' = yandex w
    /\ exists m', google_view convert_iso_timezone self (google w') = Ok m'
         /\ dom m' = dom m ∪ list_to_set ((fun ev => event_key (name ev) (start ev)) <$> evs).
Proof.
  induction evs as [|ev evs IH]; intros w w' m Hall Hm Hrun.
  - injection Hrun as <-. split; [reflexivity|]. exists m. split; [exact Hm|].
    cbn [fmap list_fmap list_to_set]. set_solver.
  - cbn [for_each] in Hrun. unfold bind in Hrun.
    destruct (GoogleCalendarClient.add_event _ ev _ _ w) as [[x|[]] w1] eqn:Hadd;
      [discriminate|].
    destruct (google_add_returns ev w w1 m (Hall ev ltac:(left)) Hm Hadd)
      as (Hy1 & Hm1).
    destruct (IH w1 w' _ (fun ev' H => Hall ev' ltac:(by right)) Hm1 Hrun)
      as (Hy2 & m' & Hm' & Hdom).
    split; [by rewrite Hy2|]. exists m'. split; [exact Hm'|].
    rewrite Hdom, dom_insert_L. cbn [fmap list_fmap list_to_set]. set_solver.
Qed.

End Returns.

(** The keys of the records of a set of keys are these keys. *)
Lemma keys_of_records (m : gmap string EventData) (X : gset string)
    (iter : list string) :
  keyed m -> (forall k, k ∈ iter <-> k ∈ X) -> X ⊆ dom m ->
  list_to_set ((fun ev => event_key (name ev) (start ev)) <$> omap (m !!.) iter) = X.
Proof.
  intros Hkeyed Hiter Hsub. apply set_eq. intros k.
  rewrite elem_of_list_to_set, list_elem_of_fmap. split.
  - intros (ev & -> & Hev). apply list_elem_of_omap in Hev as (k' & Hk' & Hm).
    rewrite <- (Hkeyed _ _ Hm). by apply Hiter.
  - intros Hk. destruct (proj1 (elem_of_dom m k) (Hsub k Hk)) as [ev Hm].
    exists ev. split; [by apply Hkeyed|].
    apply list_elem_of_omap. exists k. split; [by apply Hiter|exact Hm].
Qed.

(** ** The helper of the spec returns canonical texts as they are *)

Lemma convert_spec_keeps_canonical : keeps_canonical convert_iso_timezone_spec.
Proof.
  intros d V T. unfold convert_iso_timezone_spec.
  rewrite (fromisoformat_isoformat_utc d V T). cbn [res_bind].
  pose proof (ensure_utc_id d V T) as H. unfold YandexCalendarClient.ensure_utc in H.
  rewrite T in H |- *. by rewrite H.
Qed.

(** ** Two runs in a row, the first of which wrote *)

Section TwoRuns.
Context {env : Environment}.
Variable convert_iso_timezone : option string -> Z -> res string.
Variable self : CalendarSyncManager.t.

(** C1 (amended). Two runs of [sync] in immediate succession, nothing
    else touching the providers. Suppose that the providers keep what the
    first run appends and return it to a later fetch whose range it falls
    in, after what they returned before; that the helper returns the ISO
    text of a UTC datetime as it is; and that every record the first run
    finds missing comes back from the side it is written to under its key:
    a record missing in Yandex has ISO texts in UTC, a start in whole
    seconds that is before [time_limit_future], and an end that, cut to
    whole seconds, is after [time_limit]; a record missing in Google has
    ISO texts in UTC, a start that is not before [time_limit] (it is not
    skipped) and is before [timeMax], which is [time_limit_future] cut to
    whole seconds, and an end after [timeMin]. Then, the first run having
    returned, the second run fetches from each side the keys of both
    sides of the first run, finds both missing sets empty, returns, and
    performs no remote write. *)
Theorem second_run_idle_unless_skipped (now : DateTime.t) (cfg : Config)
    (w0 w1 : World) (y1 g1 : gmap string EventData) :
  keeps_appends ->
  keeps_canonical convert_iso_timezone ->
  CalendarSyncManager.__init__ now cfg = Ok self ->
  yandex_view self (yandex w0) = Ok y1 ->
  google_view convert_iso_timezone self (google w0) = Ok g1 ->
  CalendarSyncManager.sync convert_iso_timezone self w0 = (Ok tt, w1) ->
  (forall k ev, k ∈ CalendarSyncManager.yandex_missing_keys y1 g1 ->
     g1 !! k = Some ev -> returns_from_yandex self ev = true) ->
  (forall k ev, k ∈ CalendarSyncManager.google_missing_keys y1 g1 ->
     y1 !! k = Some ev -> returns_from_google self ev = true) ->
  exists (y2 g2 : gmap string EventData) (w2 : World),
    two_runs convert_iso_timezone self w0 w1 w2 y1 g1 y2 g2
    /\ dom y2 = dom y1 ∪ dom g1
    /\ dom g2 = dom y1 ∪ dom g1
    /\ second_run_idle w1 w2 y2 g2.
Proof.
  intros Happ Hhelper Hinit Hy1 Hg1 Hrun Hmy Hmg.
  pose proof (init_limits_valid _ _ _ Hinit) as Hlimits.
  pose proof (yandex_view_keyed self _ _ Hy1) as Ky.
  pose proof (google_view_keyed convert_iso_timezone self _ _ Hg1) as Kg.
  pose proof Hrun as Hfirst.
  rewrite sync_run in Hrun. cbv zeta in Hrun. rewrite Hy1, Hg1, reconcile_run in Hrun.
  cbv zeta in Hrun.
  destruct (for_each (omap (g1 !!.) _) YandexCalendarClient.add_event _)
    as [[x|[]] wa] eqn:Hloop1; [discriminate|].
  assert (Hally : forall ev,
            ev ∈ omap (g1 !!.) (set_iter (CalendarSyncManager.yandex_missing_keys y1 g1)) ->
            returns_from_yandex self ev = true).
  { intros ev Hev. apply list_elem_of_omap in Hev as (k & Hk & Hlook).
    apply elem_of_set_iter in Hk. exact (Hmy k ev Hk Hlook). }
  assert (Hallg : forall ev,
            ev ∈ omap (y1 !!.) (set_iter (CalendarSyncManager.google_missing_keys y1 g1)) ->
            returns_from_google self ev = true).
  { intros ev Hev. apply list_elem_of_omap in Hev as (k & Hk & Hlook).
    apply elem_of_set_iter in Hk. exact (Hmg k ev Hk Hlook). }
  (* the loop over the keys missing in Yandex *)
  eapply (yandex_loop_returns self Happ) in Hloop1 as (Hga & ya & Hya & Hdomya);
    [|exact Hally|exact Hy1].
  cbn [google log] in Hga.
  (* the loop over the keys missing in Google *)
  eapply (google_loop_returns self Happ convert_iso_timezone Hhelper Hlimits)
    in Hrun as (Hyb & g2 & Hg2 & Hdomg2);
    [|exact Hallg|cbn [google log]; rewrite Hga; exact Hg1].
  cbn [yandex log] in Hyb.
  rewrite (keys_of_records g1 (CalendarSyncManager.yandex_missing_keys y1 g1))
    in Hdomya
    by first [exact Kg | intros k; apply elem_of_set_iter
             | rewrite yandex_missing_keys_alt; set_solver].
  rewrite (keys_of_records y1 (CalendarSyncManager.google_missing_keys y1 g1))
    in Hdomg2
    by first [exact Ky | intros k; apply elem_of_set_iter
             | rewrite google_missing_keys_alt; set_solver].
  rewrite yandex_missing_keys_alt in Hdomya.
  rewrite google_missing_keys_alt in Hdomg2.
  assert (Dy : dom ya = dom y1 ∪ dom g1).
  { rewrite Hdomya. apply set_eq. intros k.
    rewrite !elem_of_union, elem_of_difference.
    destruct (decide (k ∈ dom y1)); tauto. }
  assert (Dg : dom g2 = dom y1 ∪ dom g1).
  { rewrite Hdomg2. apply set_eq. intros k.
    rewrite !elem_of_union, elem_of_difference.
    destruct (decide (k ∈ dom g1)); tauto. }
  rewrite <- Hyb in Hya.
  assert (Hdom : dom ya = dom g2) by (by rewrite Dy, Dg).
  assert (Hmy2 : CalendarSyncManager.yandex_missing_keys ya g2 = ∅)
    by (rewrite yandex_missing_keys_alt, Hdom; set_solver).
  assert (Hmg2 : CalendarSyncManager.google_missing_keys ya g2 = ∅)
    by (rewrite google_missing_keys_alt, Hdom; set_solver).
  assert (Hsecond :
    CalendarSyncManager.sync convert_iso_timezone self w1
    = (Ok tt,
       log w1
         [CalSearch (CalendarSyncManager.time_limit self)
                    (CalendarSyncManager.time_limit_future self);
          EventsList (google_calname (CalendarSyncManager.config self))
            (DateTime.isoformat_seconds (CalendarSyncManager.time_limit self))
            (DateTime.isoformat_seconds (CalendarSyncManager.time_limit_future self));
          Print (LineTotals (size (CalendarSyncManager.all_events ya g2))
                            (size ya) (size g2));
          Print (LineMissingYandex ∅); Print (LineMissingGoogle ∅)])).
  { rewrite sync_run. cbv zeta. rewrite Hya, Hg2.
    rewrite (reconcile_idle _ _ _ _ Hmy2 Hmg2), log_log. reflexivity. }
  eexists ya, g2, _. split; [|split; [exact Dy|split; [exact Dg|]]].
  - split; [exact Hfirst|exact Hsecond|exact Hy1|exact Hg1|exact Hya|exact Hg2].
  - exact (sync_idle convert_iso_timezone self w1 _ ya g2 Hya Hg2 Hdom Hsecond).
Qed.

End TwoRuns.

Lemma second_run_idle_unless_skipped_witness :
  exists (y2 g2 : gmap string EventData) (w2 : World),
    two_runs convert_iso_timezone_spec Sample.manager
             Scenario.both_sides Scenario.both_sides_after_1 w2
             {[ Scenario.key_meeting := Sample.ev_meeting ]}
             {[ Scenario.key_untitled := Sample.ev_untitled ]} y2 g2
    /\ dom y2 = {[ Scenario.key_meeting ]} ∪ {[ Scenario.key_untitled ]}
    /\ dom g2 = {[ Scenario.key_meeting ]} ∪ {[ Scenario.key_untitled ]}
    /\ second_run_idle Scenario.both_sides_after_1 w2 y2 g2.
Proof.
  rewrite <- (dom_singleton_L (M := gmap string) Scenario.key_meeting Sample.ev_meeting).
  rewrite <- (dom_singleton_L (M := gmap string) Scenario.key_untitled Sample.ev_untitled).
  apply (second_run_idle_unless_skipped (env := Ref.environment)
           convert_iso_timezone_spec Sample.manager Sample.now Sample.config).
  - exact ref_keeps_appends.
  - exact convert_spec_keeps_canonical.
  - vm_refl.
  - vm_refl.
  - vm_refl.
  - vm_refl.
  - intros k ev _ Hlook. apply lookup_singleton_Some in Hlook as [_ <-]. vm_refl.
  - intros k ev _ Hlook. apply lookup_singleton_Some in Hlook as [_ <-]. vm_refl.
Defined.

(** ** The last second of the window *)

Section LastSecond.
Context {env : Environment}.

(** X23. The window check and the listing disagree on the last second of
    the window. For a manager whose limits [__init__] computed and a
    record whose start is aware, not before [time_limit], not before
    [time_limit_future] cut to whole seconds and not after
    [time_limit_future]: [GoogleCalendarClient.add_event] does not skip
    the record, it inserts it; and the item inserted is outside what a
    listing with the [timeMin] and [timeMax] of [get_events] selects,
    because [timeMax] is [time_limit_future] cut to whole seconds and
    bounds the start from above, exclusively. *)
Theorem last_second_written_not_listed (now : DateTime.t) (cfg : Config)
    (self : CalendarSyncManager.t) (ev : EventData) (ds de : DateTime.t) (w : World) :
  let tl := CalendarSyncManager.time_limit self in
  let tlf := CalendarSyncManager.time_limit_future self in
  let calId := google_calname (CalendarSyncManager.config self) in
  let body := mkGBody (name ev) (description ev) (start ev) "UTC" (end_ ev) "UTC" in
  let t := [CallGoogleAdd ev tl tlf; EventsInsert calId body] in
  CalendarSyncManager.__init__ now cfg = Ok self ->
  DateTime.fromisoformat (start ev) = Ok ds -> aware ds = true ->
  DateTime.fromisoformat (end_ ev) = Ok de ->
  instant tl <= instant ds ->
  instant (DateTime.replace_microsecond tlf 0) <= instant ds <= instant tlf ->
  GoogleCalendarClient.add_event (CalendarSyncManager.config self) ev tl tlf w
  = match events_insert (google w) calId body with
    | Raise e => (Raise e, log w t)
    | Ok g' => (Ok tt, mkWorld (yandex w) g' (rng w) (trace w ++ t))
    end
  /\ Ref.listed (DateTime.isoformat_seconds tl) (DateTime.isoformat_seconds tlf)
                (Ref.inserted body) = false.
Proof.
  intros tl tlf calId body t Hinit Ps As Pe Hlo [Hcut Hhi].
  pose proof (init_limits_valid _ _ _ Hinit) as Hlimits.
  destruct (init_limits_aware _ _ _ Hinit) as (V1 & A1 & V2 & A2).
  split.
  - rewrite (google_add_event_aware _ ev _ _ ds w V1 A1 V2 A2 Ps As).
    fold tl tlf.
    destruct (Z.leb_spec (instant tl) (instant ds)) as [_|]; [|lia].
    destruct (Z.leb_spec (instant ds) (instant tlf)) as [_|]; [|lia].
    reflexivity.
  - unfold body, tl, tlf. rewrite (inserted_listed self Hlimits ev ds de Ps Pe).
    fold tl tlf.
    destruct (Z.ltb_spec (instant ds) (instant (DateTime.replace_microsecond tlf 0)))
      as [|_]; [lia|]. apply andb_false_r.
Qed.

End LastSecond.

(** "Edge" starts at 23:59:59 on the last day of the window. *)
Lemma last_second_written_not_listed_witness :
  let w := Ref.world [[Cases.vevent_edge]] [] in
  GoogleCalendarClient.add_event Sample.config Cases.ev_edge
    Scenario.time_limit Scenario.time_limit_future w
  = (Ok tt,
     mkWorld (env := Ref.environment) (Ref.mkY true [[Cases.vevent_edge]])
       (Ref.mkG true [Ref.inserted Cases.body_edge]) 0
       [CallGoogleAdd Cases.ev_edge Scenario.time_limit Scenario.time_limit_future;
        EventsInsert "primary" Cases.body_edge])
  /\ Ref.listed "2024-06-08T00:00:00+00:00" "2024-07-15T23:59:59+00:00"
                (Ref.inserted Cases.body_edge) = false.
Proof.
  destruct (last_second_written_not_listed (env := Ref.environment)
              Sample.now Sample.config Sample.manager Cases.ev_edge
              Cases.edge_start Cases.edge_end (Ref.world [[Cases.vevent_edge]] []))
    as [H1 H2]; try vm_refl.
  - vm_compute. discriminate.
  - split; vm_compute; discriminate.
  - split; [refine (eq_trans H1 _); vm_refl|exact H2].
Defined.

(** X24. Three runs in a row on the reference providers, Yandex holding
    "Edge" and Google nothing at first. "Edge" starts inside the window,
    in its last second. Every run fetches it from Yandex, does not get
    it from the Google listing, finds it missing in Google and inserts it:
    after three runs Google holds three copies. *)
Theorem last_second_written_every_run :
  within Sample.manager Cases.edge_start = true
  /\ returns_from_google Sample.manager Cases.ev_edge = false
  /\ CalendarSyncManager.sync convert_iso_timezone_spec Sample.manager
       (Cases.edge_after 0)
     = (Ok tt, Cases.edge_after 1)
  /\ CalendarSyncManager.sync convert_iso_timezone_spec Sample.manager
       (Cases.edge_after 1)
     = (Ok tt, Cases.edge_after 2)
  /\ CalendarSyncManager.sync convert_iso_timezone_spec Sample.manager
       (Cases.edge_after 2)
     = (Ok tt, Cases.edge_after 3)
  /\ remote_writes (trace (Cases.edge_after 3))
     = [EventsInsert "primary" Cases.body_edge; EventsInsert "primary" Cases.body_edge;
        EventsInsert "primary" Cases.body_edge].
Proof. repeat split; vm_refl. Qed.
